(** * Deep structural causal model, SVI experiment (sem_vi/base_sem_experiment.py)

    A shallow embedding of [CustomELBO], [BaseVISEM] and [SVIExperiment].

    Python objects are modelled as follows.
    - A [dict] with string keys is an association list in insertion order
      (assignment to an existing key keeps its position, as in Python).
    - Scalar log-probabilities and the loss are IEEE-754 values
      ([spec_float], binary32 arithmetic for tensor subtraction).
    - Image and covariate tensors, distributions, the random stream, the
      learned parameters and the Pyro / torch primitives are the fields of
      the [Backend] class: they belong to external collaborators.
    - Methods run in a state-and-exception monad; the state is kept when an
      exception is raised, so effects that precede a raise stay visible. *)

From Stdlib Require Import List String Ascii Bool Arith ZArith Lia.
From Stdlib Require Import Floats.SpecFloat.
From Stdlib Require Import DecimalString DecimalN NArith.
Import ListNotations.
Open Scope string_scope.

Set Implicit Arguments.

(** ** Python dictionaries *)

Section Dict.
Context {V : Type}.

Definition dict : Type := list (string * V).

(** [d[k]] lookup; [None] stands for the [KeyError] case. *)
Fixpoint dict_get (k : string) (d : dict) : option V :=
  match d with
  | [] => None
  | (k', v) :: d' => if String.eqb k k' then Some v else dict_get k d'
  end.

(** [d[k] = v] *)
Fixpoint dict_set (k : string) (v : V) (d : dict) : dict :=
  match d with
  | [] => [(k, v)]
  | (k', v') :: d' =>
      if String.eqb k k' then (k', v) :: d' else (k', v') :: dict_set k v d'
  end.

(** [d.keys()] *)
Definition dict_keys (d : dict) : list string := map fst d.

(** [k in d.keys()] *)
Definition dict_mem (k : string) (d : dict) : bool :=
  existsb (String.eqb k) (dict_keys d).

(** [{**d1, **d2}] *)
Definition dict_merge (d1 d2 : dict) : dict :=
  fold_left (fun acc kv => dict_set (fst kv) (snd kv) acc) d2 d1.
End Dict.

Arguments dict V : clear implicits.

(** [set(ks1) == set(ks2)] on key collections. *)
Definition subsetb (ks1 ks2 : list string) : bool :=
  forallb (fun k => existsb (String.eqb k) ks2) ks1.

Definition set_eqb (ks1 ks2 : list string) : bool :=
  subsetb ks1 ks2 && subsetb ks2 ks1.

(** [repr] of a string, over code points below 256 (one [ascii] each).
    The string is quoted with single quotes, or with double quotes when it
    holds a single quote and no double quote.  The quote in use and the
    backslash are escaped by a backslash; tab, newline and carriage return
    are written [\t], [\n], [\r]; the other characters that are not
    printable (below 32, 127 to 160, and 173) are written [\xhh] with two
    lowercase hexadecimal digits; every other character stands for itself. *)
Definition single_quote : ascii := ascii_of_nat 39.
Definition double_quote : ascii := ascii_of_nat 34.
Definition backslash : ascii := ascii_of_nat 92.

Definition hex_digit (n : nat) : ascii :=
  nth n (list_ascii_of_string "0123456789abcdef") "0"%char.

Definition repr_char (quote c : ascii) : string :=
  let n := nat_of_ascii c in
  if Ascii.eqb c quote || Ascii.eqb c backslash then
    String backslash (String c EmptyString)
  else if (n =? 9)%nat then String backslash "t"
  else if (n =? 10)%nat then String backslash "n"
  else if (n =? 13)%nat then String backslash "r"
  else if ((n <? 32) || ((127 <=? n) && (n <=? 160)) || (n =? 173))%nat then
    String backslash
      (String "x" (String (hex_digit (n / 16))
                     (String (hex_digit (n mod 16)) EmptyString)))
  else String c EmptyString.

Fixpoint has_char (c : ascii) (s : string) : bool :=
  match s with
  | EmptyString => false
  | String c' s' => Ascii.eqb c c' || has_char c s'
  end.

Fixpoint repr_chars (quote : ascii) (s : string) : string :=
  match s with
  | EmptyString => EmptyString
  | String c s' => repr_char quote c ++ repr_chars quote s'
  end.

Definition repr_str (s : string) : string :=
  let quote :=
    if has_char single_quote s && negb (has_char double_quote s)
    then double_quote else single_quote in
  String quote (repr_chars quote s ++ String quote EmptyString).

(** [repr] of a tuple of strings. *)

Definition repr_tuple (ks : list string) : string :=
  match ks with
  | [] => "()"
  | [k] => "(" ++ repr_str k ++ ",)"
  | _ => "(" ++ String.concat ", " (map repr_str ks) ++ ")"
  end.

Definition str_of_nat (n : nat) : string :=
  NilEmpty.string_of_uint (Nat.to_uint n).

(** ** Exceptions and the method monad *)

Inductive exn : Type :=
| AssertionError (msg : string)
| AttributeError (msg : string)
| KeyError (key : string)
| ValueError (msg : string)
| RuntimeError (msg : string)
| ZeroDivisionError
| Exception.

Inductive result (A : Type) : Type :=
| Ok (a : A)
| Raise (e : exn).

Arguments Ok {A} a.
Arguments Raise {A} e.

Section Monad.
Variable St : Type.

Definition M (A : Type) : Type := St -> result A * St.

Definition ret {A} (a : A) : M A := fun s => (Ok a, s).

Definition raise {A} (e : exn) : M A := fun s => (Raise e, s).

Definition bind {A B} (m : M A) (k : A -> M B) : M B :=
  fun s =>
    match m s with
    | (Ok a, s') => k a s'
    | (Raise e, s') => (Raise e, s')
    end.

Definition get : M St := fun s => (Ok s, s).

Definition modify (f : St -> St) : M unit := fun s => (Ok tt, f s).

(** A computation that leaves a projection of the state unchanged. *)
Definition preserves {A P} (proj : St -> P) (m : M A) : Prop :=
  forall s, proj (snd (m s)) = proj s.
End Monad.

Arguments ret {St A} a.
Arguments raise {St A} e.
Arguments bind {St A B} m k.
Arguments get {St}.
Arguments modify {St} f.
Arguments preserves {St A P} proj m.

Declare Scope py_scope.
Delimit Scope py_scope with py.
Notation "x <- m ;; k" := (bind m (fun x => k))
  (at level 100, m at next level, right associativity) : py_scope.
Notation "' p <- m ;; k" := (bind m (fun x => let p := x in k))
  (at level 100, p pattern, m at next level, right associativity) : py_scope.
Notation "m ;;; k" := (bind m (fun _ => k))
  (at level 100, right associativity) : py_scope.
Open Scope py_scope.

(** IEEE-754 predicates on scalars. *)
Definition is_nan (f : spec_float) : bool :=
  match f with S754_nan => true | _ => false end.

Definition is_finite (f : spec_float) : bool :=
  match f with S754_zero _ | S754_finite _ _ _ => true | _ => false end.

(** Subtraction of two 0-dim float32 tensors. *)
Definition tensor_sub (a b : spec_float) : spec_float := SFsub 24 128 a b.

(** ** External collaborators: carriers *)

Class Carrier : Type := {
  Tensor : Type;     (* torch tensors: images, covariates, latent codes *)
  Dist : Type;       (* distribution objects held by trace sites *)
  Rng : Type;        (* the process-wide random stream *)
  Params : Type;     (* learned parameters of model and guide *)
  Grad : Type;       (* a gradient estimate for [Params] *)
  Callable : Type    (* model / guide programs handed to the estimator *)
}.

Section Traces.
Context {C : Carrier}.

Inductive site_type : Type := SampleSite | ParamSite.

(** One node of a Pyro trace, after [compute_log_prob] /
    [compute_score_parts]. *)
Record Site : Type := {
  s_type : site_type;
  s_value : Tensor;
  s_fn : Dist;
  s_log_prob_sum : spec_float;
  s_entropy_sum : spec_float;      (* score_parts.entropy_term.sum() *)
  s_is_observed : bool
}.

(** [trace.nodes]: an ordered mapping from site name to site. *)
Definition Nodes : Type := dict Site.

(** A trace object.  [oid] is the identity of the Python object: two
    traces are the same object exactly when their [oid]s agree. *)
Record Trace : Type := { oid : nat; nodes : Nodes }.

(** Calls into the abstract methods of the SEM and into [pyro.sample],
    recorded in call order. *)
Inductive Call : Type :=
| CallGuide (obs : dict Tensor)
| CallPyroSample (name : string) (d : Dist)
| CallInferExogeneous (z : Tensor) (obs : dict Tensor)
| CallSample (data : dict Tensor) (n : nat)
| CallSampleScm (data : dict Tensor) (do_data : dict Tensor) (n : nat).

Record State : Type := {
  rng : Rng;
  params : Params;
  next_oid : nat;                          (* allocator of object identities *)
  trace_storage : dict (option Trace);     (* CustomELBO.trace_storage *)
  logger : list (string * string);         (* logger.experiment.add_text *)
  stdout : list string;                    (* print *)
  calls : list Call;
  current_epoch : nat
}.

Definition set_rng (g : Rng) (s : State) : State :=
  {| rng := g; params := params s; next_oid := next_oid s;
     trace_storage := trace_storage s; logger := logger s;
     stdout := stdout s; calls := calls s;
     current_epoch := current_epoch s |}.

Definition set_params (p : Params) (s : State) : State :=
  {| rng := rng s; params := p; next_oid := next_oid s;
     trace_storage := trace_storage s; logger := logger s;
     stdout := stdout s; calls := calls s;
     current_epoch := current_epoch s |}.

Definition set_next_oid (n : nat) (s : State) : State :=
  {| rng := rng s; params := params s; next_oid := n;
     trace_storage := trace_storage s; logger := logger s;
     stdout := stdout s; calls := calls s;
     current_epoch := current_epoch s |}.

Definition set_trace_storage (ts : dict (option Trace)) (s : State) : State :=
  {| rng := rng s; params := params s; next_oid := next_oid s;
     trace_storage := ts; logger := logger s;
     stdout := stdout s; calls := calls s;
     current_epoch := current_epoch s |}.

Definition add_text (tag text : string) (s : State) : State :=
  {| rng := rng s; params := params s; next_oid := next_oid s;
     trace_storage := trace_storage s; logger := logger s ++ [(tag, text)];
     stdout := stdout s; calls := calls s;
     current_epoch := current_epoch s |}.

Definition print_line (line : string) (s : State) : State :=
  {| rng := rng s; params := params s; next_oid := next_oid s;
     trace_storage := trace_storage s; logger := logger s;
     stdout := stdout s ++ [line]; calls := calls s;
     current_epoch := current_epoch s |}.

Definition record_call (c : Call) (s : State) : State :=
  {| rng := rng s; params := params s; next_oid := next_oid s;
     trace_storage := trace_storage s; logger := logger s;
     stdout := stdout s; calls := calls s ++ [c];
     current_epoch := current_epoch s |}.

(** Values of the mappings returned by the step methods. *)
Inductive scalar : Type :=
| TensorScalar (f : spec_float)    (* a 0-dim tensor *)
| PyFloat (f : spec_float).        (* a Python float *)

Inductive step_val : Type :=
| SVScalar (v : scalar)
| SVTensor1 (f : spec_float)       (* torch.Tensor([loss]) *)
| SVLog (d : dict scalar).

Record HParams : Type := {
  validate : bool;
  use_cf_guide : bool;
  cf_elbo_type : Z;
  num_svi_particles : nat
}.
End Traces.

(** ** External collaborators: operations *)

Class Backend {C : Carrier} : Type := {
  (* torch *)
  t_mul255 : Tensor -> Tensor;                      (* t * 255. *)
  t_unsqueeze1_float : Tensor -> Tensor;            (* t.unsqueeze(1).float() *)
  t_float : Tensor -> Tensor;                       (* t.float() *)
  t_add : Tensor -> Tensor -> Tensor;
  t_rand_like : Tensor -> Rng -> Tensor * Rng;      (* torch.rand_like *)
  t_shape0 : Tensor -> nat;                         (* t.shape[0] *)
  t_stack_mean0 : list Tensor -> Tensor;            (* torch.stack(ts).mean(0), ts non-empty *)
  str_metrics : dict spec_float -> string;          (* str() of a metrics dict *)
  (* pyro.distributions *)
  unwrap_independent : Dist -> Dist;                (* fn.base_dist if Independent *)
  has_concentration : Dist -> bool;                 (* fn has concentration0/1 *)
  dist_sample : Dist -> Rng -> Tensor * Rng;        (* pyro.sample outside handlers *)
  (* pyro.infer: guide trace, replayed model trace, pruned, scored;
     the result is (model nodes, guide nodes) *)
  get_importance_trace :
    Callable -> Callable -> list Tensor -> dict Tensor -> Params -> Rng ->
    (Nodes * Nodes) * Rng;
  estimator_loss : list (Nodes * Nodes) -> spec_float;       (* ELBO.loss *)
  estimator_step_loss : list (Nodes * Nodes) -> spec_float;  (* loss of ELBO.loss_and_grads *)
  estimator_grads : list (Nodes * Nodes) -> Grad;
  adam_update : Params -> Grad -> Params;
  (* the concrete SEM *)
  svi_model_fn : Callable;                          (* BaseVISEM.svi_model *)
  svi_guide_fn : Callable;                          (* BaseVISEM.svi_guide *)
  counterfactual_guide_fn : Z -> Callable;
  guide : Params -> dict Tensor -> Rng -> (Tensor * Nodes) * Rng;
  infer_exogeneous : Params -> Tensor -> dict Tensor -> dict Tensor;
  sample_conditioned :                              (* condition(self.sample, data)(n) *)
    Params -> dict Tensor -> nat -> Rng -> list Tensor * Rng;
  sample_scm_do :                                   (* do(condition(self.sample_scm, data), data')(n) *)
    Params -> dict Tensor -> dict Tensor -> nat -> Rng -> list Tensor * Rng
}.

Definition nl : string := String (ascii_of_nat 10) EmptyString.

Section Program.
Context {C : Carrier} {B : Backend}.

Abbreviation Py := (M State).

(** *** Primitive effects *)

Definition print (line : string) : Py unit := modify (print_line line).

Definition rand_like (t : Tensor) : Py Tensor :=
  fun s => let r := t_rand_like t (rng s) in (Ok (fst r), set_rng (snd r) s).

(** [pyro.sample(name, d)] with no handler installed. *)
Definition pyro_sample (name : string) (d : Dist) : Py Tensor :=
  fun s =>
    let r := dist_sample d (rng s) in
    (Ok (fst r), record_call (CallPyroSample name d) (set_rng (snd r) s)).

(** [self.guide] called on the entries of [obs], under [poutine.trace]:
    return value and nodes. *)
Definition run_guide (obs : dict Tensor) : Py (Tensor * Nodes) :=
  fun s =>
    let r := guide (params s) obs (rng s) in
    (Ok (fst r), record_call (CallGuide obs) (set_rng (snd r) s)).

Definition run_infer_exogeneous (z : Tensor) (obs : dict Tensor)
  : Py (dict Tensor) :=
  fun s =>
    (Ok (infer_exogeneous (params s) z obs),
     record_call (CallInferExogeneous z obs) s).

Definition run_sample (data : dict Tensor) (n : nat) : Py (list Tensor) :=
  fun s =>
    let r := sample_conditioned (params s) data n (rng s) in
    (Ok (fst r), record_call (CallSample data n) (set_rng (snd r) s)).

Definition run_sample_scm (data do_data : dict Tensor) (n : nat)
  : Py (list Tensor) :=
  fun s =>
    let r := sample_scm_do (params s) data do_data n (rng s) in
    (Ok (fst r), record_call (CallSampleScm data do_data n) (set_rng (snd r) s)).

(** [d[k]] on a tensor mapping. *)
Definition getitem (k : string) (d : dict Tensor) : Py Tensor :=
  match dict_get k d with
  | Some t => ret t
  | None => raise (KeyError k)
  end.

(** [torch.stack(ts).mean(0)] *)
Definition stack_mean0 (ts : list Tensor) : Py Tensor :=
  match ts with
  | [] => raise (RuntimeError "stack expects a non-empty TensorList")
  | _ => ret (t_stack_mean0 ts)
  end.

(** Guide trace, model trace replayed against it, both pruned and scored:
    two fresh trace objects.  This is the body of Pyro's
    [get_importance_trace], and what [print_trace_updates] spells out. *)
Definition importance_traces (model guide_ : Callable) (args : list Tensor)
    (kwargs : dict Tensor) : Py (Trace * Trace) :=
  fun s =>
    let r := get_importance_trace model guide_ args kwargs (params s) (rng s) in
    let guide_trace := {| oid := next_oid s; nodes := snd (fst r) |} in
    let model_trace := {| oid := S (next_oid s); nodes := fst (fst r) |} in
    (Ok (model_trace, guide_trace),
     set_next_oid (S (S (next_oid s))) (set_rng (snd r) s)).

(** *** class CustomELBO(TraceGraph_ELBO) *)

(** [CustomELBO.__init__] *)
Definition CustomELBO_init : dict (option Trace) :=
  [("model", None); ("guide", None)].

(** [TraceGraph_ELBO._get_trace] (Pyro) *)
Definition TraceGraph_ELBO_get_trace (model guide_ : Callable)
    (args : list Tensor) (kwargs : dict Tensor) : Py (Trace * Trace) :=
  importance_traces model guide_ args kwargs.

(** [CustomELBO._get_trace] *)
Definition CustomELBO_get_trace (model guide_ : Callable)
    (args : list Tensor) (kwargs : dict Tensor) : Py (Trace * Trace) :=
  p <- TraceGraph_ELBO_get_trace model guide_ args kwargs ;;
  let model_trace := fst p in
  let guide_trace := snd p in
  modify (fun s => set_trace_storage
                     (dict_set "model" (Some model_trace) (trace_storage s)) s) ;;;
  modify (fun s => set_trace_storage
                     (dict_set "guide" (Some model_trace) (trace_storage s)) s) ;;;
  ret (model_trace, guide_trace).

(** *** The estimator and SVI driver (Pyro), open in [_get_trace]

    [ELBO._get_traces] calls [self._get_trace] once per particle; loss and
    gradient estimate are computed from the traces so obtained. *)

Definition get_trace_method : Type :=
  Callable -> Callable -> list Tensor -> dict Tensor -> Py (Trace * Trace).

Fixpoint get_traces (get_trace : get_trace_method) (num_particles : nat)
    (model guide_ : Callable) (args : list Tensor) (kwargs : dict Tensor)
  : Py (list (Trace * Trace)) :=
  match num_particles with
  | O => ret []
  | S n =>
      p <- get_trace model guide_ args kwargs ;;
      ps <- get_traces get_trace n model guide_ args kwargs ;;
      ret (p :: ps)
  end.

Definition trace_nodes (p : Trace * Trace) : Nodes * Nodes :=
  (nodes (fst p), nodes (snd p)).

(** [ELBO.loss] *)
Definition elbo_loss (get_trace : get_trace_method) (num_particles : nat)
    (model guide_ : Callable) (args : list Tensor) (kwargs : dict Tensor)
  : Py spec_float :=
  ps <- get_traces get_trace num_particles model guide_ args kwargs ;;
  ret (estimator_loss (map trace_nodes ps)).

(** [ELBO.loss_and_grads]: its own computation of the loss, apart from
    [ELBO.loss], and the gradient estimate; it divides by the number of
    particles, so none makes it raise [ZeroDivisionError]. *)
Definition elbo_loss_and_grads (get_trace : get_trace_method)
    (num_particles : nat) (model guide_ : Callable) (args : list Tensor)
    (kwargs : dict Tensor) : Py (spec_float * Grad) :=
  match num_particles with
  | O => raise ZeroDivisionError
  | S _ =>
      ps <- get_traces get_trace num_particles model guide_ args kwargs ;;
      ret (estimator_step_loss (map trace_nodes ps),
           estimator_grads (map trace_nodes ps))
  end.

Record SVI : Type := {
  svi_model : Callable;
  svi_guide : Callable;
  svi_num_particles : nat      (* of [svi.loss_class], a CustomELBO *)
}.

(** [SVI.step]: loss and gradients, then one optimizer update. *)
Definition svi_step (svi : SVI) (kwargs : dict Tensor) : Py spec_float :=
  lg <- elbo_loss_and_grads CustomELBO_get_trace (svi_num_particles svi)
          (svi_model svi) (svi_guide svi) [] kwargs ;;
  modify (fun s => set_params (adam_update (params s) (snd lg)) s) ;;;
  ret (fst lg).

(** [SVI.evaluate_loss]: the loss only. *)
Definition svi_evaluate_loss (svi : SVI) (kwargs : dict Tensor)
  : Py spec_float :=
  elbo_loss CustomELBO_get_trace (svi_num_particles svi)
    (svi_model svi) (svi_guide svi) [] kwargs.

(** *** class BaseVISEM(BaseSEM) *)

Definition required_data : list string :=
  ["x"; "sex"; "age"; "ventricle_volume"; "brain_volume"].

(** [assert set(obs.keys()) == set(_required_data), 'got: {}'.format(tuple(obs.keys()))] *)
Definition assert_required (obs : dict Tensor) : Py unit :=
  if set_eqb (dict_keys obs) required_data then ret tt
  else raise (AssertionError ("got: " ++ repr_tuple (dict_keys obs))).

(** [BaseVISEM.infer_z] *)
Definition infer_z (obs : dict Tensor) : Py Tensor :=
  r <- run_guide obs ;;
  ret (fst r).

(** [BaseVISEM.infer] *)
Definition infer (obs : dict Tensor) : Py (dict Tensor) :=
  assert_required obs ;;;
  z <- infer_z obs ;;
  exogeneous <- run_infer_exogeneous z obs ;;
  let exogeneous := dict_set "z" z exogeneous in
  ret exogeneous.

(** [pyro.poutine.trace(self.guide).get_trace(...).nodes['z']['fn']] *)
Definition guide_z_dist (obs : dict Tensor) : Py Dist :=
  r <- run_guide obs ;;
  match dict_get "z" (snd r) with
  | Some site => ret (s_fn site)
  | None => raise (KeyError "z")
  end.

(** The data [reconstruct] conditions [self.sample] on. *)
Definition recon_data (sex age ventricle_volume brain_volume z : Tensor)
  : dict Tensor :=
  [("sex", sex); ("age", age); ("ventricle_volume", ventricle_volume);
   ("brain_volume", brain_volume); ("z", z)].

(** The [for _ in range(num_particles)] loop of [reconstruct]. *)
Fixpoint reconstruct_loop (num_particles : nat) (z_dist : Dist)
    (x age sex ventricle_volume brain_volume : Tensor)
    (recons : list Tensor) : Py (list Tensor) :=
  match num_particles with
  | O => ret recons
  | S n =>
      z <- pyro_sample "z" z_dist ;;
      out <- run_sample (recon_data sex age ventricle_volume brain_volume z)
               (t_shape0 x) ;;
      match out with
      | recon :: _ =>
          reconstruct_loop n z_dist x age sex ventricle_volume brain_volume
            (recons ++ [recon])
      | [] => raise (ValueError "not enough values to unpack")
      end
  end.

(** [BaseVISEM.reconstruct] *)
Definition reconstruct (x age sex ventricle_volume brain_volume : Tensor)
    (num_particles : nat) : Py Tensor :=
  let obs := [("x", x); ("sex", sex); ("age", age);
              ("ventricle_volume", ventricle_volume);
              ("brain_volume", brain_volume)] in
  z_dist <- guide_z_dist obs ;;
  recons <- reconstruct_loop num_particles z_dist
              x age sex ventricle_volume brain_volume [] ;;
  stack_mean0 recons.

(** [zip] applied to the unpacked [rows]: their columns, as long as the
    shortest row;
    no column when there is no row. *)
Fixpoint all_heads (rows : list (list Tensor)) : option (list Tensor) :=
  match rows with
  | [] => Some []
  | [] :: _ => None
  | (h :: _) :: rest =>
      match all_heads rest with
      | Some hs => Some (h :: hs)
      | None => None
      end
  end.

Fixpoint zip_columns (fuel : nat) (rows : list (list Tensor))
  : list (list Tensor) :=
  match fuel with
  | O => []
  | S f =>
      match all_heads rows with
      | Some hs => hs :: zip_columns f (map (@tl Tensor) rows)
      | None => []
      end
  end.

Definition zip_star (rows : list (list Tensor)) : list (list Tensor) :=
  match rows with
  | [] => []
  | r :: _ => zip_columns (List.length r) rows
  end.

Definition counterfactual_names : list string :=
  ["x"; "z"; "sex"; "age"; "ventricle_volume"; "brain_volume"].

(** The exogenous mapping one particle hands to the conditioned
    [sample_scm] (lines 123-127). *)
Definition particle_exogeneous (z : Tensor) (obs condition : dict Tensor)
    (exogeneous : dict Tensor) : Py (dict Tensor) :=
  let exogeneous := dict_set "z" z exogeneous in
  if negb (dict_mem "sex" condition) then
    sex <- getitem "sex" obs ;;
    ret (dict_set "sex" sex exogeneous)
  else ret exogeneous.

(** The [for _ in range(num_particles)] loop of [counterfactual];
    [condition = None] is the declared default. *)
Fixpoint counterfactual_loop (num_particles : nat) (z_dist : Dist)
    (obs : dict Tensor) (condition : option (dict Tensor))
    (counterfactuals : list (list Tensor)) : Py (list (list Tensor)) :=
  match num_particles with
  | O => ret counterfactuals
  | S n =>
      z <- pyro_sample "z" z_dist ;;
      exogeneous <- run_infer_exogeneous z obs ;;
      match condition with
      | None =>
          raise (AttributeError "'NoneType' object has no attribute 'keys'")
      | Some cond =>
          exogeneous <- particle_exogeneous z obs cond exogeneous ;;
          x <- getitem "x" obs ;;
          counter <- run_sample_scm exogeneous cond (t_shape0 x) ;;
          counterfactual_loop n z_dist obs condition
            (counterfactuals ++ [counter])
      end
  end.

(** [BaseVISEM.counterfactual] *)
Definition counterfactual (obs : dict Tensor)
    (condition : option (dict Tensor)) (num_particles : nat)
  : Py (dict Tensor) :=
  assert_required obs ;;;
  z_dist <- guide_z_dist obs ;;
  counterfactuals <- counterfactual_loop num_particles z_dist obs condition [] ;;
  ret (combine counterfactual_names
         (map t_stack_mean0 (zip_star counterfactuals))).

(** *** class SVIExperiment(BaseCovariateExperiment) *)

Record SVIExperiment : Type := {
  hparams : HParams;
  svi : SVI
}.

(** [SVIExperiment._build_svi]: the guide is chosen once. *)
Definition build_svi (hp : HParams) : SVI :=
  if use_cf_guide hp then
    {| svi_model := svi_model_fn;
       svi_guide := counterfactual_guide_fn (cf_elbo_type hp);
       svi_num_particles := num_svi_particles hp |}
  else
    {| svi_model := svi_model_fn;
       svi_guide := svi_guide_fn;
       svi_num_particles := num_svi_particles hp |}.

(** [SVIExperiment.__init__] *)
Definition SVIExperiment_init (hp : HParams) : SVIExperiment :=
  {| hparams := hp; svi := build_svi hp |}.

(** Body of the loop over [model_trace.nodes.items()].  Printed lines keep
    the site name; the rendering of tensors and distributions is left out. *)
Definition print_model_site (name : string) (site : Site) : Py unit :=
  match s_type site with
  | SampleSite =>
      let fn := unwrap_independent (s_fn site) in
      print (name ++ ": fn - support") ;;;
      print ("model - log p(" ++ name ++ ")") ;;;
      if is_nan (s_log_prob_sum site) then
        if has_concentration fn then
          print "got:" ;;;
          raise Exception
        else raise (AttributeError "concentration0")
      else ret tt
  | ParamSite => ret tt
  end.

(** Body of the loop over [guide_trace.nodes.items()]. *)
Definition print_guide_site (name : string) (site : Site) : Py unit :=
  match s_type site with
  | SampleSite =>
      print (name ++ ": fn - support") ;;;
      print ("guide - log q(" ++ name ++ ")")
  | ParamSite => ret tt
  end.

Fixpoint for_each_site (body : string -> Site -> Py unit) (ns : Nodes)
  : Py unit :=
  match ns with
  | [] => ret tt
  | (name, site) :: rest => body name site ;;; for_each_site body rest
  end.

(** [SVIExperiment.print_trace_updates] *)
Definition print_trace_updates (batch : dict Tensor) : Py unit :=
  print ("Traces:" ++ nl ++ "##########") ;;;
  p <- importance_traces svi_model_fn svi_guide_fn [] batch ;;
  let model_trace := fst p in
  let guide_trace := snd p in
  print ("model: " ++ repr_tuple (dict_keys (nodes model_trace))) ;;;
  for_each_site print_model_site (nodes model_trace) ;;;
  print ("guide: " ++ repr_tuple (dict_keys (nodes guide_trace))) ;;;
  for_each_site print_guide_site (nodes guide_trace).

(** [self.svi.loss_class.trace_storage[k]] *)
Definition storage_get (k : string) : Py (option Trace) :=
  s <- get ;;
  match dict_get k (trace_storage s) with
  | Some t => ret t
  | None => raise (KeyError k)
  end.

(** [trace.nodes[name]['log_prob_sum']] *)
Definition log_prob_sum_at (trace : option Trace) (name : string)
  : Py spec_float :=
  match trace with
  | None => raise (AttributeError "'NoneType' object has no attribute 'nodes'")
  | Some t =>
      match dict_get name (nodes t) with
      | Some site => ret (s_log_prob_sum site)
      | None => raise (KeyError name)
      end
  end.

(** [SVIExperiment.get_trace_metrics] *)
Definition get_trace_metrics (batch : dict Tensor) : Py (dict spec_float) :=
  let metrics := [] in
  model <- storage_get "model" ;;
  guide_ <- storage_get "guide" ;;
  v <- log_prob_sum_at model "x" ;;
  let metrics := dict_set "log p(x)" v metrics in
  v <- log_prob_sum_at model "age" ;;
  let metrics := dict_set "log p(age)" v metrics in
  v <- log_prob_sum_at model "sex" ;;
  let metrics := dict_set "log p(sex)" v metrics in
  v <- log_prob_sum_at model "sex" ;;
  let metrics := dict_set "log p(ventricle_volume)" v metrics in
  v <- log_prob_sum_at model "sex" ;;
  let metrics := dict_set "log p(brain_volume)" v metrics in
  pz <- log_prob_sum_at model "z" ;;
  qz <- log_prob_sum_at guide_ "z" ;;
  let metrics := dict_set "log p(z) - log q(z)" (tensor_sub pz qz) metrics in
  v <- log_prob_sum_at model "z" ;;
  let metrics := dict_set "p(z)" v metrics in
  v <- log_prob_sum_at guide_ "z" ;;
  let metrics := dict_set "q(z)" v metrics in
  ret metrics.

(** [SVIExperiment.prep_batch] *)
Definition prep_batch (batch : dict Tensor) : Py (dict Tensor) :=
  image <- getitem "image" batch ;;
  let x := t_mul255 image in
  age <- getitem "age" batch ;;
  let age := t_unsqueeze1_float age in
  sex <- getitem "sex" batch ;;
  let sex := t_unsqueeze1_float sex in
  ventricle_volume <- getitem "ventricle_volume" batch ;;
  let ventricle_volume := t_unsqueeze1_float ventricle_volume in
  brain_volume <- getitem "brain_volume" batch ;;
  let brain_volume := t_unsqueeze1_float brain_volume in
  let x := t_float x in
  noise <- rand_like x ;;
  let x := t_add x noise in
  ret [("x", x); ("age", age); ("sex", sex);
       ("ventricle_volume", ventricle_volume);
       ("brain_volume", brain_volume)].

(** [{('train/' + k): v for k, v in metrics.items()}] *)
Definition train_logs (metrics : dict spec_float) : dict scalar :=
  fold_left (fun acc kv => dict_set ("train/" ++ fst kv) (TensorScalar (snd kv)) acc)
    metrics [].

(** [SVIExperiment.training_step] *)
Definition training_step (self : SVIExperiment) (batch : dict Tensor)
    (batch_idx : nat) : Py (dict step_val) :=
  batch <- prep_batch batch ;;
  (if validate (hparams self) then
     print "Validation:" ;;;
     print_trace_updates batch
   else ret tt) ;;;
  loss <- svi_step (svi self) batch ;;
  metrics <- get_trace_metrics batch ;;
  (if is_nan loss then
     s <- get ;;
     modify (add_text "nan"
               ("nand at " ++ str_of_nat (current_epoch s) ++ ":" ++ nl
                ++ str_metrics metrics)) ;;;
     raise (ValueError ("loss went to nan with metrics:" ++ nl
                        ++ str_metrics metrics))
   else ret tt) ;;;
  let tensorboard_logs := train_logs metrics in
  let tensorboard_logs := dict_set "train/loss" (PyFloat loss) tensorboard_logs in
  ret [("loss", SVTensor1 loss); ("log", SVLog tensorboard_logs)].

(** [{'loss': loss, **metrics}] *)
Definition loss_and_metrics (loss : spec_float) (metrics : dict spec_float)
  : dict step_val :=
  dict_merge [("loss", SVScalar (PyFloat loss))]
    (map (fun kv => (fst kv, SVScalar (TensorScalar (snd kv)))) metrics).

(** [SVIExperiment.validation_step] *)
Definition validation_step (self : SVIExperiment) (batch : dict Tensor)
    (batch_idx : nat) : Py (dict step_val) :=
  batch <- prep_batch batch ;;
  loss <- svi_evaluate_loss (svi self) batch ;;
  metrics <- get_trace_metrics batch ;;
  ret (loss_and_metrics loss metrics).

(** [SVIExperiment.test_step] *)
Definition test_step (self : SVIExperiment) (batch : dict Tensor)
    (batch_idx : nat) : Py (dict step_val) :=
  batch <- prep_batch batch ;;
  loss <- svi_evaluate_loss (svi self) batch ;;
  metrics <- get_trace_metrics batch ;;
  ret (loss_and_metrics loss metrics).
End Program.

(** ** Construction-time code: filter lists and optimizer settings

    Python strings are taken over code points below 256, one [ascii] each. *)

(** [str.isspace] on one character. *)
Definition is_space (c : ascii) : bool :=
  let n := nat_of_ascii c in
  (((9 <=? n) && (n <=? 13)) || ((28 <=? n) && (n <=? 32))
   || (n =? 133) || (n =? 160))%nat.

(** A decimal digit, as [int] accepts it. *)
Definition is_digit (c : ascii) : bool :=
  let n := nat_of_ascii c in ((48 <=? n) && (n <=? 57))%nat.

Fixpoint lstrip (s : string) : string :=
  match s with
  | EmptyString => EmptyString
  | String c s' => if is_space c then lstrip s' else s
  end.

Fixpoint rstrip (s : string) : string :=
  match s with
  | EmptyString => EmptyString
  | String c s' =>
      match rstrip s' with
      | EmptyString => if is_space c then EmptyString else String c EmptyString
      | r => String c r
      end
  end.

(** [s.strip()] *)
Definition strip (s : string) : string := rstrip (lstrip s).

(** [s.split(',')]: the fields between commas, at least one. *)
Fixpoint split_comma (s : string) : list string :=
  match s with
  | EmptyString => [EmptyString]
  | String c s' =>
      if Ascii.eqb c "," then EmptyString :: split_comma s'
      else match split_comma s' with
           | f :: fs => String c f :: fs
           | [] => [String c EmptyString]
           end
  end.

(** The digits of an integer literal: digits, with single underscores
    allowed between two digits.  [after_digit] tells whether the previous
    character was a digit. *)
Fixpoint literal_digits (after_digit : bool) (s : string) : option string :=
  match s with
  | EmptyString => if after_digit then Some EmptyString else None
  | String c s' =>
      if is_digit c then
        match literal_digits true s' with
        | Some ds => Some (String c ds)
        | None => None
        end
      else if Ascii.eqb c "_" then
        if after_digit then literal_digits false s' else None
      else None
  end.

(** [int(s)] in base 10, on a string without surrounding whitespace: an
    optional sign, then the digits.  [max_str_digits] is the interpreter's
    limit on the number of digits ([sys.get_int_max_str_digits()]: 0 for no
    limit, as in interpreters without the limit; otherwise at least 640,
    4300 by default). *)
Definition py_int (max_str_digits : nat) (s : string) : result Z :=
  let invalid := Raise (ValueError ("invalid literal for int() with base 10: "
                                    ++ repr_str s)) in
  let '(negative, body) :=
    match s with
    | String c s' =>
        if Ascii.eqb c "-" then (true, s')
        else if Ascii.eqb c "+" then (false, s')
        else (false, s)
    | EmptyString => (false, s)
    end in
  match literal_digits false body with
  | None => invalid
  | Some ds =>
      if ((0 <? max_str_digits) && (max_str_digits <? String.length ds))%nat then
        Raise (ValueError
                 ("Exceeds the limit (" ++ str_of_nat max_str_digits
                  ++ " digits) for integer string conversion: value has "
                  ++ str_of_nat (String.length ds)
                  ++ " digits; use sys.set_int_max_str_digits() to increase the limit"))
      else
        match NilEmpty.uint_of_string ds with
        | Some u => Ok (if negative then Z.opp (Z.of_uint u) else Z.of_uint u)
        | None => invalid
        end
  end.

(** [tuple(f(x) for x in xs)] with a fallible [f]: the first failure is
    raised. *)
Fixpoint tuple_of {A T} (f : A -> result T) (xs : list A) : result (list T) :=
  match xs with
  | [] => Ok []
  | x :: xs' =>
      match f x with
      | Raise e => Raise e
      | Ok v => match tuple_of f xs' with
                | Raise e => Raise e
                | Ok vs => Ok (v :: vs)
                end
      end
  end.

(** [tuple(int(f.strip()) for f in filters.split(','))]
    ([BaseVISEM.__init__], for [enc_filters] and for [dec_filters]). *)
Definition parse_filters (max_str_digits : nat) (filters : string)
  : result (list Z) :=
  tuple_of (fun f => py_int max_str_digits (strip f)) (split_comma filters).

(** [sub in s] on strings. *)
Fixpoint str_contains (sub s : string) : bool :=
  if String.prefix sub s then true
  else match s with
       | EmptyString => false
       | String _ s' => str_contains sub s'
       end.

(** The fields of [hparams] the optimizer settings read. *)
Record OptimHParams : Type := {
  use_amsgrad : bool;
  l2 : spec_float;
  lr : spec_float;
  pgm_lr : spec_float
}.

Inductive optim_val : Type :=
| OptFloat (f : spec_float)
| OptBool (b : bool).

(** The float [1e-5] (binary64). *)
Definition eps_1e_5 : spec_float := S754_finite false 5902958103587057 (-69).

(** [per_param_callable] of [SVIExperiment._build_svi] *)
Definition per_param_callable (hp : OptimHParams)
    (module_name param_name : string) : dict optim_val :=
  let params := [("eps", OptFloat eps_1e_5);
                 ("amsgrad", OptBool (use_amsgrad hp));
                 ("weight_decay", OptFloat (l2 hp))] in
  if str_contains "flow_components" module_name then
    let params := dict_set "lr" (OptFloat (pgm_lr hp)) params in
    params
  else
    let params := dict_set "lr" (OptFloat (lr hp)) params in
    params.

(** Vocabulary for these: every character of [s] satisfies [P]. *)
Fixpoint all_chars (P : ascii -> bool) (s : string) : bool :=
  match s with
  | EmptyString => true
  | String c s' => P c && all_chars P s'
  end.

(** The decimal numeral of a natural number, as [str] prints it. *)
Definition decimal (n : N) : string := NilEmpty.string_of_uint (N.to_uint n).

(** The number of commas of a string. *)
Fixpoint count_commas (s : string) : nat :=
  match s with
  | EmptyString => 0
  | String c s' => (if Ascii.eqb c "," then 1 else 0) + count_commas s'
  end.

(** No character of [s] is a comma. *)
Definition no_comma (s : string) : bool :=
  all_chars (fun c => negb (Ascii.eqb c ",")) s.

(** A written field: a numeral between two paddings. *)
Definition written_field (f : string * N * string) : string :=
  fst (fst f) ++ decimal (snd (fst f)) ++ snd f.

(** The field is padded by whitespace only and its numeral is within the
    interpreter's digit limit. *)
Definition well_padded (max_str_digits : nat) (f : string * N * string) : Prop :=
  all_chars is_space (fst (fst f)) = true /\
  all_chars is_space (snd f) = true /\
  (max_str_digits = 0 \/ String.length (decimal (snd (fst f))) <= max_str_digits).

(** ** Vocabulary of the properties *)

Section Vocabulary.
Context {C : Carrier} {B : Backend}.

(** Both entries of [trace_storage] hold the same object. *)
Definition aliased (s : State) : Prop :=
  dict_get "guide" (trace_storage s) = dict_get "model" (trace_storage s).

(** The state with the wrapper's side channel blanked. *)
Definition forget_storage (s : State) : State := set_trace_storage [] s.

(** Is the outcome an [AssertionError]? *)
Definition is_assertion (A : Type) (r : result A) : bool :=
  match r with Raise (AssertionError _) => true | _ => false end.

(** The [(data, do-data)] arguments of the [sample_scm] runs among calls. *)
Definition scm_calls (cs : list Call) : list (dict Tensor * dict Tensor) :=
  flat_map (fun c => match c with
                     | CallSampleScm data do_data _ => [(data, do_data)]
                     | _ => []
                     end) cs.

(** The exogenous mapping as the specification words it: the abducted
    noise with [z], and with the observed sex unless the intervention
    names 'sex'. *)
Definition spec_passed_exogeneous (p : Params) (obs condition : dict Tensor)
    (sex z : Tensor) : dict Tensor :=
  let abducted := dict_set "z" z (infer_exogeneous p z obs) in
  if dict_mem "sex" condition then abducted
  else dict_set "sex" sex abducted.

(** The sites a decode of a reconstruction is conditioned on, as the
    specification names them: the four observed covariates and the
    latent. *)
Definition decode_sites : list string :=
  ["sex"; "age"; "ventricle_volume"; "brain_volume"; "z"].

(** [data] conditions a decode on the observed sex, age, ventricle volume
    and brain volume and on the latent [z], and on nothing else. *)
Definition conditioned_on (data : dict Tensor)
    (sex age ventricle_volume brain_volume z : Tensor) : Prop :=
  dict_get "sex" data = Some sex /\
  dict_get "age" data = Some age /\
  dict_get "ventricle_volume" data = Some ventricle_volume /\
  dict_get "brain_volume" data = Some brain_volume /\
  dict_get "z" data = Some z /\
  set_eqb (dict_keys data) decode_sites = true.

(** The [(data, batch size)] arguments of the [self.sample] runs among
    calls. *)
Definition decode_calls (cs : list Call) : list (dict Tensor * nat) :=
  flat_map (fun c => match c with
                     | CallSample data m => [(data, m)]
                     | _ => []
                     end) cs.

(** The particles of a reconstruction as the specification words them:
    each draws [z] from the one distribution [d] with the random stream
    where the previous particle left it, and decodes it by [self.sample]
    conditioned on the observed covariates and that [z]; the decoded image
    is the first output.  The relation ties the calls made, the images
    collected and the random stream. *)
Inductive particles (p : Params) (d : Dist)
    (x sex age ventricle_volume brain_volume : Tensor)
  : Rng -> list Call -> list Tensor -> Rng -> Prop :=
| particles_done g :
    particles p d x sex age ventricle_volume brain_volume g [] [] g
| particles_next g g3 z data recon others cs recons :
    z = fst (dist_sample d g) ->
    conditioned_on data sex age ventricle_volume brain_volume z ->
    fst (sample_conditioned p data (t_shape0 x) (snd (dist_sample d g)))
      = recon :: others ->
    particles p d x sex age ventricle_volume brain_volume
      (snd (sample_conditioned p data (t_shape0 x) (snd (dist_sample d g))))
      cs recons g3 ->
    particles p d x sex age ventricle_volume brain_volume g
      (CallPyroSample "z" d :: CallSample data (t_shape0 x) :: cs)
      (recon :: recons) g3.

Definition is_guide_call (c : Call) : bool :=
  match c with CallGuide _ => true | _ => false end.
End Vocabulary.

(** ** Vocabulary of the further properties *)

Section CoverageVocabulary.
Context {C : Carrier} {B : Backend}.

(** The keys [prep_batch] reads, in the order it reads them. *)
Definition raw_keys : list string :=
  ["image"; "age"; "sex"; "ventricle_volume"; "brain_volume"].

(** The keys of the mapping [prep_batch] returns, in order. *)
Definition prepared_keys : list string :=
  ["x"; "age"; "sex"; "ventricle_volume"; "brain_volume"].

(** Has the trace a site [name]? *)
Definition has_site (name : string) (t : Trace) : bool :=
  dict_mem name (nodes t).

(** Is the site a sample site whose summed log-probability is NaN? *)
Definition nan_sample_site (kv : string * Site) : bool :=
  match s_type (snd kv) with
  | SampleSite => is_nan (s_log_prob_sum (snd kv))
  | ParamSite => false
  end.

(** The nodes of the model trace [print_trace_updates] computes in [s]. *)
Definition printed_model_nodes (batch : dict Tensor) (s : State) : Nodes :=
  fst (fst (get_importance_trace svi_model_fn svi_guide_fn [] batch
              (params s) (rng s))).
(** Column [j] of a list of rows: the [j]-th element of every row that has
    one. *)
Definition column (j : nat) (rows : list (list Tensor)) : list Tensor :=
  flat_map (fun r => match nth_error r j with
                     | Some t => [t]
                     | None => []
                     end) rows.

(** The particles of a counterfactual query, in the order abduction, action,
    prediction: a draw [z] from the one distribution [d], the abduction of
    the exogenous noise for that [z], and one run of [sample_scm] conditioned
    on [spec_passed_exogeneous] under the intervention [cond].  The relation
    ties the calls made, the output tuples collected and the random
    stream. *)
Inductive cf_particles (p : Params) (d : Dist) (obs cond : dict Tensor)
    (sex x : Tensor)
  : Rng -> list Call -> list (list Tensor) -> Rng -> Prop :=
| cf_particles_done g : cf_particles p d obs cond sex x g [] [] g
| cf_particles_next g g3 z data cs rows :
    z = fst (dist_sample d g) ->
    data = spec_passed_exogeneous p obs cond sex z ->
    cf_particles p d obs cond sex x
      (snd (sample_scm_do p data cond (t_shape0 x) (snd (dist_sample d g))))
      cs rows g3 ->
    cf_particles p d obs cond sex x g
      (CallPyroSample "z" d
         :: CallInferExogeneous z obs
         :: CallSampleScm data cond (t_shape0 x)
         :: cs)
      (fst (sample_scm_do p data cond (t_shape0 x) (snd (dist_sample d g)))
         :: rows)
      g3.

(** The canonical names of a counterfactual, each with its position in the
    output tuple of [sample_scm]. *)
Definition counterfactual_positions : list (string * nat) :=
  [("x", 0); ("z", 1); ("sex", 2); ("age", 3);
   ("ventricle_volume", 4); ("brain_volume", 5)].

(** What trace printing never touches. *)
Definition untouched_by_printing (s : State)
  : Params * dict (option Trace) * list (string * string) :=
  (params s, trace_storage s, logger s).
End CoverageVocabulary.

(** ** A small concrete backend

    Integer tensors, a counter as random stream, and traces whose summed
    log-probabilities are chosen by the caller.  It is used to run the
    methods on concrete inputs. *)

Module Toy.
Definition carrier : Carrier :=
  {| Tensor := Z; Dist := Z; Rng := nat; Params := Z; Grad := Z;
     Callable := nat |}.

(** binary32 constants *)
Definition f_one : spec_float := S754_finite false 8388608 (-23).
Definition f_two : spec_float := S754_finite false 8388608 (-22).
Definition f_minus_one : spec_float := S754_finite true 8388608 (-23).
Definition f_minus_three : spec_float := S754_finite true 12582912 (-22).
Definition f_minus_five : spec_float := S754_finite true 10485760 (-21).
Definition f_minus_six : spec_float := S754_finite true 12582912 (-21).
Definition f_minus_seven : spec_float := S754_finite true 14680064 (-21).

Definition site (v : Z) (d : Z) (lp : spec_float) (observed : bool)
  : @Site carrier :=
  @Build_Site carrier SampleSite v d lp lp observed.

Definition value_of (k : string) (kwargs : dict Z) : Z :=
  match dict_get k kwargs with Some v => v | None => 0%Z end.

(** Model trace: the latent [z] and the five observed sites. *)
Definition model_nodes (lp_z : spec_float) (kwargs : dict Z) : @Nodes carrier :=
  [("z", site 0 0 lp_z false);
   ("sex", site (value_of "sex" kwargs) 1 f_minus_one true);
   ("age", site (value_of "age" kwargs) 2 f_minus_three true);
   ("ventricle_volume", site (value_of "ventricle_volume" kwargs) 3 f_minus_five true);
   ("brain_volume", site (value_of "brain_volume" kwargs) 4 f_minus_six true);
   ("x", site (value_of "x" kwargs) 5 f_minus_seven true)].

(** Guide trace: the latent [z] only. *)
Definition guide_nodes (lq_z : spec_float) : @Nodes carrier :=
  [("z", site 0 7 lq_z false)].

Definition sum_values (d : dict Z) : Z :=
  fold_right (fun kv acc => (snd kv + acc)%Z) 0%Z d.

Definition mean (ts : list Z) : Z :=
  (fold_right Z.add 0 ts / Z.of_nat (List.length ts))%Z.

Definition rand_like (_ : Z) (g : nat) : Z * nat := (Z.of_nat (g mod 2), S g).

Definition sample_from (d : Z) (g : nat) : Z * nat := ((d + Z.of_nat g)%Z, S g).

Definition importance (lp_z lq_z : spec_float) (_ _ : nat) (_ : list Z)
    (kwargs : dict Z) (_ : Z) (g : nat)
  : (@Nodes carrier * @Nodes carrier) * nat :=
  ((model_nodes lp_z kwargs, guide_nodes lq_z), S g).

Definition run_guide (lq_z : spec_float) (_ : Z) (obs : dict Z) (g : nat)
  : (Z * @Nodes carrier) * nat :=
  ((Z.of_nat g, guide_nodes lq_z), S g).

Definition exogeneous (_ : Z) (z : Z) (obs : dict Z) : dict Z :=
  [("age", value_of "age" obs);
   ("ventricle_volume", value_of "ventricle_volume" obs);
   ("brain_volume", value_of "brain_volume" obs)].

Definition decode (_ : Z) (data : dict Z) (n : nat) (g : nat)
  : list Z * nat :=
  ([sum_values data; value_of "z" data], S g).

Definition scm (_ : Z) (data do_data : dict Z) (n : nat) (g : nat)
  : list Z * nat :=
  let d := dict_merge data do_data in
  ([sum_values d; value_of "z" d; value_of "sex" d; value_of "age" d;
    value_of "ventricle_volume" d; value_of "brain_volume" d], S g).

Definition backend_with (lp_z lq_z loss step_loss : spec_float)
  : @Backend carrier :=
  @Build_Backend carrier
    (fun t : Z => (t * 255)%Z)                        (* t_mul255 *)
    (fun t : Z => t)                                  (* t_unsqueeze1_float *)
    (fun t : Z => t)                                  (* t_float *)
    Z.add                                             (* t_add *)
    rand_like                                         (* t_rand_like *)
    (fun _ : Z => 1)                                  (* t_shape0 *)
    mean                                              (* t_stack_mean0 *)
    (fun d => String.concat ", " (dict_keys d))       (* str_metrics *)
    (fun d : Z => d)                                  (* unwrap_independent *)
    (fun d : Z => Z.eqb d 0)                          (* has_concentration *)
    sample_from                                       (* dist_sample *)
    (importance lp_z lq_z)                            (* get_importance_trace *)
    (fun _ => loss)                                   (* estimator_loss *)
    (fun _ => step_loss)                              (* estimator_step_loss *)
    (fun ps => Z.of_nat (List.length ps))             (* estimator_grads *)
    Z.add                                             (* adam_update *)
    0 1 (fun _ => 2)                                  (* model and guides *)
    (run_guide lq_z)                                  (* guide *)
    exogeneous                                        (* infer_exogeneous *)
    decode                                            (* sample_conditioned *)
    scm.                                              (* sample_scm_do *)

(** The backend whose two loss computations agree. *)
Definition backend (lp_z lq_z loss : spec_float) : @Backend carrier :=
  backend_with lp_z lq_z loss loss.

Definition state0 : @State carrier :=
  @Build_State carrier 0 0%Z 0 (@CustomELBO_init carrier) [] [] [] 3.

Definition hparams0 : HParams :=
  {| validate := false; use_cf_guide := false; cf_elbo_type := (-1)%Z;
     num_svi_particles := 4 |}.

Definition obs0 : dict Z :=
  [("x", 10%Z); ("sex", 1%Z); ("age", 60%Z);
   ("ventricle_volume", 20%Z); ("brain_volume", 30%Z)].

Definition batch0 : dict Z :=
  [("image", 1%Z); ("age", 60%Z); ("sex", 1%Z);
   ("ventricle_volume", 20%Z); ("brain_volume", 30%Z)].

(** [batch0] after [prep_batch] from [state0]. *)
Definition prepared0 : dict Z :=
  [("x", 255%Z); ("age", 60%Z); ("sex", 1%Z);
   ("ventricle_volume", 20%Z); ("brain_volume", 30%Z)].

(** An observation without 'brain_volume'. *)
Definition partial_obs : dict Z :=
  [("x", 10%Z); ("sex", 1%Z); ("age", 60%Z); ("ventricle_volume", 20%Z)].

(** The metrics read off [model_nodes lp_z]. *)
Definition metrics_of (lp_z diff : spec_float) : dict spec_float :=
  [("log p(x)", f_minus_seven);
   ("log p(age)", f_minus_three);
   ("log p(sex)", f_minus_one);
   ("log p(ventricle_volume)", f_minus_one);
   ("log p(brain_volume)", f_minus_one);
   ("log p(z) - log q(z)", diff);
   ("p(z)", lp_z);
   ("q(z)", lp_z)].

(** The 'z' site of the guide trace. *)
Definition z_site (lq_z : spec_float) : @Site carrier := site 0 7 lq_z false.

Definition intervention0 : dict Z := [("age", 5%Z)].
(** [hparams0] with trace printing on. *)
Definition hparams_validate : HParams :=
  {| validate := true; use_cf_guide := false; cf_elbo_type := (-1)%Z;
     num_svi_particles := 4 |}.

(** A batch without 'sex'. *)
Definition batch_no_sex : dict Z :=
  [("image", 1%Z); ("age", 60%Z);
   ("ventricle_volume", 20%Z); ("brain_volume", 30%Z)].

(** Optimizer settings: lr = 1, pgm_lr = 2, no weight decay. *)
Definition optim0 : OptimHParams :=
  {| use_amsgrad := false; l2 := S754_zero false; lr := f_one; pgm_lr := f_two |}.

(** The filters 16, 32, 64, 128 written with some padding. *)
Definition written_filters : list (string * N * string) :=
  [("", 16%N, ""); (" ", 32%N, ""); ("", 64%N, " "); (" ", 128%N, " ")].
End Toy.

(** * Properties *)

(** ** Dictionaries and key sets *)

Section DictFacts.
Context {V : Type}.
Implicit Types (d : dict V) (k : string) (v : V).

Lemma dict_get_set_same k v d : dict_get k (dict_set k v d) = Some v.
Proof.
  induction d as [|[k' v'] d IH]; simpl.
  - now rewrite String.eqb_refl.
  - destruct (String.eqb k k') eqn:E; simpl; rewrite E; auto.
Qed.

Lemma dict_get_set_other k k' v d :
  k <> k' -> dict_get k (dict_set k' v d) = dict_get k d.
Proof.
  intros Hne. induction d as [|[k0 v0] d IH]; simpl.
  - destruct (String.eqb_spec k k'); congruence.
  - destruct (String.eqb_spec k' k0) as [->|Hk]; simpl.
    + destruct (String.eqb_spec k k0); congruence.
    + destruct (String.eqb_spec k k0); auto.
Qed.

Lemma dict_get_mem k d : dict_mem k d = true -> exists v, dict_get k d = Some v.
Proof.
  unfold dict_mem, dict_keys.
  induction d as [|[k' v'] d IH]; simpl; [discriminate|].
  destruct (String.eqb k k'); simpl; eauto.
Qed.
End DictFacts.

Lemma existsb_eqb_In (k : string) (ks : list string) :
  existsb (String.eqb k) ks = true <-> In k ks.
Proof.
  rewrite existsb_exists. split.
  - intros [x [Hin Heq]]. apply String.eqb_eq in Heq. now subst.
  - intros Hin. exists k. split; [assumption | apply String.eqb_refl].
Qed.

Lemma subsetb_spec (a b : list string) :
  subsetb a b = true <-> (forall k, In k a -> In k b).
Proof.
  unfold subsetb. rewrite forallb_forall.
  split; intros H k Hk.
  - apply existsb_eqb_In. auto.
  - apply existsb_eqb_In. auto.
Qed.

(** [set_eqb] decides equality of the key sets. *)
Lemma set_eqb_spec (a b : list string) :
  set_eqb a b = true <-> (forall k, In k a <-> In k b).
Proof.
  unfold set_eqb. rewrite andb_true_iff, !subsetb_spec.
  split.
  - intros [H1 H2] k. split; auto.
  - intros H. split; intros k; apply H.
Qed.

(** ** IEEE subtraction of a value from itself *)

Lemma tensor_sub_self (v : spec_float) :
  tensor_sub v v = if is_finite v then S754_zero false else S754_nan.
Proof.
  destruct v as [[|]|[|]| |sg m e]; try reflexivity.
  unfold tensor_sub, SFsub, shl_align; simpl.
  rewrite Z.min_id, Z.sub_diag; simpl.
  reflexivity.
Qed.

(** ** Reasoning about the method monad *)

Section MonadFacts.
Context {St : Type}.

Lemma bind_ok {A T} (m : M St A) (k : A -> M St T) s a s1 :
  m s = (Ok a, s1) -> bind m k s = k a s1.
Proof. unfold bind. now intros ->. Qed.

Lemma bind_raise {A T} (m : M St A) (k : A -> M St T) s e s1 :
  m s = (Raise e, s1) -> bind m k s = (Raise e, s1).
Proof. unfold bind. now intros ->. Qed.

Lemma bind_inv_ok {A T} (m : M St A) (k : A -> M St T) s b s2 :
  bind m k s = (Ok b, s2) ->
  exists a s1, m s = (Ok a, s1) /\ k a s1 = (Ok b, s2).
Proof.
  unfold bind. destruct (m s) as [[a|e] s1]; intros H.
  - eauto.
  - discriminate.
Qed.

Lemma preserves_bind {A T P} (proj : St -> P) (m : M St A) (k : A -> M St T) :
  preserves proj m -> (forall a, preserves proj (k a)) ->
  preserves proj (bind m k).
Proof.
  intros Hm Hk s. unfold bind. specialize (Hm s).
  destruct (m s) as [[a|e] s1]; simpl in *.
  - now rewrite Hk.
  - assumption.
Qed.

Lemma preserves_ret {A P} (proj : St -> P) (a : A) : preserves proj (ret a).
Proof. now intros s. Qed.

Lemma preserves_raise {A P} (proj : St -> P) e : preserves proj (@raise St A e).
Proof. now intros s. Qed.

Lemma preserves_get {P} (proj : St -> P) : preserves proj get.
Proof. now intros s. Qed.
End MonadFacts.

(** Splits a successful run of a sequence of binds into its steps. *)
Ltac inv_bind H :=
  let a := fresh "a" in
  let s := fresh "s" in
  let H1 := fresh "Hrun" in
  apply bind_inv_ok in H; destruct H as (a & s & H1 & H).

Section Properties.
Context {C : Carrier} {B : Backend}.

(** *** The objective wrapper *)

Lemma elbo_loss_and_grads_run (get_trace : get_trace_method) n model guide_
    args kwargs (s : State) ps s' :
  1 <= n ->
  get_traces get_trace n model guide_ args kwargs s = (Ok ps, s') ->
  elbo_loss_and_grads get_trace n model guide_ args kwargs s
  = (Ok (estimator_step_loss (map trace_nodes ps),
         estimator_grads (map trace_nodes ps)), s').
Proof.
  intros Hn Hrun. unfold elbo_loss_and_grads.
  destruct n as [|n]; [lia|]. now rewrite (bind_ok _ _ _ Hrun).
Qed.

Lemma svi_step_no_particle svi kwargs (s : State) :
  svi_num_particles svi = 0 ->
  svi_step svi kwargs s = (Raise ZeroDivisionError, s).
Proof. intros H. unfold svi_step. now rewrite H. Qed.

Lemma importance_traces_run model guide_ args kwargs (s : State) :
  let r := get_importance_trace model guide_ args kwargs (params s) (rng s) in
  importance_traces model guide_ args kwargs s =
    (Ok ({| oid := S (next_oid s); nodes := fst (fst r) |},
         {| oid := next_oid s; nodes := snd (fst r) |}),
     set_next_oid (S (S (next_oid s))) (set_rng (snd r) s)).
Proof. reflexivity. Qed.

Lemma CustomELBO_get_trace_run model guide_ args kwargs (s : State) :
  exists p s1,
    TraceGraph_ELBO_get_trace model guide_ args kwargs s = (Ok p, s1) /\
    oid (fst p) <> oid (snd p) /\
    CustomELBO_get_trace model guide_ args kwargs s =
      (Ok p,
       set_trace_storage
         (dict_set "guide" (Some (fst p))
            (dict_set "model" (Some (fst p)) (trace_storage s1))) s1).
Proof.
  eexists; eexists. split; [reflexivity|]. split.
  - simpl. apply Nat.neq_succ_diag_l.
  - reflexivity.
Qed.

(** C1.  Evaluation of [CustomELBO._get_trace] on an arbitrary call: the
    model trace is stored under 'model', and the entry stored under 'guide'
    is that same model trace, an object distinct from the guide trace the
    call returns.  The guide trace is never stored. *)
Theorem CustomELBO_get_trace_guide_entry :
  forall model guide_ args kwargs (s : State),
    let r := CustomELBO_get_trace model guide_ args kwargs s in
    exists model_trace guide_trace,
      fst r = Ok (model_trace, guide_trace) /\
      oid model_trace <> oid guide_trace /\
      dict_get "model" (trace_storage (snd r)) = Some (Some model_trace) /\
      dict_get "guide" (trace_storage (snd r)) = Some (Some model_trace) /\
      dict_get "guide" (trace_storage (snd r)) <> Some (Some guide_trace).
Proof.
  intros model guide_ args kwargs s r.
  destruct (CustomELBO_get_trace_run model guide_ args kwargs s)
    as ([mt gt] & s1 & _ & Hneq & Hrun).
  subst r. rewrite Hrun. simpl in *.
  exists mt, gt. repeat split; auto.
  - rewrite dict_get_set_other by discriminate. apply dict_get_set_same.
  - apply dict_get_set_same.
  - rewrite dict_get_set_same. intros Heq. apply Hneq. congruence.
Qed.

(** *** Metric extraction *)

Lemma storage_get_inv k (s : State) t s' :
  storage_get k s = (Ok t, s') ->
  s' = s /\ dict_get k (trace_storage s) = Some t.
Proof.
  unfold storage_get, bind, get. simpl.
  destruct (dict_get k (trace_storage s)); simpl; intros H; inversion H; auto.
Qed.

Lemma log_prob_sum_at_inv trace name (s : State) v s' :
  log_prob_sum_at trace name s = (Ok v, s') ->
  s' = s /\
  exists t site,
    trace = Some t /\ dict_get name (nodes t) = Some site /\
    v = s_log_prob_sum site.
Proof.
  unfold log_prob_sum_at. destruct trace as [t|]; [|discriminate].
  destruct (dict_get name (nodes t)) as [site|] eqn:Hsite; [|discriminate].
  intros H; inversion H; subst. split; [reflexivity|].
  exists t, site. auto.
Qed.

(** What a successful [get_trace_metrics] has read, and what it returns. *)
Lemma get_trace_metrics_inv batch (s : State) m s' :
  get_trace_metrics batch s = (Ok m, s') ->
  s' = s /\
  exists mt gt sx sage ssex sz gz,
    dict_get "model" (trace_storage s) = Some (Some mt) /\
    dict_get "guide" (trace_storage s) = Some (Some gt) /\
    dict_get "x" (nodes mt) = Some sx /\
    dict_get "age" (nodes mt) = Some sage /\
    dict_get "sex" (nodes mt) = Some ssex /\
    dict_get "z" (nodes mt) = Some sz /\
    dict_get "z" (nodes gt) = Some gz /\
    m = [("log p(x)", s_log_prob_sum sx);
         ("log p(age)", s_log_prob_sum sage);
         ("log p(sex)", s_log_prob_sum ssex);
         ("log p(ventricle_volume)", s_log_prob_sum ssex);
         ("log p(brain_volume)", s_log_prob_sum ssex);
         ("log p(z) - log q(z)",
          tensor_sub (s_log_prob_sum sz) (s_log_prob_sum gz));
         ("p(z)", s_log_prob_sum sz);
         ("q(z)", s_log_prob_sum gz)].
Proof.
  unfold get_trace_metrics. intros H.
  inv_bind H. apply storage_get_inv in Hrun as [-> Hmodel].
  inv_bind H. apply storage_get_inv in Hrun as [-> Hguide].
  inv_bind H. apply log_prob_sum_at_inv in Hrun as [-> (mt & sx & -> & Hx & ->)].
  inv_bind H. apply log_prob_sum_at_inv in Hrun as [-> (? & sage & Hmt & Hage & ->)].
  inversion Hmt; subst; clear Hmt.
  inv_bind H. apply log_prob_sum_at_inv in Hrun as [-> (? & ssex & Hmt & Hsex & ->)].
  inversion Hmt; subst; clear Hmt.
  inv_bind H. apply log_prob_sum_at_inv in Hrun as [-> (? & ssex' & Hmt & Hsex' & ->)].
  inversion Hmt; subst; clear Hmt.
  inv_bind H. apply log_prob_sum_at_inv in Hrun as [-> (? & ssex'' & Hmt & Hsex'' & ->)].
  inversion Hmt; subst; clear Hmt.
  inv_bind H. apply log_prob_sum_at_inv in Hrun as [-> (? & sz & Hmt & Hz & ->)].
  inversion Hmt; subst; clear Hmt.
  inv_bind H. apply log_prob_sum_at_inv in Hrun as [-> (gt & gz & -> & Hgz & ->)].
  inv_bind H. apply log_prob_sum_at_inv in Hrun as [-> (? & sz' & Hmt & Hz' & ->)].
  inversion Hmt; subst; clear Hmt.
  inv_bind H. apply log_prob_sum_at_inv in Hrun as [-> (? & gz' & Hgt & Hgz' & ->)].
  inversion Hgt; subst; clear Hgt.
  assert (ssex' = ssex) by congruence.
  assert (ssex'' = ssex) by congruence.
  assert (sz' = sz) by congruence.
  assert (gz' = gz) by congruence.
  subst. inversion H; subst.
  split; [reflexivity|].
  do 7 eexists. repeat split; try eassumption; reflexivity.
Qed.

(** C2.  Evaluation of [get_trace_metrics]: whenever it returns a mapping,
    the entries 'log p(ventricle_volume)' and 'log p(brain_volume)' both
    hold the summed log-probability of the 'sex' site of the retained
    model trace; the 'ventricle_volume' and 'brain_volume' sites are not
    read. *)
Theorem get_trace_metrics_volume_entries :
  forall batch (s : State) m s',
    get_trace_metrics batch s = (Ok m, s') ->
    exists model_trace sex_site,
      dict_get "model" (trace_storage s) = Some (Some model_trace) /\
      dict_get "sex" (nodes model_trace) = Some sex_site /\
      dict_get "log p(sex)" m = Some (s_log_prob_sum sex_site) /\
      dict_get "log p(ventricle_volume)" m = Some (s_log_prob_sum sex_site) /\
      dict_get "log p(brain_volume)" m = Some (s_log_prob_sum sex_site).
Proof.
  intros batch s m s' H.
  apply get_trace_metrics_inv in H
    as [_ (mt & gt & sx & sage & ssex & sz & gz & Hm & _ & _ & _ & Hsex & _ & _ & ->)].
  exists mt, ssex. repeat split; auto.
Qed.

(** *** The retained pair *)

Lemma CustomELBO_init_aliased (s : State) :
  trace_storage s = CustomELBO_init -> aliased s.
Proof. unfold aliased. now intros ->. Qed.

Lemma CustomELBO_get_trace_aliased model guide_ args kwargs (s : State) :
  exists p s', CustomELBO_get_trace model guide_ args kwargs s = (Ok p, s') /\
               aliased s'.
Proof.
  destruct (CustomELBO_get_trace_run model guide_ args kwargs s)
    as (p & s1 & _ & _ & Hrun).
  rewrite Hrun. do 2 eexists. split; [reflexivity|].
  unfold aliased. simpl.
  rewrite dict_get_set_same.
  rewrite dict_get_set_other by discriminate.
  now rewrite dict_get_set_same.
Qed.

Lemma get_traces_aliased n :
  forall model guide_ args kwargs (s : State),
  exists ps s',
    get_traces CustomELBO_get_trace n model guide_ args kwargs s = (Ok ps, s') /\
    (aliased s \/ 1 <= n -> aliased s').
Proof.
  induction n as [|n IH]; intros model guide_ args kwargs s; simpl.
  - exists [], s. split; [reflexivity|]. intros [H|H]; [assumption|lia].
  - destruct (CustomELBO_get_trace_aliased model guide_ args kwargs s)
      as (p & s1 & Hrun & Hal).
    destruct (IH model guide_ args kwargs s1) as (ps & s2 & Hrest & Hal2).
    exists (p :: ps), s2. split.
    + rewrite (bind_ok _ _ _ Hrun). now rewrite (bind_ok _ _ _ Hrest).
    + intros _. apply Hal2. now left.
Qed.

Lemma svi_evaluate_loss_aliased svi kwargs (s : State) :
  aliased s \/ 1 <= svi_num_particles svi ->
  aliased (snd (svi_evaluate_loss svi kwargs s)).
Proof.
  intros H. unfold svi_evaluate_loss, elbo_loss.
  destruct (get_traces_aliased (svi_num_particles svi) (svi_model svi)
              (svi_guide svi) [] kwargs s) as (ps & s' & Hrun & Hal).
  rewrite (bind_ok _ _ _ Hrun). simpl. auto.
Qed.

Lemma svi_step_aliased svi kwargs (s : State) :
  aliased s \/ 1 <= svi_num_particles svi ->
  aliased (snd (svi_step svi kwargs s)).
Proof.
  intros H.
  destruct (Nat.eq_dec (svi_num_particles svi) 0) as [Hz|Hnz].
  - rewrite (svi_step_no_particle svi kwargs s Hz). simpl.
    destruct H as [H|H]; [exact H | lia].
  - destruct (get_traces_aliased (svi_num_particles svi) (svi_model svi)
                (svi_guide svi) [] kwargs s) as (ps & s' & Hrun & Hal).
    assert (Hn : 1 <= svi_num_particles svi) by lia.
    unfold svi_step.
    rewrite (bind_ok _ _ _ (@elbo_loss_and_grads_run _ _ _ _ _ _ _ _ _ Hn Hrun)).
    simpl. unfold aliased in *. simpl. auto.
Qed.

Lemma aliased_metrics batch (s : State) m s' :
  aliased s ->
  get_trace_metrics batch s = (Ok m, s') ->
  exists v,
    dict_get "p(z)" m = Some v /\ dict_get "q(z)" m = Some v /\
    dict_get "log p(z) - log q(z)" m = Some (tensor_sub v v).
Proof.
  intros Hal H.
  apply get_trace_metrics_inv in H
    as [_ (mt & gt & sx & sage & ssex & sz & gz
           & Hm & Hg & _ & _ & _ & Hz & Hgz & ->)].
  unfold aliased in Hal. rewrite Hm, Hg in Hal.
  assert (gt = mt) by congruence. subst gt.
  assert (gz = sz) by congruence. subst gz.
  exists (s_log_prob_sum sz). repeat split.
Qed.

(** C3 (amended).  After a loss computation through [CustomELBO], by
    [SVI.step] or [SVI.evaluate_loss], the 'guide' entry of [trace_storage]
    is the same trace object as the 'model' entry.  In every mapping
    [get_trace_metrics] then returns, 'p(z)' and 'q(z)' hold the same value
    [v], and 'log p(z) - log q(z)' holds [v - v]: positive zero when [v] is
    finite, NaN when [v] is NaN or infinite. *)
Theorem guide_entry_is_model_entry :
  forall svi kwargs (s s1 : State),
    aliased s \/ 1 <= svi_num_particles svi ->
    s1 = snd (svi_step svi kwargs s) \/
    s1 = snd (svi_evaluate_loss svi kwargs s) ->
    aliased s1 /\
    forall batch m s2,
      get_trace_metrics batch s1 = (Ok m, s2) ->
      exists v,
        dict_get "p(z)" m = Some v /\ dict_get "q(z)" m = Some v /\
        dict_get "log p(z) - log q(z)" m =
          Some (if is_finite v then S754_zero false else S754_nan).
Proof.
  intros svi kwargs s s1 Hpre Hs1.
  assert (Hal : aliased s1).
  { destruct Hs1 as [-> | ->].
    - now apply svi_step_aliased.
    - now apply svi_evaluate_loss_aliased. }
  split; [assumption|].
  intros batch m s2 Hm.
  destruct (aliased_metrics batch Hal Hm) as (v & Hp & Hq & Hd).
  exists v. rewrite <- tensor_sub_self. auto.
Qed.

(** *** The wrapper against the plain estimator *)

Lemma forget_storage_eq (s1 s2 : State) :
  forget_storage s1 = forget_storage s2 ->
  rng s1 = rng s2 /\ params s1 = params s2 /\ next_oid s1 = next_oid s2.
Proof.
  intros H. repeat split.
  - change (rng (forget_storage s1) = rng (forget_storage s2)). now rewrite H.
  - change (params (forget_storage s1) = params (forget_storage s2)). now rewrite H.
  - change (next_oid (forget_storage s1) = next_oid (forget_storage s2)). now rewrite H.
Qed.

Lemma forget_storage_set ts (s1 s2 : State) :
  forget_storage s1 = forget_storage s2 ->
  set_trace_storage ts s1 = set_trace_storage ts s2.
Proof.
  intros H.
  change (set_trace_storage ts (forget_storage s1) =
          set_trace_storage ts (forget_storage s2)).
  now rewrite H.
Qed.

Lemma set_trace_storage_id (s : State) : set_trace_storage (trace_storage s) s = s.
Proof. now destruct s. Qed.

Lemma get_trace_refines model guide_ args kwargs (s1 s2 : State) :
  forget_storage s1 = forget_storage s2 ->
  exists p s1' s2',
    CustomELBO_get_trace model guide_ args kwargs s1 = (Ok p, s1') /\
    TraceGraph_ELBO_get_trace model guide_ args kwargs s2 = (Ok p, s2') /\
    forget_storage s1' = forget_storage s2' /\
    trace_storage s2' = trace_storage s2.
Proof.
  intros H. destruct (forget_storage_eq H) as (Hr & Hp & Ho).
  destruct (CustomELBO_get_trace_run model guide_ args kwargs s1)
    as (p & s & Hplain & _ & Hrun).
  rewrite Hrun. unfold TraceGraph_ELBO_get_trace in *.
  rewrite importance_traces_run in *. inversion Hplain; subst; clear Hplain.
  do 3 eexists. split; [reflexivity|].
  rewrite <- Hr, <- Hp, <- Ho. split; [reflexivity|].
  split; [|reflexivity].
  unfold forget_storage, set_trace_storage, set_next_oid, set_rng in *. simpl.
  inversion H. reflexivity.
Qed.

Lemma get_traces_refines n :
  forall model guide_ args kwargs (s1 s2 : State),
    forget_storage s1 = forget_storage s2 ->
    exists ps s1' s2',
      get_traces CustomELBO_get_trace n model guide_ args kwargs s1 = (Ok ps, s1') /\
      get_traces TraceGraph_ELBO_get_trace n model guide_ args kwargs s2 = (Ok ps, s2') /\
      forget_storage s1' = forget_storage s2' /\
      trace_storage s2' = trace_storage s2.
Proof.
  induction n as [|n IH]; intros model guide_ args kwargs s1 s2 H; simpl.
  - exists [], s1, s2. auto.
  - destruct (get_trace_refines model guide_ args kwargs H)
      as (p & t1 & t2 & Hc & Hp & Hf & Hts).
    destruct (IH model guide_ args kwargs t1 t2 Hf)
      as (ps & u1 & u2 & Hc' & Hp' & Hf' & Hts').
    exists (p :: ps), u1, u2. repeat split.
    + rewrite (bind_ok _ _ _ Hc). now rewrite (bind_ok _ _ _ Hc').
    + rewrite (bind_ok _ _ _ Hp). now rewrite (bind_ok _ _ _ Hp').
    + assumption.
    + congruence.
Qed.

(** C9.  For every model, guide, input, particle count and state, the
    outcome of [loss_and_grads] through [CustomELBO], loss and gradient
    estimate, is the outcome through the plain [TraceGraph_ELBO], and so is
    that of [loss]; the two final states differ in [trace_storage] only.
    With at least one particle both computations return. *)
Theorem CustomELBO_refines_TraceGraph_ELBO :
  forall num_particles model guide_ args kwargs (s : State),
    let custom := elbo_loss_and_grads CustomELBO_get_trace num_particles
                    model guide_ args kwargs s in
    let plain := elbo_loss_and_grads TraceGraph_ELBO_get_trace num_particles
                   model guide_ args kwargs s in
    let custom_loss := elbo_loss CustomELBO_get_trace num_particles
                         model guide_ args kwargs s in
    let plain_loss := elbo_loss TraceGraph_ELBO_get_trace num_particles
                        model guide_ args kwargs s in
    fst custom = fst plain /\
    set_trace_storage (trace_storage s) (snd custom) = snd plain /\
    fst custom_loss = fst plain_loss /\
    set_trace_storage (trace_storage s) (snd custom_loss) = snd plain_loss /\
    (1 <= num_particles ->
     (exists loss grads, fst custom = Ok (loss, grads)) /\
     (exists loss, fst custom_loss = Ok loss)).
Proof.
  intros n model guide_ args kwargs s.
  destruct (@get_traces_refines n model guide_ args kwargs s s eq_refl)
    as (ps & s1 & s2 & Hc & Hp & Hf & Hts).
  assert (Hst : set_trace_storage (trace_storage s) s1 = s2).
  { rewrite (forget_storage_set _ Hf). rewrite <- Hts.
    apply set_trace_storage_id. }
  cbv zeta. unfold elbo_loss.
  rewrite (bind_ok _ _ _ Hc), (bind_ok _ _ _ Hp). simpl.
  destruct n as [|n].
  - simpl in Hc, Hp. inversion Hc; inversion Hp; subst.
    unfold elbo_loss_and_grads, raise. simpl.
    repeat split; auto. all: lia.
  - assert (Hn : 1 <= S n) by lia.
    rewrite (@elbo_loss_and_grads_run _ _ _ _ _ _ _ _ _ Hn Hc).
    rewrite (@elbo_loss_and_grads_run _ _ _ _ _ _ _ _ _ Hn Hp). simpl.
    repeat split; eauto.
Qed.

(** *** The step methods *)

Lemma getitem_preserves {P} (proj : State -> P) k d :
  preserves proj (getitem k d).
Proof. unfold getitem. destruct (dict_get k d); now intros s. Qed.

Lemma getitem_inv k d (s : State) t s' :
  getitem k d s = (Ok t, s') -> s' = s /\ dict_get k d = Some t.
Proof.
  unfold getitem. destruct (dict_get k d); intros H; inversion H; auto.
Qed.

Lemma prep_batch_params batch : preserves params (prep_batch batch).
Proof.
  unfold prep_batch.
  repeat (apply preserves_bind; [apply getitem_preserves | intros ?]).
  apply preserves_bind; [now intros s | intros ?].
  apply preserves_ret.
Qed.

Lemma get_traces_params n model guide_ args kwargs :
  preserves params (get_traces CustomELBO_get_trace n model guide_ args kwargs).
Proof.
  induction n as [|n IH]; simpl.
  - apply preserves_ret.
  - apply preserves_bind; [now intros s | intros p].
    apply preserves_bind; [exact IH | intros ps].
    apply preserves_ret.
Qed.

Lemma svi_evaluate_loss_params svi kwargs :
  preserves params (svi_evaluate_loss svi kwargs).
Proof.
  unfold svi_evaluate_loss, elbo_loss.
  apply preserves_bind; [apply get_traces_params | intros ps].
  apply preserves_ret.
Qed.

Lemma storage_get_preserves {P} (proj : State -> P) k :
  preserves proj (storage_get k).
Proof.
  unfold storage_get. apply preserves_bind; [apply preserves_get | intros s0].
  destruct (dict_get k (trace_storage s0)); now intros s.
Qed.

Lemma log_prob_sum_at_preserves {P} (proj : State -> P) trace name :
  preserves proj (log_prob_sum_at trace name).
Proof.
  unfold log_prob_sum_at. destruct trace as [t|]; [|now intros st].
  destruct (dict_get name (nodes t)); now intros st.
Qed.

Lemma get_trace_metrics_preserves {P} (proj : State -> P) batch :
  preserves proj (get_trace_metrics batch).
Proof.
  unfold get_trace_metrics.
  do 2 (apply preserves_bind; [apply storage_get_preserves | intros ?]).
  repeat (apply preserves_bind; [apply log_prob_sum_at_preserves | intros ?]).
  apply preserves_ret.
Qed.

Lemma validation_step_params self batch batch_idx :
  preserves params (validation_step self batch batch_idx).
Proof.
  unfold validation_step.
  apply preserves_bind; [apply prep_batch_params | intros b].
  apply preserves_bind; [apply svi_evaluate_loss_params | intros loss].
  apply preserves_bind; [apply get_trace_metrics_preserves | intros m].
  apply preserves_ret.
Qed.

(** The mapping [{'loss': loss, **metrics}] built from extracted metrics. *)
Lemma loss_and_metrics_entries batch (s : State) metrics s' loss :
  get_trace_metrics batch s = (Ok metrics, s') ->
  dict_get "loss" (loss_and_metrics loss metrics) = Some (SVScalar (PyFloat loss)) /\
  dict_keys (loss_and_metrics loss metrics) = "loss" :: dict_keys metrics /\
  forall k v, dict_get k metrics = Some v ->
              dict_get k (loss_and_metrics loss metrics)
              = Some (SVScalar (TensorScalar v)).
Proof.
  intros H.
  apply get_trace_metrics_inv in H
    as [_ (mt & gt & sx & sage & ssex & sz & gz & _ & _ & _ & _ & _ & _ & _ & ->)].
  repeat split.
  intros k v. unfold loss_and_metrics. simpl.
  destruct (String.eqb_spec k "loss") as [->|_]; [discriminate|].
  repeat match goal with
         | |- context [String.eqb k ?x] => destruct (String.eqb k x)
         end; congruence.
Qed.

(** C10.  [test_step] is [validation_step]; a call leaves every model and
    guide parameter as it was; and when it returns, the mapping is built
    from the batch prepared by [prep_batch], the loss of
    [SVI.evaluate_loss] on it and the metrics of [get_trace_metrics]: it
    holds 'loss' and every metric.  A returning [training_step] went
    through the same [prep_batch] and [get_trace_metrics], around
    [SVI.step]. *)
Theorem evaluation_steps_only_evaluate :
  forall self batch batch_idx (s : State),
    test_step self batch batch_idx s = validation_step self batch batch_idx s /\
    params (snd (validation_step self batch batch_idx s)) = params s /\
    (forall r s',
        validation_step self batch batch_idx s = (Ok r, s') ->
        exists b s1 loss s2 metrics,
          prep_batch batch s = (Ok b, s1) /\
          svi_evaluate_loss (svi self) b s1 = (Ok loss, s2) /\
          get_trace_metrics b s2 = (Ok metrics, s') /\
          dict_get "loss" r = Some (SVScalar (PyFloat loss)) /\
          dict_keys r = "loss" :: dict_keys metrics /\
          forall k v, dict_get k metrics = Some v ->
                      dict_get k r = Some (SVScalar (TensorScalar v))) /\
    (forall r s',
        training_step self batch batch_idx s = (Ok r, s') ->
        exists b s1 s2 loss s3 metrics,
          prep_batch batch s = (Ok b, s1) /\
          svi_step (svi self) b s2 = (Ok loss, s3) /\
          get_trace_metrics b s3 = (Ok metrics, s')).
Proof.
  intros self batch batch_idx s.
  split; [reflexivity|].
  split; [apply validation_step_params|].
  split.
  - intros r s' H. unfold validation_step in H.
    inv_bind H. inv_bind H. inv_bind H. inversion H; subst; clear H.
    destruct (@loss_and_metrics_entries _ _ _ _ a0 Hrun1) as (Hl & Hk & Hm).
    do 5 eexists. repeat split; eauto.
  - intros r s' H. unfold training_step in H.
    inv_bind H. inv_bind H. inv_bind H. inv_bind H. inv_bind H.
    destruct (is_nan a1).
    + inv_bind Hrun3. inv_bind Hrun3. discriminate.
    + inversion Hrun3; subst. inversion H; subst.
      do 6 eexists. repeat split; eauto.
Qed.

(** The logs [training_step] builds from extracted metrics. *)
Lemma train_logs_entries batch (s : State) metrics s' loss :
  get_trace_metrics batch s = (Ok metrics, s') ->
  let logs := dict_set "train/loss" (PyFloat loss) (train_logs metrics) in
  dict_get "train/loss" logs = Some (PyFloat loss) /\
  forall k v, dict_get k metrics = Some v ->
              dict_get ("train/" ++ k) logs = Some (TensorScalar v).
Proof.
  intros H.
  apply get_trace_metrics_inv in H
    as [_ (mt & gt & sx & sage & ssex & sz & gz & _ & _ & _ & _ & _ & _ & _ & ->)].
  split; [reflexivity|].
  intros k v. unfold train_logs. simpl.
  repeat match goal with
         | |- context [String.eqb k ?x] => destruct (String.eqb k x)
         end; congruence.
Qed.

(** C7.  Let [training_step] reach the optimization step: the batch is
    prepared, the optional trace printing returns, [SVI.step] returns
    [loss] and the metrics are extracted.  If [loss] is NaN, the metrics
    are written to the experiment tracker under the tag 'nan' and a
    [ValueError] is raised.  Otherwise the step returns the mapping with
    'loss' and, under 'log', every metric (prefixed 'train/') and the loss.
    In no case does a returned mapping carry a NaN loss. *)
Theorem training_step_nan_loss_is_fatal :
  forall self batch batch_idx (s : State) b s1 s2 loss s3 metrics,
    prep_batch batch s = (Ok b, s1) ->
    (if validate (hparams self)
     then print "Validation:" ;;; print_trace_updates b
     else ret tt) s1 = (Ok tt, s2) ->
    svi_step (svi self) b s2 = (Ok loss, s3) ->
    get_trace_metrics b s3 = (Ok metrics, s3) ->
    (is_nan loss = true ->
     training_step self batch batch_idx s =
       (Raise (ValueError ("loss went to nan with metrics:" ++ nl
                           ++ str_metrics metrics)),
        add_text "nan"
          ("nand at " ++ str_of_nat (current_epoch s3) ++ ":" ++ nl
           ++ str_metrics metrics) s3)) /\
    (is_nan loss = false ->
     exists logs,
       training_step self batch batch_idx s =
         (Ok [("loss", SVTensor1 loss); ("log", SVLog logs)], s3) /\
       dict_get "train/loss" logs = Some (PyFloat loss) /\
       forall k v, dict_get k metrics = Some v ->
                   dict_get ("train/" ++ k) logs = Some (TensorScalar v)) /\
    (forall r s',
        training_step self batch batch_idx s = (Ok r, s') ->
        dict_get "loss" r = Some (SVTensor1 loss) /\ is_nan loss = false).
Proof.
  intros self batch batch_idx s b s1 s2 loss s3 metrics Hprep Hprint Hstep Hmet.
  assert (Hrun : training_step self batch batch_idx s =
                 (if is_nan loss
                  then (Raise (ValueError ("loss went to nan with metrics:" ++ nl
                                           ++ str_metrics metrics)),
                        add_text "nan"
                          ("nand at " ++ str_of_nat (current_epoch s3) ++ ":" ++ nl
                           ++ str_metrics metrics) s3)
                  else (Ok [("loss", SVTensor1 loss);
                            ("log", SVLog (dict_set "train/loss" (PyFloat loss)
                                             (train_logs metrics)))], s3))).
  { unfold training_step.
    rewrite (bind_ok _ _ _ Hprep).
    rewrite (bind_ok _ _ _ Hprint).
    rewrite (bind_ok _ _ _ Hstep).
    rewrite (bind_ok _ _ _ Hmet).
    destruct (is_nan loss); reflexivity. }
  repeat split.
  - intros Hnan. now rewrite Hrun, Hnan.
  - intros Hnan. rewrite Hrun, Hnan. eexists. split; [reflexivity|].
    exact (@train_logs_entries _ _ _ _ loss Hmet).
  - rewrite Hrun in H. destruct (is_nan loss); [discriminate|].
    inversion H; subst. reflexivity.
  - rewrite Hrun in H. now destruct (is_nan loss).
Qed.

(** *** Inference and counterfactuals *)

Lemma assert_required_pass (obs : dict Tensor) (s : State) :
  (forall k, In k (dict_keys obs) <-> In k required_data) ->
  assert_required obs s = (Ok tt, s).
Proof.
  intros H. apply (proj2 (set_eqb_spec _ _)) in H.
  unfold assert_required. now rewrite H.
Qed.

Lemma assert_required_fail (obs : dict Tensor) (s : State) :
  ~ (forall k, In k (dict_keys obs) <-> In k required_data) ->
  assert_required obs s =
    (Raise (AssertionError ("got: " ++ repr_tuple (dict_keys obs))), s).
Proof.
  intros H. unfold assert_required.
  destruct (set_eqb (dict_keys obs) required_data) eqn:E; [|reflexivity].
  exfalso. apply H. now apply set_eqb_spec.
Qed.

(** A valid observation has every required entry. *)
Lemma required_entry (obs : dict Tensor) k :
  (forall k, In k (dict_keys obs) <-> In k required_data) ->
  In k required_data -> exists t, dict_get k obs = Some t.
Proof.
  intros H Hk. apply dict_get_mem. unfold dict_mem.
  apply existsb_eqb_In. now apply H.
Qed.

Lemma bind_no_assertion {A T} (m : M State A) (k : A -> M State T) s :
  is_assertion (fst (m s)) = false ->
  (forall a s1, is_assertion (fst (k a s1)) = false) ->
  is_assertion (fst (bind m k s)) = false.
Proof.
  unfold bind. destruct (m s) as [[a|e] s1]; simpl; auto.
Qed.

Lemma getitem_no_assertion k d (s : State) :
  is_assertion (fst (getitem k d s)) = false.
Proof. unfold getitem. now destruct (dict_get k d). Qed.

Lemma counterfactual_loop_no_assertion n :
  forall z_dist obs condition acc (s : State),
    is_assertion (fst (counterfactual_loop n z_dist obs condition acc s)) = false.
Proof.
  induction n as [|n IH]; intros z_dist obs condition acc s; simpl; [reflexivity|].
  apply bind_no_assertion; [reflexivity | intros z s1].
  apply bind_no_assertion; [reflexivity | intros ex s2].
  destruct condition as [cond|]; [|reflexivity].
  apply bind_no_assertion.
  - unfold particle_exogeneous. destruct (negb (dict_mem "sex" cond)); [|reflexivity].
    apply bind_no_assertion; [apply getitem_no_assertion | reflexivity].
  - intros ex' s3.
    apply bind_no_assertion; [apply getitem_no_assertion | intros xv s4].
    apply bind_no_assertion; [reflexivity | intros counter s5].
    apply IH.
Qed.

Lemma guide_z_dist_no_assertion obs (s : State) :
  is_assertion (fst (guide_z_dist obs s)) = false.
Proof.
  unfold guide_z_dist.
  apply bind_no_assertion; [reflexivity | intros r s1].
  now destruct (dict_get "z" (snd r)).
Qed.

(** C4.  When the key set of the observation is not the five required
    names, [infer] and [counterfactual] raise [AssertionError] with the
    message 'got: ' followed by the tuple of the keys received, and the
    state is untouched: no guide call, no draw.  When the key set is the
    five names the assertion passes: [infer] returns and [counterfactual]
    raises no [AssertionError]. *)
Theorem observation_key_set_is_asserted :
  forall (obs : dict Tensor) (s : State),
    (~ (forall k, In k (dict_keys obs) <-> In k required_data) ->
     infer obs s =
       (Raise (AssertionError ("got: " ++ repr_tuple (dict_keys obs))), s) /\
     forall condition num_particles,
       counterfactual obs condition num_particles s =
         (Raise (AssertionError ("got: " ++ repr_tuple (dict_keys obs))), s)) /\
    ((forall k, In k (dict_keys obs) <-> In k required_data) ->
     assert_required obs s = (Ok tt, s) /\
     (exists exogeneous s', infer obs s = (Ok exogeneous, s')) /\
     forall condition num_particles,
       is_assertion (fst (counterfactual obs condition num_particles s)) = false).
Proof.
  intros obs s. split.
  - intros Hbad. pose proof (@assert_required_fail obs s Hbad) as Hf. split.
    + unfold infer. now rewrite (bind_raise _ _ _ Hf).
    + intros condition n. unfold counterfactual.
      now rewrite (bind_raise _ _ _ Hf).
  - intros Hgood. pose proof (@assert_required_pass obs s Hgood) as Hp.
    split; [assumption|]. split.
    + unfold infer. rewrite (bind_ok _ _ _ Hp).
      do 2 eexists. reflexivity.
    + intros condition n. unfold counterfactual. rewrite (bind_ok _ _ _ Hp).
      apply bind_no_assertion; [apply guide_z_dist_no_assertion | intros d s1].
      apply bind_no_assertion;
        [apply counterfactual_loop_no_assertion | reflexivity].
Qed.

Lemma particle_exogeneous_run z obs cond ex (s : State) sexv :
  dict_get "sex" obs = Some sexv ->
  particle_exogeneous z obs cond ex s =
    (Ok (if dict_mem "sex" cond then dict_set "z" z ex
         else dict_set "sex" sexv (dict_set "z" z ex)), s).
Proof.
  intros Hsex. unfold particle_exogeneous, getitem.
  destruct (dict_mem "sex" cond); simpl; [reflexivity|].
  unfold bind. now rewrite Hsex.
Qed.

Lemma getitem_run k d (s : State) t :
  dict_get k d = Some t -> getitem k d s = (Ok t, s).
Proof. unfold getitem. now intros ->. Qed.

Lemma counterfactual_loop_calls n :
  forall z_dist obs cond acc (s : State) sexv xv,
    dict_get "sex" obs = Some sexv ->
    dict_get "x" obs = Some xv ->
    exists res s' new,
      counterfactual_loop n z_dist obs (Some cond) acc s = (Ok res, s') /\
      params s' = params s /\
      calls s' = (calls s ++ new)%list /\
      List.length (scm_calls new) = n /\
      Forall (fun c => snd c = cond /\
                       exists z, fst c = spec_passed_exogeneous
                                           (params s) obs cond sexv z)
             (scm_calls new).
Proof.
  induction n as [|n IH]; intros z_dist obs cond acc s sexv xv Hsex Hx.
  - exists acc, s, []. simpl. rewrite app_nil_r. repeat split; auto.
  - cbn [counterfactual_loop].
    set (z := fst (dist_sample z_dist (rng s))).
    set (s1 := snd (pyro_sample "z" z_dist s)).
    assert (H1 : pyro_sample "z" z_dist s = (Ok z, s1)) by reflexivity.
    rewrite (bind_ok _ _ _ H1).
    set (ex := infer_exogeneous (params s) z obs).
    set (s2 := record_call (CallInferExogeneous z obs) s1).
    assert (H2 : run_infer_exogeneous z obs s1 = (Ok ex, s2)) by reflexivity.
    rewrite (bind_ok _ _ _ H2).
    rewrite (bind_ok _ _ _ (@particle_exogeneous_run z obs cond ex s2 sexv Hsex)).
    rewrite (bind_ok _ _ _ (@getitem_run "x" obs s2 xv Hx)).
    set (data := if dict_mem "sex" cond then dict_set "z" z ex
                 else dict_set "sex" sexv (dict_set "z" z ex)).
    set (counter := fst (sample_scm_do (params s2) data cond (t_shape0 xv) (rng s2))).
    set (s3 := snd (run_sample_scm data cond (t_shape0 xv) s2)).
    assert (H3 : run_sample_scm data cond (t_shape0 xv) s2 = (Ok counter, s3))
      by reflexivity.
    rewrite (bind_ok _ _ _ H3).
    destruct (IH z_dist obs cond (acc ++ [counter])%list s3 sexv xv Hsex Hx)
      as (res & s' & new & Hrun & Hpar & Hcalls & Hlen & Hall).
    exists res, s',
      ([CallPyroSample "z" z_dist; CallInferExogeneous z obs;
        CallSampleScm data cond (t_shape0 xv)] ++ new)%list.
    split; [assumption|].
    split; [now rewrite Hpar|].
    split; [rewrite Hcalls; simpl; now rewrite <- !app_assoc|].
    split; [simpl; now rewrite Hlen|].
    simpl. constructor.
    + split; [reflexivity|]. exists z. reflexivity.
    + exact Hall.
Qed.

Lemma guide_z_dist_run obs (s : State) site :
  dict_get "z" (snd (fst (guide (params s) obs (rng s)))) = Some site ->
  guide_z_dist obs s =
    (Ok (s_fn site),
     record_call (CallGuide obs) (set_rng (snd (guide (params s) obs (rng s))) s)).
Proof.
  intros Hz. unfold guide_z_dist, bind, run_guide. simpl. now rewrite Hz.
Qed.

Lemma counterfactual_calls obs cond num_particles (s : State) site :
  (forall k, In k (dict_keys obs) <-> In k required_data) ->
  dict_get "z" (snd (fst (guide (params s) obs (rng s)))) = Some site ->
  exists sexv r s' new,
    dict_get "sex" obs = Some sexv /\
    counterfactual obs (Some cond) num_particles s = (Ok r, s') /\
    calls s' = (calls s ++ CallGuide obs :: new)%list /\
    List.length (scm_calls new) = num_particles /\
    Forall (fun c => snd c = cond /\
                     exists z, fst c = spec_passed_exogeneous
                                         (params s) obs cond sexv z)
           (scm_calls new).
Proof.
  intros Hvalid Hz.
  destruct (@required_entry obs "sex" Hvalid) as [sexv Hsex];
    [simpl; auto|].
  destruct (@required_entry obs "x" Hvalid) as [xv Hx]; [simpl; auto|].
  set (s1 := record_call (CallGuide obs)
               (set_rng (snd (guide (params s) obs (rng s))) s)).
  destruct (@counterfactual_loop_calls num_particles (s_fn site) obs cond []
              s1 sexv xv Hsex Hx)
    as (res & s' & new & Hrun & Hpar & Hcalls & Hlen & Hall).
  exists sexv. do 2 eexists. exists new.
  split; [assumption|]. split.
  - unfold counterfactual.
    rewrite (bind_ok _ _ _ (@assert_required_pass obs s Hvalid)).
    rewrite (bind_ok _ _ _ (@guide_z_dist_run obs s site Hz)).
    fold s1. rewrite (bind_ok _ _ _ Hrun). reflexivity.
  - split; [rewrite Hcalls; simpl; now rewrite <- app_assoc|].
    split; [assumption|]. exact Hall.
Qed.

(** C5.  For a valid observation and an intervention [cond], the guide
    having a 'z' site, [counterfactual] runs the conditioned-and-intervened
    [sample_scm] once per particle, each time with [cond] as intervention
    and with the exogenous mapping [spec_passed_exogeneous]: the abducted
    noise and [z], extended by the observed sex exactly when [cond] does
    not name 'sex'.  In that case the mapping handed over holds the
    observed sex under 'sex'. *)
Theorem counterfactual_fixes_observed_sex :
  forall obs cond num_particles (s : State) site,
    (forall k, In k (dict_keys obs) <-> In k required_data) ->
    dict_get "z" (snd (fst (guide (params s) obs (rng s)))) = Some site ->
    exists sexv r s' new,
      dict_get "sex" obs = Some sexv /\
      counterfactual obs (Some cond) num_particles s = (Ok r, s') /\
      calls s' = (calls s ++ CallGuide obs :: new)%list /\
      List.length (scm_calls new) = num_particles /\
      Forall (fun c => snd c = cond /\
                       exists z, fst c = spec_passed_exogeneous
                                           (params s) obs cond sexv z)
             (scm_calls new) /\
      (dict_mem "sex" cond = false ->
       Forall (fun c => dict_get "sex" (fst c) = Some sexv) (scm_calls new)).
Proof.
  intros obs cond n s site Hvalid Hz.
  destruct (@counterfactual_calls obs cond n s site Hvalid Hz)
    as (sexv & r & s' & new & Hsex & Hrun & Hcalls & Hlen & Hall).
  exists sexv, r, s', new. repeat split; auto.
  intros Hmem. eapply Forall_impl; [|exact Hall].
  intros [data do_data] [_ [z Hd]]. simpl in *. subst data.
  unfold spec_passed_exogeneous. rewrite Hmem.
  apply dict_get_set_same.
Qed.

(** C6 (amended).  For a valid observation, the guide having a 'z' site:
    with [condition] left at its default [None] and at least one particle
    (the default is one) [counterfactual] raises [AttributeError] on
    [None.keys()], which is not the observation-mismatch assertion, after
    the guide was evaluated, the first [z] drawn and the noise abducted,
    and before any [sample_scm] run; with no particle it returns the empty
    mapping and the [None] goes unnoticed.  An explicit empty mapping is an
    empty intervention: the call returns after [n] runs of [sample_scm],
    each with the empty intervention and with the observed sex in the
    exogenous mapping. *)
Theorem counterfactual_default_condition_raises :
  forall obs n (s : State) site,
    (forall k, In k (dict_keys obs) <-> In k required_data) ->
    dict_get "z" (snd (fst (guide (params s) obs (rng s)))) = Some site ->
    let g1 := snd (guide (params s) obs (rng s)) in
    let z := fst (dist_sample (s_fn site) g1) in
    (forall m, 1 <= m ->
       exists s',
         counterfactual obs None m s =
           (Raise (AttributeError "'NoneType' object has no attribute 'keys'"),
            s') /\
         is_assertion (fst (counterfactual obs None m s)) = false /\
         calls s' = (calls s ++ [CallGuide obs; CallPyroSample "z" (s_fn site);
                                 CallInferExogeneous z obs])%list) /\
    counterfactual obs None 0 s =
      (Ok [], record_call (CallGuide obs) (set_rng g1 s)) /\
    (exists sexv r s' new,
        dict_get "sex" obs = Some sexv /\
        counterfactual obs (Some []) n s = (Ok r, s') /\
        calls s' = (calls s ++ CallGuide obs :: new)%list /\
        List.length (scm_calls new) = n /\
        Forall (fun c => snd c = [] /\
                         dict_get "sex" (fst c) = Some sexv /\
                         exists z', fst c = spec_passed_exogeneous
                                              (params s) obs [] sexv z')
               (scm_calls new)).
Proof.
  intros obs n s site Hvalid Hz g1 z.
  pose proof (@assert_required_pass obs s Hvalid) as Hp.
  pose proof (@guide_z_dist_run obs s site Hz) as Hg. fold g1 in Hg.
  split; [|split].
  - intros [|m] Hm; [lia|].
    unfold counterfactual.
    rewrite (bind_ok _ _ _ Hp), (bind_ok _ _ _ Hg).
    eexists. split; [reflexivity|]. split; [reflexivity|].
    simpl. now rewrite <- !app_assoc.
  - unfold counterfactual.
    rewrite (bind_ok _ _ _ Hp), (bind_ok _ _ _ Hg). reflexivity.
  - destruct (@counterfactual_calls obs [] n s site Hvalid Hz)
      as (sexv & r & s' & new & Hsex & Hrun & Hcalls & Hlen & Hall).
    exists sexv, r, s', new.
    repeat (split; [assumption|]).
    eapply Forall_impl; [|exact Hall].
    intros [data do_data] [Hdo [z' Hd]]. simpl in *.
    split; [assumption|]. split; [|now exists z'].
    subst data. unfold spec_passed_exogeneous. simpl.
    apply dict_get_set_same.
Qed.

(** *** Reconstruction *)

Lemma particles_no_guide_call p d x sex age vv bv g cs recons g' :
  particles p d x sex age vv bv g cs recons g' ->
  filter is_guide_call cs = [] /\ List.length cs = 2 * List.length recons.
Proof.
  induction 1 as [|g g3 z data recon others cs recons Hz Hcond Hdec Hrest
                   [IH1 IH2]]; simpl.
  - auto.
  - split; [assumption|]. rewrite IH2. lia.
Qed.

(** The data the code builds for a decode is the conditioning the
    specification names. *)
Lemma recon_data_conditioned sex age vv bv z :
  conditioned_on (recon_data sex age vv bv z) sex age vv bv z.
Proof. repeat split. Qed.

Lemma particles_decode_calls p d x sex age vv bv g cs recons g' :
  particles p d x sex age vv bv g cs recons g' ->
  List.length (decode_calls cs) = List.length recons /\
  Forall (fun c => snd c = t_shape0 x /\
                   exists z, conditioned_on (fst c) sex age vv bv z)
    (decode_calls cs).
Proof.
  induction 1 as [|g g3 z data recon others cs recons Hz Hcond Hdec Hrest
                   [IH1 IH2]]; simpl.
  - split; [reflexivity | constructor].
  - split; [now rewrite IH1|].
    constructor; [|assumption]. simpl. split; [reflexivity|]. now exists z.
Qed.

Lemma reconstruct_loop_run n :
  forall d x age sex vv bv acc (s : State),
    (forall data m g, fst (sample_conditioned (params s) data m g) <> []) ->
    exists cs recons s',
      reconstruct_loop n d x age sex vv bv acc s = (Ok (acc ++ recons)%list, s') /\
      params s' = params s /\
      calls s' = (calls s ++ cs)%list /\
      List.length recons = n /\
      particles (params s) d x sex age vv bv (rng s) cs recons (rng s').
Proof.
  induction n as [|n IH]; intros d x age sex vv bv acc s Hdec.
  - exists [], [], s. simpl. rewrite !app_nil_r.
    repeat split; auto. constructor.
  - cbn [reconstruct_loop].
    set (z := fst (dist_sample d (rng s))).
    set (s1 := snd (pyro_sample "z" d s)).
    assert (H1 : pyro_sample "z" d s = (Ok z, s1)) by reflexivity.
    rewrite (bind_ok _ _ _ H1).
    pose proof (recon_data_conditioned sex age vv bv z) as Hcond.
    set (data := recon_data sex age vv bv z) in *.
    set (out := fst (sample_conditioned (params s1) data (t_shape0 x) (rng s1))).
    set (s2 := snd (run_sample data (t_shape0 x) s1)).
    assert (H2 : run_sample data (t_shape0 x) s1 = (Ok out, s2)) by reflexivity.
    rewrite (bind_ok _ _ _ H2).
    destruct out as [|recon others] eqn:Hout.
    { exfalso. exact (Hdec data (t_shape0 x) (rng s1) Hout). }
    destruct (IH d x age sex vv bv (acc ++ [recon])%list s2 Hdec)
      as (cs & recons & s' & Hrun & Hpar & Hcalls & Hlen & Hparts).
    exists (CallPyroSample "z" d :: CallSample data (t_shape0 x) :: cs),
      (recon :: recons), s'.
    split; [rewrite Hrun; now rewrite <- app_assoc|].
    split; [now rewrite Hpar|].
    split; [rewrite Hcalls; simpl; now rewrite <- !app_assoc|].
    split; [simpl; now rewrite Hlen|].
    eapply particles_next; [reflexivity | exact Hcond | exact Hout | exact Hparts].
Qed.

(** C8.  Let the guide trace have a 'z' site with distribution [d] and let
    every decode return at least the image.  For [n >= 1] particles
    [reconstruct] calls the guide once, then runs [n] particles, each a
    draw from [d] followed by a decode conditioned on the observed sex,
    age, ventricle volume, brain volume and the drawn [z], and returns the
    mean over the stack of the [n] decoded images.  There are exactly [n]
    decodes; each runs [self.sample] for the batch size of [x] with data
    that holds the observed sex, age, ventricle volume and brain volume
    under their names, a latent under 'z', and no other site.  With
    [n = 1] the result is the mean over the stack of the one decoded image,
    which is the image itself when such a mean is the element. *)
Theorem reconstruct_is_posterior_mean :
  forall x age sex ventricle_volume brain_volume n (s : State) site,
    let obs := [("x", x); ("sex", sex); ("age", age);
                ("ventricle_volume", ventricle_volume);
                ("brain_volume", brain_volume)] in
    let g1 := snd (guide (params s) obs (rng s)) in
    dict_get "z" (snd (fst (guide (params s) obs (rng s)))) = Some site ->
    (forall data m g, fst (sample_conditioned (params s) data m g) <> []) ->
    1 <= n ->
    exists cs recons s',
      reconstruct x age sex ventricle_volume brain_volume n s
        = (Ok (t_stack_mean0 recons), s') /\
      calls s' = (calls s ++ CallGuide obs :: cs)%list /\
      List.length (filter is_guide_call (CallGuide obs :: cs)) = 1 /\
      particles (params s) (s_fn site) x sex age ventricle_volume brain_volume
        g1 cs recons (rng s') /\
      List.length recons = n /\
      List.length (decode_calls cs) = n /\
      Forall (fun c =>
                snd c = t_shape0 x /\
                dict_get "sex" (fst c) = Some sex /\
                dict_get "age" (fst c) = Some age /\
                dict_get "ventricle_volume" (fst c) = Some ventricle_volume /\
                dict_get "brain_volume" (fst c) = Some brain_volume /\
                (exists z, dict_get "z" (fst c) = Some z) /\
                (forall k, In k (dict_keys (fst c)) <->
                           In k ["sex"; "age"; "ventricle_volume";
                                 "brain_volume"; "z"]))
        (decode_calls cs) /\
      (n = 1 -> exists recon,
          recons = [recon] /\
          ((forall t, t_stack_mean0 [t] = t) ->
           reconstruct x age sex ventricle_volume brain_volume n s
             = (Ok recon, s'))).
Proof.
  intros x age sex vv bv n s site obs g1 Hz Hdec Hn.
  set (s1 := record_call (CallGuide obs) (set_rng g1 s)).
  destruct (@reconstruct_loop_run n (s_fn site) x age sex vv bv [] s1 Hdec)
    as (cs & recons & s' & Hrun & Hpar & Hcalls & Hlen & Hparts).
  assert (Hrec : reconstruct x age sex vv bv n s = (Ok (t_stack_mean0 recons), s')).
  { unfold reconstruct. fold obs.
    rewrite (bind_ok _ _ _ (@guide_z_dist_run obs s site Hz)).
    fold g1. fold s1. rewrite (bind_ok _ _ _ Hrun). simpl.
    destruct recons; [simpl in Hlen; lia | reflexivity]. }
  destruct (particles_decode_calls Hparts) as [Hcount Hall].
  exists cs, recons, s'.
  split; [assumption|].
  split; [rewrite Hcalls; simpl; now rewrite <- app_assoc|].
  split; [simpl; now rewrite (proj1 (particles_no_guide_call Hparts))|].
  split; [assumption|]. split; [assumption|].
  split; [now rewrite Hcount|].
  split.
  { eapply Forall_impl; [|exact Hall].
    intros c (Hm & z & Hsex & Hage & Hvv & Hbv & Hzc & Hkeys).
    repeat (split; [assumption|]).
    split; [now exists z|].
    exact (proj1 (set_eqb_spec _ _) Hkeys). }
  intros ->. destruct recons as [|recon [|? ?]]; try discriminate.
  exists recon. split; [reflexivity|].
  intros Hmean. now rewrite Hrec, Hmean.
Qed.

End Properties.

(** * Runs on concrete inputs *)

Lemma get_trace_metrics_volume_entries_witness :
  let C : Carrier := Toy.carrier in
  let B : Backend := Toy.backend Toy.f_two Toy.f_one Toy.f_one in
  let s := snd (svi_evaluate_loss (build_svi Toy.hparams0) Toy.obs0 Toy.state0) in
  let m := Toy.metrics_of Toy.f_two (S754_zero false) in
  get_trace_metrics Toy.obs0 s = (Ok m, s) /\
  exists model_trace sex_site,
    dict_get "model" (trace_storage s) = Some (Some model_trace) /\
    dict_get "sex" (nodes model_trace) = Some sex_site /\
    dict_get "log p(sex)" m = Some (s_log_prob_sum sex_site) /\
    dict_get "log p(ventricle_volume)" m = Some (s_log_prob_sum sex_site) /\
    dict_get "log p(brain_volume)" m = Some (s_log_prob_sum sex_site).
Proof.
  intros C B s m.
  assert (H : get_trace_metrics Toy.obs0 s = (Ok m, s)) by (vm_compute; reflexivity).
  split; [exact H|].
  exact (@get_trace_metrics_volume_entries C Toy.obs0 s m s H).
Defined.

(** At that input the two volume entries hold the log-probability of the
    'sex' site, -1, although the retained model trace scores
    'ventricle_volume' at -5 and 'brain_volume' at -6. *)
Lemma get_trace_metrics_volume_entries_diverge :
  let C : Carrier := Toy.carrier in
  let B : Backend := Toy.backend Toy.f_two Toy.f_one Toy.f_one in
  let s := snd (svi_evaluate_loss (build_svi Toy.hparams0) Toy.obs0 Toy.state0) in
  exists m model_trace vv_site bv_site,
    get_trace_metrics Toy.obs0 s = (Ok m, s) /\
    dict_get "model" (trace_storage s) = Some (Some model_trace) /\
    dict_get "ventricle_volume" (nodes model_trace) = Some vv_site /\
    dict_get "brain_volume" (nodes model_trace) = Some bv_site /\
    s_log_prob_sum vv_site = Toy.f_minus_five /\
    s_log_prob_sum bv_site = Toy.f_minus_six /\
    dict_get "log p(ventricle_volume)" m = Some Toy.f_minus_one /\
    dict_get "log p(brain_volume)" m = Some Toy.f_minus_one.
Proof.
  intros C B s.
  exists (Toy.metrics_of Toy.f_two (S754_zero false)).
  exists {| oid := 7; nodes := Toy.model_nodes Toy.f_two Toy.obs0 |}.
  exists (Toy.site 20 3 Toy.f_minus_five true).
  exists (Toy.site 30 4 Toy.f_minus_six true).
  repeat split; vm_compute; reflexivity.
Qed.

(** C3, counterexample.  With a model trace whose 'z' site scores NaN, the
    mapping extracted after a step holds NaN under 'log p(z) - log q(z)',
    which is not zero. *)
Lemma kl_entry_is_nan_counterexample :
  let C : Carrier := Toy.carrier in
  let B : Backend := Toy.backend S754_nan Toy.f_one Toy.f_one in
  let s1 := snd (svi_step (build_svi Toy.hparams0) Toy.obs0 Toy.state0) in
  exists m,
    get_trace_metrics Toy.obs0 s1 = (Ok m, s1) /\
    dict_get "log p(z) - log q(z)" m = Some S754_nan /\
    forall sign, dict_get "log p(z) - log q(z)" m <> Some (S754_zero sign).
Proof.
  intros C B s1.
  exists (Toy.metrics_of S754_nan S754_nan).
  split; [vm_compute; reflexivity|].
  split; [reflexivity|].
  intros sign. simpl. discriminate.
Qed.

Lemma guide_entry_is_model_entry_witness :
  let C : Carrier := Toy.carrier in
  let B : Backend := Toy.backend Toy.f_two Toy.f_one Toy.f_one in
  let svi := build_svi Toy.hparams0 in
  let s1 := snd (svi_step svi Toy.obs0 Toy.state0) in
  (aliased Toy.state0 \/ 1 <= svi_num_particles svi) /\
  (s1 = snd (svi_step svi Toy.obs0 Toy.state0) \/
   s1 = snd (svi_evaluate_loss svi Toy.obs0 Toy.state0)) /\
  aliased s1 /\
  get_trace_metrics Toy.obs0 s1
    = (Ok (Toy.metrics_of Toy.f_two (S754_zero false)), s1) /\
  exists v,
    dict_get "p(z)" (Toy.metrics_of Toy.f_two (S754_zero false)) = Some v /\
    dict_get "q(z)" (Toy.metrics_of Toy.f_two (S754_zero false)) = Some v /\
    dict_get "log p(z) - log q(z)" (Toy.metrics_of Toy.f_two (S754_zero false))
      = Some (if is_finite v then S754_zero false else S754_nan).
Proof.
  intros C B svi s1.
  assert (H0 : aliased Toy.state0 \/ 1 <= svi_num_particles svi)
    by (left; reflexivity).
  assert (H1 : s1 = snd (svi_step svi Toy.obs0 Toy.state0) \/
               s1 = snd (svi_evaluate_loss svi Toy.obs0 Toy.state0))
    by (left; reflexivity).
  assert (Hm : get_trace_metrics Toy.obs0 s1
               = (Ok (Toy.metrics_of Toy.f_two (S754_zero false)), s1))
    by (vm_compute; reflexivity).
  destruct (@guide_entry_is_model_entry C B svi Toy.obs0 Toy.state0 s1 H0 H1)
    as [Hal Hmetrics].
  split; [exact H0|]. split; [exact H1|]. split; [exact Hal|].
  split; [exact Hm|].
  exact (Hmetrics Toy.obs0 _ s1 Hm).
Defined.

Lemma CustomELBO_refines_TraceGraph_ELBO_witness :
  let C : Carrier := Toy.carrier in
  let B : Backend := Toy.backend Toy.f_two Toy.f_one Toy.f_one in
  let svi := build_svi Toy.hparams0 in
  let custom := elbo_loss_and_grads CustomELBO_get_trace 2
                  (svi_model svi) (svi_guide svi) [] Toy.obs0 Toy.state0 in
  let plain := elbo_loss_and_grads TraceGraph_ELBO_get_trace 2
                 (svi_model svi) (svi_guide svi) [] Toy.obs0 Toy.state0 in
  let custom_loss := elbo_loss CustomELBO_get_trace 2
                       (svi_model svi) (svi_guide svi) [] Toy.obs0 Toy.state0 in
  let plain_loss := elbo_loss TraceGraph_ELBO_get_trace 2
                      (svi_model svi) (svi_guide svi) [] Toy.obs0 Toy.state0 in
  1 <= 2 /\
  fst custom = fst plain /\
  set_trace_storage (trace_storage Toy.state0) (snd custom) = snd plain /\
  fst custom_loss = fst plain_loss /\
  set_trace_storage (trace_storage Toy.state0) (snd custom_loss)
    = snd plain_loss /\
  (exists loss grads, fst custom = Ok (loss, grads)) /\
  (exists loss, fst custom_loss = Ok loss).
Proof.
  intros C B svi custom plain custom_loss plain_loss.
  assert (Hn : 1 <= 2) by lia.
  destruct (@CustomELBO_refines_TraceGraph_ELBO C B 2 (svi_model svi)
              (svi_guide svi) [] Toy.obs0 Toy.state0)
    as (H1 & H2 & H3 & H4 & H5).
  split; [exact Hn|]. split; [exact H1|]. split; [exact H2|].
  split; [exact H3|]. split; [exact H4|]. exact (H5 Hn).
Defined.

Lemma observation_key_set_is_asserted_witness :
  let C : Carrier := Toy.carrier in
  let B : Backend := Toy.backend Toy.f_two Toy.f_one Toy.f_one in
  (~ (forall k, In k (dict_keys Toy.partial_obs) <-> In k required_data)) /\
  infer Toy.partial_obs Toy.state0
    = (Raise (AssertionError "got: ('x', 'sex', 'age', 'ventricle_volume')"),
       Toy.state0) /\
  counterfactual Toy.partial_obs None 1 Toy.state0
    = (Raise (AssertionError "got: ('x', 'sex', 'age', 'ventricle_volume')"),
       Toy.state0) /\
  (forall k, In k (dict_keys Toy.obs0) <-> In k required_data) /\
  assert_required Toy.obs0 Toy.state0 = (Ok tt, Toy.state0) /\
  (exists exogeneous s', infer Toy.obs0 Toy.state0 = (Ok exogeneous, s')) /\
  is_assertion (fst (counterfactual Toy.obs0 None 1 Toy.state0)) = false.
Proof.
  intros C B.
  assert (Hbad : ~ (forall k, In k (dict_keys Toy.partial_obs)
                              <-> In k required_data)).
  { intros H. apply (proj2 (set_eqb_spec _ _)) in H. discriminate H. }
  assert (Hgood : forall k, In k (dict_keys Toy.obs0) <-> In k required_data).
  { apply set_eqb_spec. reflexivity. }
  destruct (@observation_key_set_is_asserted C B Toy.partial_obs Toy.state0)
    as [Hfail _].
  destruct (@observation_key_set_is_asserted C B Toy.obs0 Toy.state0)
    as [_ Hpass].
  destruct (Hfail Hbad) as [Hinfer Hcf].
  destruct (Hpass Hgood) as (Hassert & Hret & Hno).
  split; [exact Hbad|]. split; [exact Hinfer|]. split; [exact (Hcf None 1)|].
  split; [exact Hgood|]. split; [exact Hassert|]. split; [exact Hret|].
  exact (Hno None 1).
Defined.

Lemma counterfactual_fixes_observed_sex_witness :
  let C : Carrier := Toy.carrier in
  let B : Backend := Toy.backend Toy.f_two Toy.f_one Toy.f_one in
  (forall k, In k (dict_keys Toy.obs0) <-> In k required_data) /\
  dict_get "z" (snd (fst (guide (params Toy.state0) Toy.obs0 (rng Toy.state0))))
    = Some (Toy.z_site Toy.f_one) /\
  exists sexv r s' new,
    dict_get "sex" Toy.obs0 = Some sexv /\
    counterfactual Toy.obs0 (Some Toy.intervention0) 2 Toy.state0 = (Ok r, s') /\
    calls s' = (calls Toy.state0 ++ CallGuide Toy.obs0 :: new)%list /\
    List.length (scm_calls new) = 2 /\
    Forall (fun c => snd c = Toy.intervention0 /\
                     exists z, fst c = spec_passed_exogeneous
                                         (params Toy.state0) Toy.obs0
                                         Toy.intervention0 sexv z)
           (scm_calls new) /\
    (dict_mem "sex" Toy.intervention0 = false ->
     Forall (fun c => dict_get "sex" (fst c) = Some sexv) (scm_calls new)).
Proof.
  intros C B.
  assert (Hvalid : forall k, In k (dict_keys Toy.obs0) <-> In k required_data).
  { apply set_eqb_spec. reflexivity. }
  assert (Hz : dict_get "z"
                 (snd (fst (guide (params Toy.state0) Toy.obs0 (rng Toy.state0))))
               = Some (Toy.z_site Toy.f_one)) by reflexivity.
  split; [exact Hvalid|]. split; [exact Hz|].
  exact (@counterfactual_fixes_observed_sex C B Toy.obs0 Toy.intervention0 2
           Toy.state0 (Toy.z_site Toy.f_one) Hvalid Hz).
Defined.

Lemma counterfactual_default_condition_raises_witness :
  let C : Carrier := Toy.carrier in
  let B : Backend := Toy.backend Toy.f_two Toy.f_one Toy.f_one in
  let s := Toy.state0 in
  let g1 := snd (guide (params s) Toy.obs0 (rng s)) in
  let z := fst (dist_sample (s_fn (Toy.z_site Toy.f_one)) g1) in
  (forall k, In k (dict_keys Toy.obs0) <-> In k required_data) /\
  dict_get "z" (snd (fst (guide (params s) Toy.obs0 (rng s))))
    = Some (Toy.z_site Toy.f_one) /\
  1 <= 1 /\
  (exists s',
      counterfactual Toy.obs0 None 1 s =
        (Raise (AttributeError "'NoneType' object has no attribute 'keys'"), s') /\
      is_assertion (fst (counterfactual Toy.obs0 None 1 s)) = false /\
      calls s' = (calls s ++ [CallGuide Toy.obs0;
                              CallPyroSample "z" (s_fn (Toy.z_site Toy.f_one));
                              CallInferExogeneous z Toy.obs0])%list) /\
  counterfactual Toy.obs0 None 0 s =
    (Ok [], record_call (CallGuide Toy.obs0) (set_rng g1 s)) /\
  (exists sexv r s' new,
      dict_get "sex" Toy.obs0 = Some sexv /\
      counterfactual Toy.obs0 (Some []) 1 s = (Ok r, s') /\
      calls s' = (calls s ++ CallGuide Toy.obs0 :: new)%list /\
      List.length (scm_calls new) = 1 /\
      Forall (fun c => snd c = [] /\
                       dict_get "sex" (fst c) = Some sexv /\
                       exists z', fst c = spec_passed_exogeneous
                                            (params s) Toy.obs0 [] sexv z')
             (scm_calls new)).
Proof.
  intros C B s g1 z.
  assert (Hvalid : forall k, In k (dict_keys Toy.obs0) <-> In k required_data).
  { apply set_eqb_spec. reflexivity. }
  assert (Hz : dict_get "z" (snd (fst (guide (params s) Toy.obs0 (rng s))))
               = Some (Toy.z_site Toy.f_one)) by reflexivity.
  assert (Hn : 1 <= 1) by lia.
  destruct (@counterfactual_default_condition_raises C B Toy.obs0 1 s
              (Toy.z_site Toy.f_one) Hvalid Hz) as (Hnone & Hzero & Hempty).
  split; [exact Hvalid|]. split; [exact Hz|]. split; [exact Hn|].
  split; [exact (Hnone 1 Hn)|]. split; [exact Hzero|]. exact Hempty.
Defined.

(** C6, counterexample.  The observation is valid and the condition is left
    at its default, yet with no particle requested the loop body, and with
    it [condition.keys()], is never reached: the call returns the empty
    mapping and raises nothing. *)
Lemma counterfactual_default_condition_counterexample :
  let C : Carrier := Toy.carrier in
  let B : Backend := Toy.backend Toy.f_two Toy.f_one Toy.f_one in
  (forall k, In k (dict_keys Toy.obs0) <-> In k required_data) /\
  fst (counterfactual Toy.obs0 None 0 Toy.state0) = Ok [] /\
  forall msg, fst (counterfactual Toy.obs0 None 0 Toy.state0)
              <> Raise (AttributeError msg).
Proof.
  intros C B.
  split; [apply set_eqb_spec; reflexivity|].
  split; [vm_compute; reflexivity|].
  intros msg. vm_compute. discriminate.
Qed.

Lemma training_step_nan_loss_is_fatal_witness :
  let C : Carrier := Toy.carrier in
  let B : Backend := Toy.backend Toy.f_two Toy.f_one S754_nan in
  let self := SVIExperiment_init Toy.hparams0 in
  let s1 := snd (prep_batch Toy.batch0 Toy.state0) in
  let s3 := snd (svi_step (svi self) Toy.prepared0 s1) in
  let metrics := Toy.metrics_of Toy.f_two (S754_zero false) in
  prep_batch Toy.batch0 Toy.state0 = (Ok Toy.prepared0, s1) /\
  (if validate (hparams self)
   then print "Validation:" ;;; print_trace_updates Toy.prepared0
   else ret tt) s1 = (Ok tt, s1) /\
  svi_step (svi self) Toy.prepared0 s1 = (Ok S754_nan, s3) /\
  get_trace_metrics Toy.prepared0 s3 = (Ok metrics, s3) /\
  is_nan S754_nan = true /\
  training_step self Toy.batch0 0 Toy.state0 =
    (Raise (ValueError ("loss went to nan with metrics:" ++ nl
                        ++ str_metrics metrics)),
     add_text "nan"
       ("nand at " ++ str_of_nat (current_epoch s3) ++ ":" ++ nl
        ++ str_metrics metrics) s3) /\
  logger (snd (training_step self Toy.batch0 0 Toy.state0)) =
    [("nan", "nand at 3:" ++ nl ++ str_metrics metrics)].
Proof.
  intros C B self s1 s3 metrics.
  assert (Hprep : prep_batch Toy.batch0 Toy.state0 = (Ok Toy.prepared0, s1))
    by (vm_compute; reflexivity).
  assert (Hprint : (if validate (hparams self)
                    then print "Validation:" ;;; print_trace_updates Toy.prepared0
                    else ret tt) s1 = (Ok tt, s1)) by reflexivity.
  assert (Hstep : svi_step (svi self) Toy.prepared0 s1 = (Ok S754_nan, s3))
    by (vm_compute; reflexivity).
  assert (Hmet : get_trace_metrics Toy.prepared0 s3 = (Ok metrics, s3))
    by (vm_compute; reflexivity).
  destruct (@training_step_nan_loss_is_fatal C B self Toy.batch0 0 Toy.state0
              Toy.prepared0 s1 s1 S754_nan s3 metrics Hprep Hprint Hstep Hmet)
    as (Hnan & _ & _).
  split; [exact Hprep|]. split; [exact Hprint|]. split; [exact Hstep|].
  split; [exact Hmet|]. split; [reflexivity|].
  split; [exact (Hnan eq_refl)|].
  rewrite (Hnan eq_refl). vm_compute. reflexivity.
Defined.

(** The same step with a finite loss returns, and has moved the parameters. *)
Lemma training_step_finite_loss_returns :
  let C : Carrier := Toy.carrier in
  let B : Backend := Toy.backend Toy.f_two Toy.f_one Toy.f_one in
  let metrics := Toy.metrics_of Toy.f_two (S754_zero false) in
  let r := training_step (SVIExperiment_init Toy.hparams0) Toy.batch0 0 Toy.state0 in
  fst r = Ok [("loss", SVTensor1 Toy.f_one);
              ("log", SVLog (dict_set "train/loss" (PyFloat Toy.f_one)
                               (train_logs metrics)))] /\
  params Toy.state0 = 0%Z /\
  params (snd r) = 4%Z.
Proof.
  intros C B metrics r. repeat split; vm_compute; reflexivity.
Qed.

Lemma reconstruct_is_posterior_mean_witness :
  let C : Carrier := Toy.carrier in
  let B : Backend := Toy.backend Toy.f_two Toy.f_one Toy.f_one in
  let obs := [("x", 10%Z); ("sex", 1%Z); ("age", 60%Z);
              ("ventricle_volume", 20%Z); ("brain_volume", 30%Z)] in
  let s := Toy.state0 in
  let g1 := snd (guide (params s) obs (rng s)) in
  dict_get "z" (snd (fst (guide (params s) obs (rng s))))
    = Some (Toy.z_site Toy.f_one) /\
  (forall data m g, fst (sample_conditioned (params s) data m g) <> []) /\
  1 <= 1 /\
  exists cs recons s',
    reconstruct 10%Z 60%Z 1%Z 20%Z 30%Z 1 s = (Ok (t_stack_mean0 recons), s') /\
    calls s' = (calls s ++ CallGuide obs :: cs)%list /\
    List.length (filter is_guide_call (CallGuide obs :: cs)) = 1 /\
    particles (params s) (s_fn (Toy.z_site Toy.f_one)) 10%Z 1%Z 60%Z 20%Z 30%Z
      g1 cs recons (rng s') /\
    List.length recons = 1 /\
    List.length (decode_calls cs) = 1 /\
    Forall (fun c =>
              snd c = t_shape0 10%Z /\
              dict_get "sex" (fst c) = Some 1%Z /\
              dict_get "age" (fst c) = Some 60%Z /\
              dict_get "ventricle_volume" (fst c) = Some 20%Z /\
              dict_get "brain_volume" (fst c) = Some 30%Z /\
              (exists z, dict_get "z" (fst c) = Some z) /\
              (forall k, In k (dict_keys (fst c)) <->
                         In k ["sex"; "age"; "ventricle_volume";
                               "brain_volume"; "z"]))
      (decode_calls cs) /\
    (1 = 1 -> exists recon,
        recons = [recon] /\
        ((forall t, t_stack_mean0 [t] = t) ->
         reconstruct 10%Z 60%Z 1%Z 20%Z 30%Z 1 s = (Ok recon, s'))).
Proof.
  intros C B obs s g1.
  assert (Hz : dict_get "z" (snd (fst (guide (params s) obs (rng s))))
               = Some (Toy.z_site Toy.f_one)) by reflexivity.
  assert (Hdec : forall data m g,
             fst (sample_conditioned (params s) data m g) <> [])
    by (intros data m g; discriminate).
  assert (Hn : 1 <= 1) by lia.
  split; [exact Hz|]. split; [exact Hdec|]. split; [exact Hn|].
  exact (@reconstruct_is_posterior_mean C B 10%Z 60%Z 1%Z 20%Z 30%Z 1 s
           (Toy.z_site Toy.f_one) Hz Hdec Hn).
Defined.

(** In the toy backend the mean over a one-image stack is the image, and the
    reconstruction with one particle is the single decode. *)
Lemma reconstruct_one_particle_run :
  let C : Carrier := Toy.carrier in
  let B : Backend := Toy.backend Toy.f_two Toy.f_one Toy.f_one in
  (forall t, t_stack_mean0 [t] = t) /\
  fst (reconstruct 10%Z 60%Z 1%Z 20%Z 30%Z 1 Toy.state0) = Ok 119%Z /\
  fst (sample_conditioned 0%Z (recon_data 1%Z 60%Z 20%Z 30%Z 8%Z) 1 2)
    = [119%Z; 8%Z].
Proof.
  intros C B. split.
  - intros t. change (((t + 0) / 1)%Z = t). now rewrite Z.add_0_r, Z.div_1_r.
  - split; vm_compute; reflexivity.
Qed.

Lemma evaluation_steps_only_evaluate_witness :
  let C : Carrier := Toy.carrier in
  let B : Backend := Toy.backend Toy.f_two Toy.f_one Toy.f_one in
  let self := SVIExperiment_init Toy.hparams0 in
  let metrics := Toy.metrics_of Toy.f_two (S754_zero false) in
  let r := ("loss", SVScalar (PyFloat Toy.f_one))
             :: map (fun kv => (fst kv, SVScalar (TensorScalar (snd kv)))) metrics in
  let s' := snd (validation_step self Toy.batch0 0 Toy.state0) in
  validation_step self Toy.batch0 0 Toy.state0 = (Ok r, s') /\
  test_step self Toy.batch0 0 Toy.state0 = (Ok r, s') /\
  params s' = params Toy.state0 /\
  exists b s1 loss s2 metrics',
    prep_batch Toy.batch0 Toy.state0 = (Ok b, s1) /\
    svi_evaluate_loss (svi self) b s1 = (Ok loss, s2) /\
    get_trace_metrics b s2 = (Ok metrics', s') /\
    dict_get "loss" r = Some (SVScalar (PyFloat loss)) /\
    dict_keys r = "loss" :: dict_keys metrics' /\
    forall k v, dict_get k metrics' = Some v ->
                dict_get k r = Some (SVScalar (TensorScalar v)).
Proof.
  intros C B self metrics r s'.
  assert (Hrun : validation_step self Toy.batch0 0 Toy.state0 = (Ok r, s'))
    by (vm_compute; reflexivity).
  destruct (@evaluation_steps_only_evaluate C B self Toy.batch0 0 Toy.state0)
    as (Htest & Hparams & Hval & _).
  split; [exact Hrun|]. split; [now rewrite Htest|].
  split; [exact Hparams|].
  exact (Hval r s' Hrun).
Defined.

(** * Further properties of the code *)

Section Coverage.
Context {C : Carrier} {B : Backend}.

(** ** Batch preparation *)

Lemma dict_mem_get {V} (k : string) (d : dict V) :
  dict_mem k d = match dict_get k d with Some _ => true | None => false end.
Proof.
  unfold dict_mem, dict_keys.
  induction d as [|[k' v] d IH]; simpl; [reflexivity|].
  destruct (String.eqb k k'); simpl; auto.
Qed.

Lemma prep_batch_run batch (s : State) image age sex vv bv :
  dict_get "image" batch = Some image ->
  dict_get "age" batch = Some age ->
  dict_get "sex" batch = Some sex ->
  dict_get "ventricle_volume" batch = Some vv ->
  dict_get "brain_volume" batch = Some bv ->
  let x := t_float (t_mul255 image) in
  prep_batch batch s =
    (Ok [("x", t_add x (fst (t_rand_like x (rng s))));
         ("age", t_unsqueeze1_float age);
         ("sex", t_unsqueeze1_float sex);
         ("ventricle_volume", t_unsqueeze1_float vv);
         ("brain_volume", t_unsqueeze1_float bv)],
     set_rng (snd (t_rand_like x (rng s))) s).
Proof.
  intros Hi Ha Hs Hv Hb x. unfold prep_batch.
  rewrite (bind_ok _ _ _ (@getitem_run _ "image" batch s image Hi)).
  rewrite (bind_ok _ _ _ (@getitem_run _ "age" batch s age Ha)).
  rewrite (bind_ok _ _ _ (@getitem_run _ "sex" batch s sex Hs)).
  rewrite (bind_ok _ _ _ (@getitem_run _ "ventricle_volume" batch s vv Hv)).
  rewrite (bind_ok _ _ _ (@getitem_run _ "brain_volume" batch s bv Hb)).
  reflexivity.
Qed.

Lemma getitem_missing k (d : dict Tensor) (s : State) :
  dict_get k d = None -> getitem k d s = (Raise (KeyError k), s).
Proof. unfold getitem. now intros ->. Qed.

Lemma prep_batch_run_frame batch (s : State) :
  params (snd (prep_batch batch s)) = params s /\
  trace_storage (snd (prep_batch batch s)) = trace_storage s /\
  logger (snd (prep_batch batch s)) = logger s.
Proof.
  assert (H : preserves (fun st : State => (params st, trace_storage st, logger st))
                (prep_batch batch)).
  { unfold prep_batch.
    repeat (apply preserves_bind; [apply getitem_preserves | intros ?]).
    apply preserves_bind; [now intros st | intros ?].
    apply preserves_ret. }
  specialize (H s). inversion H as [[Hp Ht Hl]]. auto.
Qed.

Lemma prep_batch_first_missing :
  forall batch (s : State) k,
    find (fun k => negb (dict_mem k batch)) raw_keys = Some k ->
    prep_batch batch s = (Raise (KeyError k), s).
Proof.
  intros batch s k. unfold raw_keys. simpl. rewrite !dict_mem_get.
  unfold prep_batch.
  destruct (dict_get "image" batch) as [image|] eqn:Hi; simpl;
    [|intros H; inversion H; subst;
      now rewrite (bind_raise _ _ _ (@getitem_missing "image" batch s Hi))].
  rewrite (bind_ok _ _ _ (@getitem_run _ "image" batch s image Hi)).
  destruct (dict_get "age" batch) as [age|] eqn:Ha; simpl;
    [|intros H; inversion H; subst;
      now rewrite (bind_raise _ _ _ (@getitem_missing "age" batch s Ha))].
  rewrite (bind_ok _ _ _ (@getitem_run _ "age" batch s age Ha)).
  destruct (dict_get "sex" batch) as [sex|] eqn:Hs; simpl;
    [|intros H; inversion H; subst;
      now rewrite (bind_raise _ _ _ (@getitem_missing "sex" batch s Hs))].
  rewrite (bind_ok _ _ _ (@getitem_run _ "sex" batch s sex Hs)).
  destruct (dict_get "ventricle_volume" batch) as [vv|] eqn:Hv; simpl;
    [|intros H; inversion H; subst;
      now rewrite (bind_raise _ _ _
                     (@getitem_missing "ventricle_volume" batch s Hv))].
  rewrite (bind_ok _ _ _ (@getitem_run _ "ventricle_volume" batch s vv Hv)).
  destruct (dict_get "brain_volume" batch) as [bv|] eqn:Hb; simpl;
    [discriminate|].
  intros H; inversion H; subst.
  now rewrite (bind_raise _ _ _ (@getitem_missing "brain_volume" batch s Hb)).
Qed.

(** X2.  When a key that [prep_batch] reads is absent, the call raises
    [KeyError] naming the first absent key in reading order (image, age,
    sex, ventricle_volume, brain_volume), and the state is untouched: no
    dequantization noise has been drawn. *)
Theorem prep_batch_missing_key :
  forall batch (s : State) k,
    find (fun k => negb (dict_mem k batch)) raw_keys = Some k ->
    prep_batch batch s = (Raise (KeyError k), s) /\
    rng (snd (prep_batch batch s)) = rng s.
Proof.
  intros batch s k Hk.
  rewrite (@prep_batch_first_missing batch s k Hk). auto.
Qed.

(** X1.  [prep_batch] returns exactly when the batch has the five raw keys
    (further keys are ignored).  The mapping returned has the keys x, age,
    sex, ventricle_volume, brain_volume, so the observation check of [infer]
    and [counterfactual] passes on it, and the call changes nothing of the
    state but the random stream. *)
Theorem prep_batch_returns_iff :
  forall batch (s : State),
    ((exists r s', prep_batch batch s = (Ok r, s')) <->
     forallb (fun k => dict_mem k batch) raw_keys = true) /\
    (forall r s',
        prep_batch batch s = (Ok r, s') ->
        dict_keys r = prepared_keys /\
        assert_required r s' = (Ok tt, s') /\
        s' = set_rng (rng s') s).
Proof.
  intros batch s.
  assert (Hcases :
            (exists image age sex vv bv,
                dict_get "image" batch = Some image /\
                dict_get "age" batch = Some age /\
                dict_get "sex" batch = Some sex /\
                dict_get "ventricle_volume" batch = Some vv /\
                dict_get "brain_volume" batch = Some bv /\
                forallb (fun k => dict_mem k batch) raw_keys = true) \/
            (exists k, find (fun k => negb (dict_mem k batch)) raw_keys = Some k /\
                       forallb (fun k => dict_mem k batch) raw_keys = false)).
  { unfold raw_keys. simpl. rewrite !dict_mem_get.
    destruct (dict_get "image" batch); simpl; [|right; eauto].
    destruct (dict_get "age" batch); simpl; [|right; eauto].
    destruct (dict_get "sex" batch); simpl; [|right; eauto].
    destruct (dict_get "ventricle_volume" batch); simpl; [|right; eauto].
    destruct (dict_get "brain_volume" batch); simpl; [|right; eauto].
    left. do 5 eexists. repeat split; reflexivity. }
  destruct Hcases as [(image & age & sex & vv & bv & Hi & Ha & Hs & Hv & Hb & Hall)
                     | (k & Hk & Hall)].
  - pose proof (@prep_batch_run batch s image age sex vv bv Hi Ha Hs Hv Hb) as Hrun.
    cbv zeta in Hrun. split.
    + split; [intros _; exact Hall | intros _; eauto].
    + intros r s' H. rewrite Hrun in H. inversion H; subst; clear H.
      split; [reflexivity|]. split; [|reflexivity].
      apply assert_required_pass. apply set_eqb_spec. reflexivity.
  - pose proof (@prep_batch_first_missing batch s k Hk) as Hrun. split.
    + split.
      * intros (r & s' & H). rewrite Hrun in H. discriminate.
      * intros H. rewrite Hall in H. discriminate.
    + intros r s' H. rewrite Hrun in H. discriminate.
Qed.

(** ** Metric extraction *)

Lemma log_prob_sum_at_run trace name (s : State) t site :
  trace = Some t -> dict_get name (nodes t) = Some site ->
  log_prob_sum_at trace name s = (Ok (s_log_prob_sum site), s).
Proof. intros -> H. unfold log_prob_sum_at. now rewrite H. Qed.

Lemma storage_get_run k (s : State) t :
  dict_get k (trace_storage s) = Some t -> storage_get k s = (Ok t, s).
Proof. intros H. unfold storage_get, bind, get. now rewrite H. Qed.

Lemma get_trace_metrics_read_only batch (s : State) :
  snd (get_trace_metrics batch s) = s.
Proof. exact (@get_trace_metrics_preserves _ State (fun st => st) batch s). Qed.

(** X3.  As long as no loss has been computed, that is with [trace_storage]
    as [__init__] leaves it, [get_trace_metrics] raises [AttributeError] (it
    reads [.nodes] of [None]); and whatever its outcome, it leaves the state
    as it found it. *)
Theorem get_trace_metrics_before_any_loss :
  forall batch (s : State),
    (trace_storage s = CustomELBO_init ->
     get_trace_metrics batch s =
       (Raise (AttributeError "'NoneType' object has no attribute 'nodes'"), s)) /\
    snd (get_trace_metrics batch s) = s.
Proof.
  intros batch s. split; [|apply get_trace_metrics_read_only].
  intros H. unfold get_trace_metrics.
  rewrite (bind_ok _ _ _ (@storage_get_run "model" s None
                            ltac:(rewrite H; reflexivity))).
  rewrite (bind_ok _ _ _ (@storage_get_run "guide" s None
                            ltac:(rewrite H; reflexivity))).
  reflexivity.
Qed.

(** X4.  [get_trace_metrics] returns a mapping exactly when the retained
    model trace has the sites x, age, sex and z and the trace retained under
    'guide' has a site z.  No site ventricle_volume or brain_volume is asked
    for.  The mapping then has the eight metric keys, in a fixed order. *)
Theorem get_trace_metrics_returns_iff :
  forall batch (s : State),
    ((exists m, get_trace_metrics batch s = (Ok m, s)) <->
     (exists mt gt,
         dict_get "model" (trace_storage s) = Some (Some mt) /\
         dict_get "guide" (trace_storage s) = Some (Some gt) /\
         has_site "x" mt = true /\ has_site "age" mt = true /\
         has_site "sex" mt = true /\ has_site "z" mt = true /\
         has_site "z" gt = true)) /\
    (forall m s',
        get_trace_metrics batch s = (Ok m, s') ->
        dict_keys m = ["log p(x)"; "log p(age)"; "log p(sex)";
                       "log p(ventricle_volume)"; "log p(brain_volume)";
                       "log p(z) - log q(z)"; "p(z)"; "q(z)"]).
Proof.
  intros batch s. split; [split|].
  - intros [m H].
    apply get_trace_metrics_inv in H
      as [_ (mt & gt & sx & sage & ssex & sz & gz
             & Hm & Hg & Hx & Ha & Hs & Hz & Hgz & _)].
    exists mt, gt. unfold has_site. rewrite !dict_mem_get.
    rewrite Hx, Ha, Hs, Hz, Hgz. repeat split; assumption.
  - intros (mt & gt & Hm & Hg & Hx & Ha & Hs & Hz & Hgz).
    unfold has_site in *. rewrite dict_mem_get in Hx, Ha, Hs, Hz, Hgz.
    destruct (dict_get "x" (nodes mt)) as [sx|] eqn:Ex; [|discriminate].
    destruct (dict_get "age" (nodes mt)) as [sage|] eqn:Ea; [|discriminate].
    destruct (dict_get "sex" (nodes mt)) as [ssex|] eqn:Es; [|discriminate].
    destruct (dict_get "z" (nodes mt)) as [sz|] eqn:Ez; [|discriminate].
    destruct (dict_get "z" (nodes gt)) as [gz|] eqn:Egz; [|discriminate].
    eexists. unfold get_trace_metrics.
    rewrite (bind_ok _ _ _ (@storage_get_run "model" s _ Hm)).
    rewrite (bind_ok _ _ _ (@storage_get_run "guide" s _ Hg)).
    rewrite (bind_ok _ _ _ (@log_prob_sum_at_run _ "x" s mt sx eq_refl Ex)).
    rewrite (bind_ok _ _ _ (@log_prob_sum_at_run _ "age" s mt sage eq_refl Ea)).
    rewrite !(bind_ok _ _ _ (@log_prob_sum_at_run _ "sex" s mt ssex eq_refl Es)).
    rewrite (bind_ok _ _ _ (@log_prob_sum_at_run _ "z" s mt sz eq_refl Ez)).
    rewrite (bind_ok _ _ _ (@log_prob_sum_at_run _ "z" s gt gz eq_refl Egz)).
    rewrite (bind_ok _ _ _ (@log_prob_sum_at_run _ "z" s mt sz eq_refl Ez)).
    rewrite (bind_ok _ _ _ (@log_prob_sum_at_run _ "z" s gt gz eq_refl Egz)).
    reflexivity.
  - intros m s' H.
    apply get_trace_metrics_inv in H
      as [_ (mt & gt & sx & sage & ssex & sz & gz
             & _ & _ & _ & _ & _ & _ & _ & ->)].
    reflexivity.
Qed.

(** ** Retention of traces *)

Lemma storage_keys_kept (ts : dict (option Trace)) a b :
  dict_keys ts = ["model"; "guide"] ->
  dict_keys (dict_set "guide" b (dict_set "model" a ts)) = ["model"; "guide"].
Proof.
  destruct ts as [|[k1 v1] [|[k2 v2] [|? ?]]]; simpl; intros H;
    inversion H; subst; reflexivity.
Qed.

Lemma CustomELBO_get_trace_alloc model guide_ args kwargs (s : State) :
  exists p s',
    CustomELBO_get_trace model guide_ args kwargs s = (Ok p, s') /\
    oid (fst p) = S (next_oid s) /\
    next_oid s' = S (S (next_oid s)) /\
    dict_get "model" (trace_storage s') = Some (Some (fst p)) /\
    dict_get "guide" (trace_storage s') = Some (Some (fst p)) /\
    (dict_keys (trace_storage s) = ["model"; "guide"] ->
     dict_keys (trace_storage s') = ["model"; "guide"]).
Proof.
  destruct (CustomELBO_get_trace_run model guide_ args kwargs s)
    as (p & s1 & Hplain & _ & Hrun).
  unfold TraceGraph_ELBO_get_trace in Hplain.
  rewrite importance_traces_run in Hplain. inversion Hplain; subst; clear Hplain.
  rewrite Hrun. do 2 eexists. split; [reflexivity|]. simpl.
  repeat split.
  - rewrite dict_get_set_other by discriminate. apply dict_get_set_same.
  - apply dict_get_set_same.
  - apply storage_keys_kept.
Qed.

Lemma get_traces_retains n :
  forall model guide_ args kwargs (s : State),
  exists ps s',
    get_traces CustomELBO_get_trace n model guide_ args kwargs s = (Ok ps, s') /\
    next_oid s' = 2 * n + next_oid s /\
    (n = 0 -> trace_storage s' = trace_storage s) /\
    (1 <= n ->
     exists t, dict_get "model" (trace_storage s') = Some (Some t) /\
               dict_get "guide" (trace_storage s') = Some (Some t) /\
               S (oid t) = next_oid s') /\
    (dict_keys (trace_storage s) = ["model"; "guide"] ->
     dict_keys (trace_storage s') = ["model"; "guide"]).
Proof.
  induction n as [|n IH]; intros model guide_ args kwargs s.
  - exists [], s. simpl. repeat split; auto. intros H. lia.
  - destruct (CustomELBO_get_trace_alloc model guide_ args kwargs s)
      as (p & s1 & Hrun & Hoid & Hnext & Hm & Hg & Hkeys).
    destruct (IH model guide_ args kwargs s1)
      as (ps & s2 & Hrest & Hnext2 & Hzero & Hpos & Hkeys2).
    exists (p :: ps), s2. split.
    { cbn [get_traces]. rewrite (bind_ok _ _ _ Hrun).
      now rewrite (bind_ok _ _ _ Hrest). }
    split; [lia|]. split; [discriminate|]. split; [|auto].
    intros _. destruct n as [|n].
    + exists (fst p). rewrite (Hzero eq_refl). repeat split; auto. lia.
    + apply Hpos. lia.
Qed.

(** X5.  Only the latest traces are retained.  After [SVI.step] or
    [SVI.evaluate_loss] with [n >= 1] particles, both entries of
    [trace_storage] hold the trace object allocated last, the model trace of
    the last particle, whatever was stored before; with no particle the
    storage is as before.  The storage never grows: its keys stay 'model'
    and 'guide'. *)
Theorem storage_holds_latest_trace :
  forall svi kwargs (s s1 : State),
    s1 = snd (svi_step svi kwargs s) \/
    s1 = snd (svi_evaluate_loss svi kwargs s) ->
    next_oid s1 = 2 * svi_num_particles svi + next_oid s /\
    (svi_num_particles svi = 0 -> trace_storage s1 = trace_storage s) /\
    (1 <= svi_num_particles svi ->
     exists t, dict_get "model" (trace_storage s1) = Some (Some t) /\
               dict_get "guide" (trace_storage s1) = Some (Some t) /\
               S (oid t) = next_oid s1) /\
    (dict_keys (trace_storage s) = ["model"; "guide"] ->
     dict_keys (trace_storage s1) = ["model"; "guide"]).
Proof.
  intros svi kwargs s s1 Hs1.
  destruct (@get_traces_retains (svi_num_particles svi) (svi_model svi)
              (svi_guide svi) [] kwargs s)
    as (ps & s' & Hrun & Hnext & Hzero & Hpos & Hkeys).
  destruct Hs1 as [-> | ->].
  - destruct (Nat.eq_dec (svi_num_particles svi) 0) as [Hz|Hnz].
    + rewrite (svi_step_no_particle svi kwargs s Hz). simpl.
      rewrite Hz. repeat split; auto. intros H. lia.
    + assert (Hn : 1 <= svi_num_particles svi) by lia.
      unfold svi_step.
      rewrite (bind_ok _ _ _ (@elbo_loss_and_grads_run _ _ _ _ _ _ _ _ _ _ _ Hn Hrun)).
      simpl. auto.
  - unfold svi_evaluate_loss, elbo_loss.
    rewrite (bind_ok _ _ _ Hrun). simpl. auto.
Qed.

(** ** Training against evaluation *)

Lemma get_trace_metrics_same_storage batch (s s' : State) m :
  trace_storage s' = trace_storage s ->
  get_trace_metrics batch s = (Ok m, s) ->
  get_trace_metrics batch s' = (Ok m, s').
Proof.
  intros Hts H.
  apply get_trace_metrics_inv in H
    as [_ (mt & gt & sx & sage & ssex & sz & gz
           & Hm & Hg & Ex & Ea & Es & Ez & Egz & ->)].
  rewrite <- Hts in Hm, Hg.
  unfold get_trace_metrics.
  rewrite (bind_ok _ _ _ (@storage_get_run "model" s' _ Hm)).
  rewrite (bind_ok _ _ _ (@storage_get_run "guide" s' _ Hg)).
  rewrite (bind_ok _ _ _ (@log_prob_sum_at_run _ "x" s' mt sx eq_refl Ex)).
  rewrite (bind_ok _ _ _ (@log_prob_sum_at_run _ "age" s' mt sage eq_refl Ea)).
  rewrite !(bind_ok _ _ _ (@log_prob_sum_at_run _ "sex" s' mt ssex eq_refl Es)).
  rewrite (bind_ok _ _ _ (@log_prob_sum_at_run _ "z" s' mt sz eq_refl Ez)).
  rewrite (bind_ok _ _ _ (@log_prob_sum_at_run _ "z" s' gt gz eq_refl Egz)).
  rewrite (bind_ok _ _ _ (@log_prob_sum_at_run _ "z" s' mt sz eq_refl Ez)).
  rewrite (bind_ok _ _ _ (@log_prob_sum_at_run _ "z" s' gt gz eq_refl Egz)).
  reflexivity.
Qed.

(** X6.  With trace printing off and at least one particle, a training step
    is a validation step plus one optimizer update.  If [validation_step]
    returns from a state, then from that state [training_step] prepares the
    same batch, retains the same traces and extracts the same metrics, and
    ends in the state of the validation step with the parameters updated
    once by the gradient estimate of [loss_and_grads].  The loss it reports
    is the one [loss_and_grads] computes; the validation step reports the
    one [loss] computes.  This holds as well when the reported loss is NaN:
    the update has been applied when the [ValueError] is raised. *)
Theorem training_is_validation_plus_one_update :
  forall self batch batch_idx (s : State) r sv,
    validate (hparams self) = false ->
    1 <= svi_num_particles (svi self) ->
    validation_step self batch batch_idx s = (Ok r, sv) ->
    exists b s1 eval_loss loss g metrics,
      prep_batch batch s = (Ok b, s1) /\
      svi_evaluate_loss (svi self) b s1 = (Ok eval_loss, sv) /\
      elbo_loss_and_grads CustomELBO_get_trace (svi_num_particles (svi self))
        (svi_model (svi self)) (svi_guide (svi self)) [] b s1
        = (Ok (loss, g), sv) /\
      get_trace_metrics b sv = (Ok metrics, sv) /\
      r = loss_and_metrics eval_loss metrics /\
      let st := set_params (adam_update (params s) g) sv in
      training_step self batch batch_idx s =
        if is_nan loss
        then (Raise (ValueError ("loss went to nan with metrics:" ++ nl
                                 ++ str_metrics metrics)),
              add_text "nan"
                ("nand at " ++ str_of_nat (current_epoch sv) ++ ":" ++ nl
                 ++ str_metrics metrics) st)
        else (Ok [("loss", SVTensor1 loss);
                  ("log", SVLog (dict_set "train/loss" (PyFloat loss)
                                   (train_logs metrics)))], st).
Proof.
  intros self batch batch_idx s r sv Hval Hn H.
  unfold validation_step in H.
  inv_bind H. inv_bind H. inv_bind H. inversion H; subst; clear H.
  rename a into b, a0 into eval_loss, a1 into metrics, s0 into s1, s1 into s2.
  pose proof (get_trace_metrics_read_only b s2) as Hro.
  rewrite Hrun1 in Hro. simpl in Hro. subst s2.
  pose proof Hrun0 as Heval.
  unfold svi_evaluate_loss, elbo_loss in Hrun0. inv_bind Hrun0.
  inversion Hrun0; subst; clear Hrun0.
  rename a into ps, Hrun2 into Htraces.
  pose proof (@elbo_loss_and_grads_run _ _ _ _ _ _ _ _ _ _ _ Hn Htraces) as Hlg.
  exists b, s1, (estimator_loss (map trace_nodes ps)),
    (estimator_step_loss (map trace_nodes ps)),
    (estimator_grads (map trace_nodes ps)), metrics.
  split; [assumption|]. split; [assumption|]. split; [assumption|].
  split; [assumption|]. split; [reflexivity|].
  assert (Hpar : params s1 = params s).
  { pose proof (prep_batch_params batch s) as Hp. now rewrite Hrun in Hp. }
  assert (Hpar' : params sv = params s1).
  { pose proof (@get_traces_params _ _ (svi_num_particles (svi self))
                  (svi_model (svi self)) (svi_guide (svi self)) [] b s1) as Hp.
    now rewrite Htraces in Hp. }
  set (g := estimator_grads (map trace_nodes ps)).
  set (loss := estimator_step_loss (map trace_nodes ps)).
  set (st := set_params (adam_update (params s) g) sv).
  assert (Hstep : svi_step (svi self) b s1 = (Ok loss, st)).
  { unfold svi_step. rewrite (bind_ok _ _ _ Hlg). simpl.
    unfold bind, modify, ret. unfold st, g, loss. now rewrite Hpar', Hpar. }
  assert (Hmet : get_trace_metrics b st = (Ok metrics, st)).
  { apply get_trace_metrics_same_storage with (s := sv); [reflexivity|assumption]. }
  cbv zeta. fold st. unfold training_step.
  rewrite (bind_ok _ _ _ Hrun). rewrite Hval.
  rewrite (bind_ok _ _ _ (eq_refl : ret tt s1 = (Ok tt, s1))).
  rewrite (bind_ok _ _ _ Hstep).
  rewrite (bind_ok _ _ _ Hmet).
  destruct (is_nan loss); reflexivity.
Qed.

(** ** Trace printing *)

Lemma print_untouched line : preserves untouched_by_printing (print line).
Proof. now intros s. Qed.

Lemma print_model_site_untouched name site :
  preserves untouched_by_printing (print_model_site name site).
Proof.
  unfold print_model_site. destruct (s_type site); [|apply preserves_ret].
  apply preserves_bind; [apply print_untouched | intros _].
  apply preserves_bind; [apply print_untouched | intros _].
  destruct (is_nan (s_log_prob_sum site)); [|apply preserves_ret].
  destruct (has_concentration (unwrap_independent (s_fn site))).
  - apply preserves_bind; [apply print_untouched | intros _].
    apply preserves_raise.
  - apply preserves_raise.
Qed.

Lemma print_guide_site_untouched name site :
  preserves untouched_by_printing (print_guide_site name site).
Proof.
  unfold print_guide_site. destruct (s_type site); [|apply preserves_ret].
  apply preserves_bind; [apply print_untouched | intros _].
  apply print_untouched.
Qed.

Lemma for_each_site_untouched body ns :
  (forall name site, preserves untouched_by_printing (body name site)) ->
  preserves untouched_by_printing (for_each_site body ns).
Proof.
  intros Hbody. induction ns as [|[name site] ns IH]; simpl.
  - apply preserves_ret.
  - apply preserves_bind; [apply Hbody | intros _; exact IH].
Qed.

Lemma print_trace_updates_untouched batch :
  preserves untouched_by_printing (print_trace_updates batch).
Proof.
  unfold print_trace_updates.
  apply preserves_bind; [apply print_untouched | intros _].
  apply preserves_bind; [now intros s | intros p].
  apply preserves_bind; [apply print_untouched | intros _].
  apply preserves_bind;
    [apply for_each_site_untouched, print_model_site_untouched | intros _].
  apply preserves_bind; [apply print_untouched | intros _].
  apply for_each_site_untouched, print_guide_site_untouched.
Qed.

Lemma for_each_model_site_outcome ns :
  forall s : State,
    if existsb nan_sample_site ns
    then exists e s', for_each_site print_model_site ns s = (Raise e, s')
    else exists s', for_each_site print_model_site ns s = (Ok tt, s').
Proof.
  induction ns as [|[name site] ns IH]; intros s; simpl.
  - eexists; reflexivity.
  - unfold nan_sample_site at 1. simpl. unfold print_model_site.
    destruct (s_type site); simpl.
    + destruct (is_nan (s_log_prob_sum site)); simpl.
      * destruct (has_concentration (unwrap_independent (s_fn site)));
          do 2 eexists; reflexivity.
      * exact (IH _).
    + exact (IH s).
Qed.

Lemma for_each_guide_site_returns ns :
  forall s : State, exists s', for_each_site print_guide_site ns s = (Ok tt, s').
Proof.
  induction ns as [|[name site] ns IH]; intros s; simpl.
  - eexists; reflexivity.
  - unfold print_guide_site. destruct (s_type site); simpl.
    + exact (IH _).
    + exact (IH s).
Qed.

Lemma print_trace_updates_outcome batch (s : State) :
  if existsb nan_sample_site (printed_model_nodes batch s)
  then exists e s', print_trace_updates batch s = (Raise e, s')
  else exists s', print_trace_updates batch s = (Ok tt, s').
Proof.
  unfold print_trace_updates.
  set (s0 := print_line ("Traces:" ++ nl ++ "##########") s).
  rewrite (bind_ok _ _ _ (eq_refl : print _ s = (Ok tt, s0))).
  rewrite (bind_ok _ _ _ (importance_traces_run svi_model_fn svi_guide_fn [] batch s0)).
  cbv zeta. cbn [fst snd nodes].
  change (fst (fst (get_importance_trace svi_model_fn svi_guide_fn []
                      batch (params s0) (rng s0))))
    with (printed_model_nodes batch s).
  set (mn := printed_model_nodes batch s).
  match goal with
  | |- context [bind (print ?l) _ ?st] =>
      rewrite (bind_ok _ _ _ (eq_refl : print l st = (Ok tt, print_line l st)));
      set (s1 := print_line l st)
  end.
  pose proof (for_each_model_site_outcome mn s1) as Hm.
  destruct (existsb nan_sample_site mn).
  - destruct Hm as (e & s' & Hm). rewrite (bind_raise _ _ _ Hm). eauto.
  - destruct Hm as (s' & Hm). rewrite (bind_ok _ _ _ Hm).
    match goal with
    | |- context [bind (print ?l) _ ?st] =>
        rewrite (bind_ok _ _ _ (eq_refl : print l st = (Ok tt, print_line l st)))
    end.
    apply for_each_guide_site_returns.
Qed.

(** X7.  [print_trace_updates] returns exactly when no sample site of the
    model trace it computes has a NaN summed log-probability; when one has,
    it raises.  On either outcome it leaves the parameters, the retained
    traces and the experiment logger as they were. *)
Theorem print_trace_updates_raises_iff_nan :
  forall batch (s : State),
    ((exists s', print_trace_updates batch s = (Ok tt, s')) <->
     existsb nan_sample_site (printed_model_nodes batch s) = false) /\
    ((exists e s', print_trace_updates batch s = (Raise e, s')) <->
     existsb nan_sample_site (printed_model_nodes batch s) = true) /\
    params (snd (print_trace_updates batch s)) = params s /\
    trace_storage (snd (print_trace_updates batch s)) = trace_storage s /\
    logger (snd (print_trace_updates batch s)) = logger s.
Proof.
  intros batch s.
  pose proof (print_trace_updates_outcome batch s) as Hout.
  pose proof (print_trace_updates_untouched batch s) as Hfr.
  unfold untouched_by_printing in Hfr. inversion Hfr as [[Hp Ht Hl]].
  destruct (existsb nan_sample_site (printed_model_nodes batch s)).
  - destruct Hout as (e & s' & Hrun).
    repeat split; auto; try discriminate.
    + intros (s'' & H). rewrite Hrun in H. discriminate.
    + intros _. eauto.
  - destruct Hout as (s' & Hrun).
    repeat split; auto; try discriminate.
    + intros _. eauto.
    + intros (e & s'' & H). rewrite Hrun in H. discriminate.
Qed.

(** X8.  With trace printing on, a NaN site found while printing ends
    [training_step] before the optimization step: the call raises, and the
    parameters, the retained traces and the logger are as before the call. *)
Theorem training_step_stops_at_nan_site :
  forall self batch batch_idx (s : State) b s1,
    validate (hparams self) = true ->
    prep_batch batch s = (Ok b, s1) ->
    existsb nan_sample_site (printed_model_nodes b s1) = true ->
    exists e s',
      training_step self batch batch_idx s = (Raise e, s') /\
      params s' = params s /\
      trace_storage s' = trace_storage s /\
      logger s' = logger s.
Proof.
  intros self batch batch_idx s b s1 Hval Hprep Hnan.
  set (s2 := print_line "Validation:" s1).
  pose proof (print_trace_updates_outcome b s2) as Hout.
  change (printed_model_nodes b s2) with (printed_model_nodes b s1) in Hout.
  rewrite Hnan in Hout. destruct Hout as (e & s' & Hrun).
  pose proof (print_trace_updates_untouched b s2) as Hfr.
  rewrite Hrun in Hfr. unfold untouched_by_printing in Hfr. simpl in Hfr.
  inversion Hfr as [[Hp Ht Hl]].
  pose proof (prep_batch_run_frame batch s) as Hpre. rewrite Hprep in Hpre.
  simpl in Hpre. destruct Hpre as (Hp1 & Ht1 & Hl1).
  exists e, s'. split.
  - unfold training_step. rewrite (bind_ok _ _ _ Hprep). rewrite Hval.
    assert (Hpr : (print "Validation:" ;;; print_trace_updates b) s1
                  = (Raise e, s')).
    { rewrite (bind_ok _ _ _ (eq_refl : print "Validation:" s1 = (Ok tt, s2))).
      exact Hrun. }
    now rewrite (bind_raise _ _ _ Hpr).
  - repeat split; congruence.
Qed.

(** ** Inference *)

(** X9.  For a valid observation [infer] calls the guide once, then
    [infer_exogeneous] with the guide's [z], and returns the abducted noise
    with [z] stored under 'z' (replacing an entry 'z' of the abducted
    mapping, if there was one); every other key is as [infer_exogeneous]
    gave it.  The random stream is where the guide left it and the
    parameters are unchanged. *)
Theorem infer_returns_noise_and_z :
  forall obs (s : State),
    (forall k, In k (dict_keys obs) <-> In k required_data) ->
    let z := fst (fst (guide (params s) obs (rng s))) in
    exists r s',
      infer obs s = (Ok r, s') /\
      dict_get "z" r = Some z /\
      (forall k, k <> "z" ->
                 dict_get k r = dict_get k (infer_exogeneous (params s) z obs)) /\
      calls s' = (calls s ++ [CallGuide obs; CallInferExogeneous z obs])%list /\
      rng s' = snd (guide (params s) obs (rng s)) /\
      params s' = params s.
Proof.
  intros obs s Hvalid z. unfold infer.
  rewrite (bind_ok _ _ _ (@assert_required_pass _ obs s Hvalid)).
  do 2 eexists. split; [reflexivity|]. simpl.
  split; [apply dict_get_set_same|].
  split; [intros k Hk; now apply dict_get_set_other|].
  split; [now rewrite <- app_assoc|]. auto.
Qed.

(** ** Counterfactuals *)

Lemma counterfactual_loop_particles n :
  forall d obs cond acc (s : State) sexv xv,
    dict_get "sex" obs = Some sexv ->
    dict_get "x" obs = Some xv ->
    exists rows s' cs,
      counterfactual_loop n d obs (Some cond) acc s = (Ok (acc ++ rows)%list, s') /\
      params s' = params s /\
      calls s' = (calls s ++ cs)%list /\
      List.length rows = n /\
      cf_particles (params s) d obs cond sexv xv (rng s) cs rows (rng s').
Proof.
  induction n as [|n IH]; intros d obs cond acc s sexv xv Hsex Hx.
  - exists [], s, []. simpl. rewrite !app_nil_r.
    repeat split; auto. constructor.
  - cbn [counterfactual_loop].
    set (z := fst (dist_sample d (rng s))).
    set (s1 := snd (pyro_sample "z" d s)).
    assert (H1 : pyro_sample "z" d s = (Ok z, s1)) by reflexivity.
    rewrite (bind_ok _ _ _ H1).
    set (ex := infer_exogeneous (params s) z obs).
    set (s2 := record_call (CallInferExogeneous z obs) s1).
    assert (H2 : run_infer_exogeneous z obs s1 = (Ok ex, s2)) by reflexivity.
    rewrite (bind_ok _ _ _ H2).
    rewrite (bind_ok _ _ _ (@particle_exogeneous_run _ z obs cond ex s2 sexv Hsex)).
    rewrite (bind_ok _ _ _ (@getitem_run _ "x" obs s2 xv Hx)).
    change (if dict_mem "sex" cond then dict_set "z" z ex
            else dict_set "sex" sexv (dict_set "z" z ex))
      with (spec_passed_exogeneous (params s) obs cond sexv z).
    set (data := spec_passed_exogeneous (params s) obs cond sexv z).
    set (counter := fst (sample_scm_do (params s2) data cond (t_shape0 xv) (rng s2))).
    set (s3 := snd (run_sample_scm data cond (t_shape0 xv) s2)).
    assert (H3 : run_sample_scm data cond (t_shape0 xv) s2 = (Ok counter, s3))
      by reflexivity.
    rewrite (bind_ok _ _ _ H3).
    destruct (IH d obs cond (acc ++ [counter])%list s3 sexv xv Hsex Hx)
      as (rows & s' & cs & Hrun & Hpar & Hcalls & Hlen & Hparts).
    exists (counter :: rows), s',
      (CallPyroSample "z" d :: CallInferExogeneous z obs
         :: CallSampleScm data cond (t_shape0 xv) :: cs).
    split; [rewrite Hrun; now rewrite <- app_assoc|].
    split; [now rewrite Hpar|].
    split; [rewrite Hcalls; simpl; now rewrite <- !app_assoc|].
    split; [simpl; now rewrite Hlen|].
    eapply cf_particles_next; [reflexivity | reflexivity | exact Hparts].
Qed.

Lemma cf_particles_no_guide_call p d obs cond sexv xv g cs rows g' :
  cf_particles p d obs cond sexv xv g cs rows g' ->
  filter is_guide_call cs = [] /\ List.length cs = 3 * List.length rows.
Proof.
  induction 1 as [|g g3 z data cs rows Hz Hd Hrest [IH1 IH2]]; simpl.
  - auto.
  - split; [assumption|]. rewrite IH2. lia.
Qed.

Lemma counterfactual_particles obs cond n (s : State) site :
  (forall k, In k (dict_keys obs) <-> In k required_data) ->
  dict_get "z" (snd (fst (guide (params s) obs (rng s)))) = Some site ->
  exists sexv xv rows s' cs,
    dict_get "sex" obs = Some sexv /\
    dict_get "x" obs = Some xv /\
    counterfactual obs (Some cond) n s =
      (Ok (combine counterfactual_names
             (map t_stack_mean0 (zip_star rows))), s') /\
    calls s' = (calls s ++ CallGuide obs :: cs)%list /\
    List.length rows = n /\
    cf_particles (params s) (s_fn site) obs cond sexv xv
      (snd (guide (params s) obs (rng s))) cs rows (rng s').
Proof.
  intros Hvalid Hz.
  destruct (@required_entry _ obs "sex" Hvalid) as [sexv Hsex]; [simpl; auto|].
  destruct (@required_entry _ obs "x" Hvalid) as [xv Hx]; [simpl; auto|].
  set (s1 := record_call (CallGuide obs)
               (set_rng (snd (guide (params s) obs (rng s))) s)).
  destruct (@counterfactual_loop_particles n (s_fn site) obs cond [] s1 sexv xv
              Hsex Hx)
    as (rows & s' & cs & Hrun & Hpar & Hcalls & Hlen & Hparts).
  exists sexv, xv, rows, s', cs.
  split; [assumption|]. split; [assumption|]. split.
  - unfold counterfactual.
    rewrite (bind_ok _ _ _ (@assert_required_pass _ obs s Hvalid)).
    rewrite (bind_ok _ _ _ (@guide_z_dist_run _ _ obs s site Hz)).
    fold s1. rewrite (bind_ok _ _ _ Hrun). reflexivity.
  - split; [rewrite Hcalls; simpl; now rewrite <- app_assoc|].
    split; assumption.
Qed.

(** X10.  For a valid observation and an explicit intervention,
    [counterfactual] evaluates the guide once and then runs its particles in
    the order abduction, action, prediction: each draws [z] from the guide's
    one distribution, abducts the noise for that very [z], and runs
    [sample_scm] conditioned on it under the intervention.  The random
    stream is threaded from one particle to the next. *)
Theorem counterfactual_runs_abduction_per_particle :
  forall obs cond n (s : State) site,
    (forall k, In k (dict_keys obs) <-> In k required_data) ->
    dict_get "z" (snd (fst (guide (params s) obs (rng s)))) = Some site ->
    exists sexv xv rows r s' cs,
      dict_get "sex" obs = Some sexv /\
      dict_get "x" obs = Some xv /\
      counterfactual obs (Some cond) n s = (Ok r, s') /\
      calls s' = (calls s ++ CallGuide obs :: cs)%list /\
      List.length (filter is_guide_call (CallGuide obs :: cs)) = 1 /\
      List.length cs = 3 * n /\
      cf_particles (params s) (s_fn site) obs cond sexv xv
        (snd (guide (params s) obs (rng s))) cs rows (rng s').
Proof.
  intros obs cond n s site Hvalid Hz.
  destruct (@counterfactual_particles obs cond n s site Hvalid Hz)
    as (sexv & xv & rows & s' & cs & Hsex & Hx & Hrun & Hcalls & Hlen & Hparts).
  destruct (cf_particles_no_guide_call Hparts) as [Hng Hl].
  exists sexv, xv, rows. do 2 eexists. exists cs.
  repeat split; eauto.
  - simpl. now rewrite Hng.
  - now rewrite Hl, Hlen.
Qed.

(** X11.  With no particle requested, [counterfactual] on a valid
    observation evaluates the guide, runs nothing else and returns the empty
    mapping, whatever the intervention, the default [None] included. *)
Theorem counterfactual_without_particles :
  forall obs condition (s : State) site,
    (forall k, In k (dict_keys obs) <-> In k required_data) ->
    dict_get "z" (snd (fst (guide (params s) obs (rng s)))) = Some site ->
    counterfactual obs condition 0 s =
      (Ok [], record_call (CallGuide obs)
                (set_rng (snd (guide (params s) obs (rng s))) s)).
Proof.
  intros obs condition s site Hvalid Hz. unfold counterfactual.
  rewrite (bind_ok _ _ _ (@assert_required_pass _ obs s Hvalid)).
  rewrite (bind_ok _ _ _ (@guide_z_dist_run _ _ obs s site Hz)).
  reflexivity.
Qed.

(** X13.  With no particle requested, [reconstruct] evaluates the guide and
    then fails in [torch.stack] on the empty list of reconstructions. *)
Theorem reconstruct_without_particles :
  forall x age sex ventricle_volume brain_volume (s : State) site,
    let obs := [("x", x); ("sex", sex); ("age", age);
                ("ventricle_volume", ventricle_volume);
                ("brain_volume", brain_volume)] in
    dict_get "z" (snd (fst (guide (params s) obs (rng s)))) = Some site ->
    reconstruct x age sex ventricle_volume brain_volume 0 s =
      (Raise (RuntimeError "stack expects a non-empty TensorList"),
       record_call (CallGuide obs)
         (set_rng (snd (guide (params s) obs (rng s))) s)).
Proof.
  intros x age sex vv bv s site obs Hz. unfold reconstruct. fold obs.
  rewrite (bind_ok _ _ _ (@guide_z_dist_run _ _ obs s site Hz)).
  reflexivity.
Qed.

(** ** The shape of the returned counterfactual *)

Lemma fold_min_zero (l : list nat) : fold_right Nat.min 0 l = 0.
Proof. induction l as [|a l IH]; simpl; [reflexivity|]. rewrite IH. apply Nat.min_0_r. Qed.

Lemma all_heads_cases (rows : list (list Tensor)) (a : nat) :
  match all_heads rows with
  | Some hs =>
      List.length hs = List.length rows /\
      fold_right Nat.min (S a) (map (@List.length Tensor) rows)
      = S (fold_right Nat.min a (map (@List.length Tensor) (map (@tl Tensor) rows)))
  | None => fold_right Nat.min (S a) (map (@List.length Tensor) rows) = 0
  end.
Proof.
  induction rows as [|r rows IH]; simpl.
  - auto.
  - destruct r as [|h t]; simpl; [reflexivity|].
    destruct (all_heads rows) as [hs|].
    + destruct IH as [Hl Hm]. simpl. rewrite Hl, Hm. auto.
    + rewrite IH. reflexivity.
Qed.

Lemma zip_columns_length fuel :
  forall rows,
    List.length (zip_columns fuel rows)
    = fold_right Nat.min fuel (map (@List.length Tensor) rows).
Proof.
  induction fuel as [|f IH]; intros rows; simpl.
  - now rewrite fold_min_zero.
  - pose proof (all_heads_cases rows f) as Hc.
    destruct (all_heads rows) as [hs|]; simpl.
    + destruct Hc as [_ Hm]. now rewrite IH, Hm.
    + now rewrite Hc.
Qed.

Lemma zip_columns_column_length fuel :
  forall rows,
    Forall (fun col => List.length col = List.length rows)
           (zip_columns fuel rows).
Proof.
  induction fuel as [|f IH]; intros rows; simpl; [constructor|].
  pose proof (all_heads_cases rows f) as Hc.
  destruct (all_heads rows) as [hs|]; [|constructor].
  constructor; [apply Hc|].
  specialize (IH (map (@tl Tensor) rows)). now rewrite length_map in IH.
Qed.

(** X12.  [zip] over the unpacked list of output tuples, as [counterfactual]
    uses it: no tuple gives no column; otherwise there are as many columns as
    the shortest tuple has entries, and every column has one entry per
    tuple. *)
Theorem zip_star_shape :
  forall rows : list (list Tensor),
    (rows = [] -> zip_star rows = []) /\
    (forall r rest,
        rows = r :: rest ->
        List.length (zip_star rows)
        = fold_right Nat.min (List.length r) (map (@List.length Tensor) rest)) /\
    Forall (fun col => List.length col = List.length rows) (zip_star rows).
Proof.
  intros rows. split; [now intros ->|]. split.
  - intros r rest ->. unfold zip_star. rewrite zip_columns_length. simpl.
    apply Nat.min_r. clear.
    induction rest as [|a rest IH]; simpl; [lia|].
    etransitivity; [apply Nat.le_min_r | exact IH].
  - destruct rows as [|r rest]; [constructor|].
    unfold zip_star. apply zip_columns_column_length.
Qed.

Lemma column_tl (j : nat) (rows : list (list Tensor)) :
  column j (map (@tl Tensor) rows) = column (S j) rows.
Proof.
  unfold column. induction rows as [|r rows IH]; simpl; [reflexivity|].
  rewrite IH. destruct r as [|h t]; simpl; [|reflexivity].
  now destruct j.
Qed.

Lemma all_heads_column L (rows : list (list Tensor)) :
  Forall (fun r => List.length r = S L) rows ->
  all_heads rows = Some (column 0 rows).
Proof.
  induction 1 as [|r rows Hr Hrest IH]; simpl; [reflexivity|].
  destruct r as [|h t]; [discriminate|]. now rewrite IH.
Qed.

Lemma zip_columns_columns L :
  forall rows : list (list Tensor),
    Forall (fun r => List.length r = L) rows ->
    zip_columns L rows = map (fun j => column j rows) (seq 0 L).
Proof.
  induction L as [|L IH]; intros rows Hrows; [reflexivity|].
  cbn [zip_columns]. rewrite (all_heads_column Hrows). cbn [seq map].
  f_equal. rewrite IH.
  - rewrite <- seq_shift, map_map. apply map_ext. intros j. apply column_tl.
  - clear IH. induction Hrows as [|r rows Hr Hrest IH]; simpl; constructor; auto.
    destruct r; [discriminate|]. simpl in *. lia.
Qed.

Lemma cf_particles_rows_length p d obs cond sexv xv g cs rows g' L :
  (forall data m g0, List.length (fst (sample_scm_do p data cond m g0)) = L) ->
  cf_particles p d obs cond sexv xv g cs rows g' ->
  Forall (fun r => List.length r = L) rows.
Proof.
  intros HL. induction 1; constructor; auto.
Qed.

(** X14.  Let every run of [sample_scm] return six tensors.  For a valid
    observation, an explicit intervention and at least one particle,
    [counterfactual] returns the mapping with the keys x, z, sex, age,
    ventricle_volume, brain_volume in that order, the value under each being
    the mean over the stack of that output's values across the particles. *)
Theorem counterfactual_returns_canonical_means :
  forall obs cond n (s : State) site,
    (forall k, In k (dict_keys obs) <-> In k required_data) ->
    dict_get "z" (snd (fst (guide (params s) obs (rng s)))) = Some site ->
    (forall data m g,
        List.length (fst (sample_scm_do (params s) data cond m g)) = 6) ->
    exists sexv xv rows s' cs,
      dict_get "sex" obs = Some sexv /\
      dict_get "x" obs = Some xv /\
      cf_particles (params s) (s_fn site) obs cond sexv xv
        (snd (guide (params s) obs (rng s))) cs rows (rng s') /\
      List.length rows = S n /\
      counterfactual obs (Some cond) (S n) s =
        (Ok (map (fun nj => (fst nj, t_stack_mean0 (column (snd nj) rows)))
               counterfactual_positions), s').
Proof.
  intros obs cond n s site Hvalid Hz Hsix.
  destruct (@counterfactual_particles obs cond (S n) s site Hvalid Hz)
    as (sexv & xv & rows & s' & cs & Hsex & Hx & Hrun & Hcalls & Hlen & Hparts).
  exists sexv, xv, rows, s', cs.
  repeat (split; [assumption|]).
  rewrite Hrun. f_equal. f_equal.
  pose proof (cf_particles_rows_length Hsix Hparts) as Hrows.
  destruct rows as [|r rest]; [discriminate|].
  unfold zip_star. inversion Hrows as [|? ? Hr Hrest]; subst.
  rewrite Hr. rewrite (zip_columns_columns Hrows). reflexivity.
Qed.

(** ** A batch that lacks a key *)

(** X18.  When the batch lacks a key that [prep_batch] reads, each of
    [training_step], [validation_step] and [test_step] raises [KeyError]
    naming the first absent key and leaves the whole state untouched: no
    loss is computed, no trace is replaced and no parameter is updated. *)
Theorem steps_reject_incomplete_batch :
  forall self batch batch_idx (s : State) k,
    find (fun k => negb (dict_mem k batch)) raw_keys = Some k ->
    training_step self batch batch_idx s = (Raise (KeyError k), s) /\
    validation_step self batch batch_idx s = (Raise (KeyError k), s) /\
    test_step self batch batch_idx s = (Raise (KeyError k), s).
Proof.
  intros self batch batch_idx s k Hk.
  pose proof (@prep_batch_first_missing batch s k Hk) as Hprep.
  unfold training_step, validation_step, test_step.
  now rewrite !(bind_raise _ _ _ Hprep).
Qed.

End Coverage.

(** ** Filter lists *)

Unset Implicit Arguments.

Lemma string_of_uint_digits (u : Decimal.uint) :
  all_chars is_digit (NilEmpty.string_of_uint u) = true.
Proof. induction u; simpl; auto. Qed.

Lemma decimal_digits (n : N) :
  all_chars is_digit (decimal n) = true /\ decimal n <> EmptyString.
Proof.
  split; [apply string_of_uint_digits|].
  unfold decimal. destruct n as [|p]; simpl; [discriminate|].
  pose proof (DecimalPos.Unsigned.to_uint_nonnil p) as Hnn.
  destruct (Pos.to_uint p); simpl; try discriminate. congruence.
Qed.

Lemma literal_digits_after_digit (ds : string) :
  all_chars is_digit ds = true -> literal_digits true ds = Some ds.
Proof.
  induction ds as [|c ds IH]; simpl; [reflexivity|].
  intros H. apply andb_true_iff in H as [Hc Hds].
  now rewrite Hc, (IH Hds).
Qed.

Lemma literal_digits_numeral (ds : string) :
  all_chars is_digit ds = true -> ds <> EmptyString ->
  literal_digits false ds = Some ds.
Proof.
  destruct ds as [|c ds]; [congruence|]. simpl. intros H _.
  apply andb_true_iff in H as [Hc Hds].
  now rewrite Hc, (literal_digits_after_digit _ Hds).
Qed.

Lemma digit_not_space (c : ascii) : is_digit c = true -> is_space c = false.
Proof.
  unfold is_digit, is_space. cbv zeta.
  set (n := nat_of_ascii c). intros H.
  apply andb_true_iff in H as [H1 H2].
  apply Nat.leb_le in H1. apply Nat.leb_le in H2.
  repeat (apply orb_false_iff; split);
    try (apply andb_false_iff; (left; apply Nat.leb_gt; lia)
                               || (right; apply Nat.leb_gt; lia));
    apply Nat.eqb_neq; lia.
Qed.

Lemma digit_not_char (c d : ascii) :
  is_digit c = true -> is_digit d = false -> Ascii.eqb c d = false.
Proof.
  intros Hc Hd. destruct (Ascii.eqb_spec c d) as [->|]; congruence.
Qed.

Lemma py_int_decimal (max_str_digits : nat) (n : N) :
  max_str_digits = 0 \/ String.length (decimal n) <= max_str_digits ->
  py_int max_str_digits (decimal n) = Ok (Z.of_N n).
Proof.
  intros Hmax. destruct (decimal_digits n) as [Hd Hne].
  unfold py_int.
  destruct (decimal n) as [|c ds] eqn:E; [congruence|].
  assert (Hc : is_digit c = true).
  { simpl in Hd. now apply andb_true_iff in Hd as [Hc _]. }
  rewrite (digit_not_char c "-" Hc eq_refl), (digit_not_char c "+" Hc eq_refl).
  rewrite (literal_digits_numeral _ Hd) by discriminate.
  assert (Hlim : ((0 <? max_str_digits)
                  && (max_str_digits <? String.length (String c ds)))%nat = false).
  { apply andb_false_iff. destruct Hmax as [-> | Hle].
    - left. reflexivity.
    - right. apply Nat.ltb_ge. exact Hle. }
  rewrite Hlim. rewrite <- E. unfold decimal. rewrite NilEmpty.usu.
  unfold Z.of_uint. f_equal. f_equal. exact (DecimalN.Unsigned.of_to n).
Qed.

Lemma lstrip_pad (l s : string) :
  all_chars is_space l = true -> lstrip (l ++ s) = lstrip s.
Proof.
  induction l as [|c l IH]; simpl; [reflexivity|].
  intros H. apply andb_true_iff in H as [Hc Hl]. rewrite Hc. auto.
Qed.

Lemma rstrip_blank (r : string) :
  all_chars is_space r = true -> rstrip r = EmptyString.
Proof.
  induction r as [|c r IH]; simpl; [reflexivity|].
  intros H. apply andb_true_iff in H as [Hc Hr]. now rewrite (IH Hr), Hc.
Qed.

Lemma rstrip_pad (d r : string) :
  all_chars (fun c => negb (is_space c)) d = true ->
  all_chars is_space r = true ->
  rstrip (d ++ r) = d.
Proof.
  intros Hd Hr. induction d as [|c d IH]; simpl.
  - now apply rstrip_blank.
  - simpl in Hd. apply andb_true_iff in Hd as [Hc Hd].
    rewrite (IH Hd). apply negb_true_iff in Hc. rewrite Hc.
    now destruct d.
Qed.

Lemma digits_not_spaces (d : string) :
  all_chars is_digit d = true ->
  all_chars (fun c => negb (is_space c)) d = true.
Proof.
  induction d as [|c d IH]; simpl; [reflexivity|].
  intros H. apply andb_true_iff in H as [Hc Hd].
  now rewrite (digit_not_space c Hc), (IH Hd).
Qed.

(** Stripping a padded numeral gives the numeral. *)
Lemma strip_padded_decimal (l r : string) (n : N) :
  all_chars is_space l = true -> all_chars is_space r = true ->
  strip (l ++ decimal n ++ r) = decimal n.
Proof.
  intros Hl Hr. unfold strip. rewrite (lstrip_pad _ _ Hl).
  destruct (decimal_digits n) as [Hd Hne].
  assert (Hls : lstrip (decimal n ++ r) = decimal n ++ r).
  { destruct (decimal n) as [|c ds]; [congruence|]. simpl in *.
    apply andb_true_iff in Hd as [Hc _]. now rewrite (digit_not_space c Hc). }
  rewrite Hls. apply rstrip_pad; [now apply digits_not_spaces | assumption].
Qed.

Lemma split_comma_no_comma (f : string) :
  no_comma f = true -> split_comma f = [f].
Proof.
  unfold no_comma. induction f as [|c f IH]; simpl; [reflexivity|].
  intros H. apply andb_true_iff in H as [Hc Hf].
  apply negb_true_iff in Hc. now rewrite Hc, (IH Hf).
Qed.

Lemma split_comma_field (f rest : string) :
  no_comma f = true ->
  split_comma (f ++ "," ++ rest) = f :: split_comma rest.
Proof.
  unfold no_comma. induction f as [|c f IH]; simpl; [reflexivity|].
  intros H. apply andb_true_iff in H as [Hc Hf].
  apply negb_true_iff in Hc. simpl in IH. now rewrite Hc, (IH Hf).
Qed.

Lemma split_comma_concat (fs : list string) :
  fs <> [] -> Forall (fun f => no_comma f = true) fs ->
  split_comma (String.concat "," fs) = fs.
Proof.
  induction fs as [|f fs IH]; [congruence|]. intros _ H.
  inversion H as [|? ? Hf Hfs]; subst.
  destruct fs as [|g fs].
  - simpl. now apply split_comma_no_comma.
  - change (String.concat "," (f :: g :: fs))
      with (f ++ "," ++ String.concat "," (g :: fs)).
    rewrite (split_comma_field _ _ Hf). f_equal.
    apply IH; [discriminate | assumption].
Qed.

Lemma all_chars_app P (a b : string) :
  all_chars P (a ++ b) = all_chars P a && all_chars P b.
Proof.
  induction a as [|c a IH]; simpl; [reflexivity|].
  now rewrite IH, andb_assoc.
Qed.

Lemma all_chars_weaken (P Q : ascii -> bool) (s : string) :
  (forall c, P c = true -> Q c = true) ->
  all_chars P s = true -> all_chars Q s = true.
Proof.
  intros HPQ. induction s as [|c s IH]; simpl; [reflexivity|].
  intros H. apply andb_true_iff in H as [Hc Hs].
  now rewrite (HPQ c Hc), (IH Hs).
Qed.

Lemma space_not_comma (c : ascii) :
  is_space c = true -> negb (Ascii.eqb c ",") = true.
Proof.
  intros H. apply negb_true_iff.
  destruct (Ascii.eqb_spec c ",") as [->|]; [discriminate H | reflexivity].
Qed.

Lemma digit_not_comma (c : ascii) :
  is_digit c = true -> negb (Ascii.eqb c ",") = true.
Proof.
  intros H. apply negb_true_iff. now apply digit_not_char.
Qed.

Lemma written_field_no_comma max_str_digits f :
  well_padded max_str_digits f -> no_comma (written_field f) = true.
Proof.
  intros (Hl & Hr & _). unfold no_comma, written_field.
  rewrite !all_chars_app.
  rewrite (all_chars_weaken _ _ _ space_not_comma Hl).
  rewrite (all_chars_weaken _ _ _ space_not_comma Hr).
  now rewrite (all_chars_weaken _ _ _ digit_not_comma (proj1 (decimal_digits _))).
Qed.

(** X15.  Writing a non-empty list of natural numbers as decimal numerals
    separated by commas, each numeral padded on either side by any
    whitespace, and parsing the string as [BaseVISEM.__init__] parses
    [enc_filters] and [dec_filters], gives back the numbers in order. *)
Theorem parse_filters_of_written_list :
  forall max_str_digits (fs : list (string * N * string)),
    fs <> [] ->
    Forall (well_padded max_str_digits) fs ->
    parse_filters max_str_digits (String.concat "," (map written_field fs))
    = Ok (map (fun f => Z.of_N (snd (fst f))) fs).
Proof.
  intros max_str_digits fs Hne Hfs. unfold parse_filters.
  rewrite split_comma_concat.
  - clear Hne. induction Hfs as [|f fs Hf Hrest IH]; simpl; [reflexivity|].
    destruct Hf as (Hl & Hr & Hmax). unfold written_field at 1.
    rewrite (strip_padded_decimal _ _ _ Hl Hr).
    rewrite (py_int_decimal _ _ Hmax). now rewrite IH.
  - destruct fs; [congruence | discriminate].
  - clear Hne. induction Hfs as [|f fs Hf Hrest IH]; simpl; constructor; auto.
    now apply written_field_no_comma with (max_str_digits := max_str_digits).
Qed.

Lemma split_comma_length (s : string) :
  List.length (split_comma s) = S (count_commas s).
Proof.
  induction s as [|c s IH]; simpl; [reflexivity|].
  destruct (Ascii.eqb c ","); simpl.
  - now rewrite IH.
  - destruct (split_comma s); simpl in *; [discriminate | assumption].
Qed.

Lemma tuple_of_length {A T} (f : A -> result T) xs vs :
  tuple_of f xs = Ok vs -> List.length vs = List.length xs.
Proof.
  revert vs. induction xs as [|x xs IH]; simpl; intros vs H.
  - now inversion H.
  - destruct (f x); [|discriminate].
    destruct (tuple_of f xs) as [ws|]; [|discriminate].
    inversion H; subst. simpl. now rewrite (IH ws).
Qed.

Lemma py_int_raises_value_error max_str_digits s e :
  py_int max_str_digits s = Raise e -> exists msg, e = ValueError msg.
Proof.
  unfold py_int.
  destruct (match s with
            | String c s' =>
                if Ascii.eqb c "-" then (true, s')
                else if Ascii.eqb c "+" then (false, s') else (false, s)
            | EmptyString => (false, s)
            end) as [negative body].
  destruct (literal_digits false body) as [ds|].
  - destruct ((0 <? max_str_digits) && (max_str_digits <? String.length ds))%nat.
    + intros H; inversion H; eauto.
    + destruct (NilEmpty.uint_of_string ds); intros H; inversion H; eauto.
  - intros H; inversion H; eauto.
Qed.

Lemma tuple_of_blank_field max_str_digits (fs : list string) :
  Exists (fun f => all_chars is_space f = true) fs ->
  exists msg,
    tuple_of (fun f => py_int max_str_digits (strip f)) fs
    = Raise (ValueError msg).
Proof.
  induction 1 as [f fs Hf | f fs Hrest IH]; simpl.
  - assert (Hl : all_chars is_space (lstrip f) = true).
    { clear - Hf. induction f as [|c f IH]; simpl in *; [reflexivity|].
      apply andb_true_iff in Hf as [Hc Hf]. rewrite Hc. auto. }
    unfold strip. rewrite (rstrip_blank _ Hl). simpl. eauto.
  - destruct (py_int max_str_digits (strip f)) eqn:E.
    + destruct IH as [msg ->]. eauto.
    + destruct (py_int_raises_value_error _ _ _ E) as [msg ->]. eauto.
Qed.

(** X16.  A filter string never parses to the empty tuple: when
    [parse_filters] returns, the tuple has one entry more than the string
    has commas.  The empty string, and any string with a field that is empty
    or blank (as after a trailing comma), raise [ValueError]. *)
Theorem parse_filters_field_count :
  forall max_str_digits (s : string),
    (forall l, parse_filters max_str_digits s = Ok l ->
               List.length l = S (count_commas s)) /\
    (Exists (fun f => all_chars is_space f = true) (split_comma s) ->
     exists msg, parse_filters max_str_digits s = Raise (ValueError msg)) /\
    (exists msg, parse_filters max_str_digits EmptyString = Raise (ValueError msg)).
Proof.
  intros max_str_digits s. split; [|split].
  - intros l H. unfold parse_filters in H.
    rewrite (tuple_of_length _ _ _ H). apply split_comma_length.
  - apply tuple_of_blank_field.
  - apply tuple_of_blank_field. simpl. constructor. reflexivity.
Qed.

(** ** Optimizer settings *)

Lemma prefix_spec (sub s : string) :
  String.prefix sub s = true <-> exists post, s = sub ++ post.
Proof.
  revert s. induction sub as [|a sub IH]; intros s; simpl.
  - destruct s; split; eauto.
  - destruct s as [|b s].
    + split; [discriminate | intros [post H]; discriminate].
    + simpl. destruct (ascii_dec a b) as [->|Hne].
      * rewrite IH. split; intros [post H]; exists post.
        -- now rewrite H.
        -- now inversion H.
      * split; [discriminate|]. intros [post H]. inversion H. congruence.
Qed.

Lemma str_contains_unfold (sub s : string) :
  str_contains sub s =
    if String.prefix sub s then true
    else match s with
         | EmptyString => false
         | String _ s' => str_contains sub s'
         end.
Proof. now destruct s. Qed.

(** [sub in s] holds exactly when [sub] occurs in [s]. *)
Lemma str_contains_spec (sub s : string) :
  str_contains sub s = true <-> exists pre post, s = pre ++ sub ++ post.
Proof.
  split.
  - induction s as [|c s IH]; rewrite str_contains_unfold;
      destruct (String.prefix sub _) eqn:E.
    + intros _. apply prefix_spec in E as [post ->]. now exists EmptyString, post.
    + discriminate.
    + intros _. apply prefix_spec in E as [post ->]. now exists EmptyString, post.
    + intros H. destruct (IH H) as (pre & post & ->).
      now exists (String c pre), post.
  - intros (pre & post & ->). induction pre as [|c pre IH].
    + rewrite str_contains_unfold.
      now rewrite (proj2 (prefix_spec sub (EmptyString ++ sub ++ post))
                     (ex_intro _ post eq_refl)).
    + rewrite str_contains_unfold.
      change (String c pre ++ sub ++ post) with (String c (pre ++ sub ++ post)).
      destruct (String.prefix sub (String c (pre ++ sub ++ post)));
        [reflexivity | exact IH].
Qed.

(** X17.  [per_param_callable] gives the learning rate [pgm_lr] exactly to
    the modules whose name contains 'flow_components', anywhere in it, and
    [lr] to all others; eps (1e-5), the AMSGrad toggle and the weight decay
    are the same for every parameter, and the settings have the four keys
    eps, amsgrad, weight_decay, lr. *)
Theorem per_param_callable_settings :
  forall hp module_name param_name,
    let settings := per_param_callable hp module_name param_name in
    ((exists pre post, module_name = pre ++ "flow_components" ++ post) ->
     dict_get "lr" settings = Some (OptFloat (pgm_lr hp))) /\
    (~ (exists pre post, module_name = pre ++ "flow_components" ++ post) ->
     dict_get "lr" settings = Some (OptFloat (lr hp))) /\
    dict_get "eps" settings = Some (OptFloat eps_1e_5) /\
    dict_get "amsgrad" settings = Some (OptBool (use_amsgrad hp)) /\
    dict_get "weight_decay" settings = Some (OptFloat (l2 hp)) /\
    dict_keys settings = ["eps"; "amsgrad"; "weight_decay"; "lr"].
Proof.
  intros hp module_name param_name settings. subst settings.
  unfold per_param_callable.
  destruct (str_contains "flow_components" module_name) eqn:E.
  - repeat split. intros Hno. exfalso. apply Hno. now apply str_contains_spec.
  - repeat split. intros Hyes. apply str_contains_spec in Hyes. congruence.
Qed.

(** * Runs of the further properties *)

Lemma prep_batch_returns_iff_witness :
  let C : Carrier := Toy.carrier in
  let B : Backend := Toy.backend Toy.f_two Toy.f_one Toy.f_one in
  let s' := snd (prep_batch Toy.batch0 Toy.state0) in
  forallb (fun k => dict_mem k Toy.batch0) raw_keys = true /\
  prep_batch Toy.batch0 Toy.state0 = (Ok Toy.prepared0, s') /\
  dict_keys Toy.prepared0 = prepared_keys /\
  assert_required Toy.prepared0 s' = (Ok tt, s') /\
  s' = set_rng (rng s') Toy.state0.
Proof.
  intros C B s'.
  destruct (@prep_batch_returns_iff C B Toy.batch0 Toy.state0) as [Hiff Hret].
  assert (Hrun : prep_batch Toy.batch0 Toy.state0 = (Ok Toy.prepared0, s'))
    by (vm_compute; reflexivity).
  split; [apply Hiff; exists Toy.prepared0, s'; exact Hrun|].
  split; [exact Hrun|]. exact (Hret _ _ Hrun).
Defined.

Lemma prep_batch_missing_key_witness :
  let C : Carrier := Toy.carrier in
  let B : Backend := Toy.backend Toy.f_two Toy.f_one Toy.f_one in
  find (fun k => negb (dict_mem k Toy.batch_no_sex)) raw_keys = Some "sex" /\
  prep_batch Toy.batch_no_sex Toy.state0 = (Raise (KeyError "sex"), Toy.state0) /\
  rng (snd (prep_batch Toy.batch_no_sex Toy.state0)) = rng Toy.state0.
Proof.
  intros C B.
  assert (H : find (fun k => negb (dict_mem k Toy.batch_no_sex)) raw_keys
              = Some "sex") by reflexivity.
  split; [exact H|].
  exact (@prep_batch_missing_key C B Toy.batch_no_sex Toy.state0 "sex" H).
Defined.

Lemma get_trace_metrics_before_any_loss_witness :
  let C : Carrier := Toy.carrier in
  trace_storage Toy.state0 = CustomELBO_init /\
  get_trace_metrics Toy.obs0 Toy.state0 =
    (Raise (AttributeError "'NoneType' object has no attribute 'nodes'"),
     Toy.state0).
Proof.
  intros C.
  assert (H : trace_storage Toy.state0 = CustomELBO_init) by reflexivity.
  split; [exact H|].
  exact (proj1 (@get_trace_metrics_before_any_loss C Toy.obs0 Toy.state0) H).
Defined.

Lemma get_trace_metrics_returns_iff_witness :
  let C : Carrier := Toy.carrier in
  let B : Backend := Toy.backend Toy.f_two Toy.f_one Toy.f_one in
  let s := snd (svi_evaluate_loss (build_svi Toy.hparams0) Toy.obs0 Toy.state0) in
  let mt := {| oid := 7; nodes := Toy.model_nodes Toy.f_two Toy.obs0 |} in
  (dict_get "model" (trace_storage s) = Some (Some mt) /\
   dict_get "guide" (trace_storage s) = Some (Some mt) /\
   has_site "x" mt = true /\ has_site "age" mt = true /\
   has_site "sex" mt = true /\ has_site "z" mt = true /\
   has_site "z" mt = true) /\
  exists m, get_trace_metrics Toy.obs0 s = (Ok m, s).
Proof.
  intros C B s mt.
  assert (H : dict_get "model" (trace_storage s) = Some (Some mt) /\
              dict_get "guide" (trace_storage s) = Some (Some mt) /\
              has_site "x" mt = true /\ has_site "age" mt = true /\
              has_site "sex" mt = true /\ has_site "z" mt = true /\
              has_site "z" mt = true)
    by (repeat split; vm_compute; reflexivity).
  split; [exact H|].
  apply (proj1 (@get_trace_metrics_returns_iff C Toy.obs0 s)).
  exists mt, mt. exact H.
Defined.

Lemma storage_holds_latest_trace_witness :
  let C : Carrier := Toy.carrier in
  let B : Backend := Toy.backend Toy.f_two Toy.f_one Toy.f_one in
  let svi := build_svi Toy.hparams0 in
  let s1 := snd (svi_step svi Toy.obs0 Toy.state0) in
  (s1 = snd (svi_step svi Toy.obs0 Toy.state0) \/
   s1 = snd (svi_evaluate_loss svi Toy.obs0 Toy.state0)) /\
  next_oid s1 = 2 * svi_num_particles svi + next_oid Toy.state0 /\
  (svi_num_particles svi = 0 -> trace_storage s1 = trace_storage Toy.state0) /\
  (1 <= svi_num_particles svi ->
   exists t, dict_get "model" (trace_storage s1) = Some (Some t) /\
             dict_get "guide" (trace_storage s1) = Some (Some t) /\
             S (oid t) = next_oid s1) /\
  (dict_keys (trace_storage Toy.state0) = ["model"; "guide"] ->
   dict_keys (trace_storage s1) = ["model"; "guide"]).
Proof.
  intros C B svi s1.
  assert (H : s1 = snd (svi_step svi Toy.obs0 Toy.state0) \/
              s1 = snd (svi_evaluate_loss svi Toy.obs0 Toy.state0))
    by (left; reflexivity).
  split; [exact H|].
  exact (@storage_holds_latest_trace C B svi Toy.obs0 Toy.state0 s1 H).
Defined.

Lemma training_is_validation_plus_one_update_witness :
  let C : Carrier := Toy.carrier in
  let B : Backend := Toy.backend_with Toy.f_two Toy.f_one Toy.f_one S754_nan in
  let self := SVIExperiment_init Toy.hparams0 in
  let r := loss_and_metrics Toy.f_one (Toy.metrics_of Toy.f_two (S754_zero false)) in
  let sv := snd (validation_step self Toy.batch0 0 Toy.state0) in
  validate (hparams self) = false /\
  1 <= svi_num_particles (svi self) /\
  validation_step self Toy.batch0 0 Toy.state0 = (Ok r, sv) /\
  exists b s1 eval_loss loss g metrics,
    prep_batch Toy.batch0 Toy.state0 = (Ok b, s1) /\
    svi_evaluate_loss (svi self) b s1 = (Ok eval_loss, sv) /\
    elbo_loss_and_grads CustomELBO_get_trace (svi_num_particles (svi self))
      (svi_model (svi self)) (svi_guide (svi self)) [] b s1
      = (Ok (loss, g), sv) /\
    get_trace_metrics b sv = (Ok metrics, sv) /\
    r = loss_and_metrics eval_loss metrics /\
    let st := set_params (adam_update (params Toy.state0) g) sv in
    training_step self Toy.batch0 0 Toy.state0 =
      if is_nan loss
      then (Raise (ValueError ("loss went to nan with metrics:" ++ nl
                               ++ str_metrics metrics)),
            add_text "nan"
              ("nand at " ++ str_of_nat (current_epoch sv) ++ ":" ++ nl
               ++ str_metrics metrics) st)
      else (Ok [("loss", SVTensor1 loss);
                ("log", SVLog (dict_set "train/loss" (PyFloat loss)
                                 (train_logs metrics)))], st).
Proof.
  intros C B self r sv.
  assert (Hval : validate (hparams self) = false) by reflexivity.
  assert (Hn : 1 <= svi_num_particles (svi self)) by (simpl; lia).
  assert (Hrun : validation_step self Toy.batch0 0 Toy.state0 = (Ok r, sv))
    by (vm_compute; reflexivity).
  split; [exact Hval|]. split; [exact Hn|]. split; [exact Hrun|].
  exact (@training_is_validation_plus_one_update C B self Toy.batch0 0
           Toy.state0 r sv Hval Hn Hrun).
Defined.

(** In that run the loss is NaN: the step raises with the parameters moved
    from 0 to 4. *)
Lemma training_step_nan_after_update :
  let C : Carrier := Toy.carrier in
  let B : Backend := Toy.backend Toy.f_two Toy.f_one S754_nan in
  let run := training_step (SVIExperiment_init Toy.hparams0) Toy.batch0 0
               Toy.state0 in
  is_assertion (fst run) = false /\
  params Toy.state0 = 0%Z /\ params (snd run) = 4%Z.
Proof. intros C B run. repeat split; vm_compute; reflexivity. Qed.

Lemma print_trace_updates_raises_iff_nan_witness :
  let C : Carrier := Toy.carrier in
  let B : Backend := Toy.backend Toy.f_two Toy.f_one Toy.f_one in
  existsb nan_sample_site (printed_model_nodes Toy.prepared0 Toy.state0) = false /\
  exists s', print_trace_updates Toy.prepared0 Toy.state0 = (Ok tt, s').
Proof.
  intros C B.
  assert (H : existsb nan_sample_site
                (printed_model_nodes Toy.prepared0 Toy.state0) = false)
    by reflexivity.
  split; [exact H|].
  exact (proj2 (proj1 (@print_trace_updates_raises_iff_nan C B Toy.prepared0
                         Toy.state0)) H).
Defined.

Lemma training_step_stops_at_nan_site_witness :
  let C : Carrier := Toy.carrier in
  let B : Backend := Toy.backend S754_nan Toy.f_one Toy.f_one in
  let self := SVIExperiment_init Toy.hparams_validate in
  let s1 := snd (prep_batch Toy.batch0 Toy.state0) in
  validate (hparams self) = true /\
  prep_batch Toy.batch0 Toy.state0 = (Ok Toy.prepared0, s1) /\
  existsb nan_sample_site (printed_model_nodes Toy.prepared0 s1) = true /\
  exists e s',
    training_step self Toy.batch0 0 Toy.state0 = (Raise e, s') /\
    params s' = params Toy.state0 /\
    trace_storage s' = trace_storage Toy.state0 /\
    logger s' = logger Toy.state0.
Proof.
  intros C B self s1.
  assert (Hval : validate (hparams self) = true) by reflexivity.
  assert (Hprep : prep_batch Toy.batch0 Toy.state0 = (Ok Toy.prepared0, s1))
    by (vm_compute; reflexivity).
  assert (Hnan : existsb nan_sample_site
                   (printed_model_nodes Toy.prepared0 s1) = true)
    by (vm_compute; reflexivity).
  split; [exact Hval|]. split; [exact Hprep|]. split; [exact Hnan|].
  exact (@training_step_stops_at_nan_site C B self Toy.batch0 0 Toy.state0
           Toy.prepared0 s1 Hval Hprep Hnan).
Defined.

Lemma infer_returns_noise_and_z_witness :
  let C : Carrier := Toy.carrier in
  let B : Backend := Toy.backend Toy.f_two Toy.f_one Toy.f_one in
  let s := Toy.state0 in
  let z := fst (fst (guide (params s) Toy.obs0 (rng s))) in
  (forall k, In k (dict_keys Toy.obs0) <-> In k required_data) /\
  exists r s',
    infer Toy.obs0 s = (Ok r, s') /\
    dict_get "z" r = Some z /\
    (forall k, k <> "z" ->
               dict_get k r = dict_get k (infer_exogeneous (params s) z Toy.obs0)) /\
    calls s' = (calls s ++ [CallGuide Toy.obs0; CallInferExogeneous z Toy.obs0])%list /\
    rng s' = snd (guide (params s) Toy.obs0 (rng s)) /\
    params s' = params s.
Proof.
  intros C B s z.
  assert (Hvalid : forall k, In k (dict_keys Toy.obs0) <-> In k required_data).
  { apply set_eqb_spec. reflexivity. }
  split; [exact Hvalid|].
  exact (@infer_returns_noise_and_z C B Toy.obs0 s Hvalid).
Defined.

Lemma counterfactual_runs_abduction_per_particle_witness :
  let C : Carrier := Toy.carrier in
  let B : Backend := Toy.backend Toy.f_two Toy.f_one Toy.f_one in
  let s := Toy.state0 in
  (forall k, In k (dict_keys Toy.obs0) <-> In k required_data) /\
  dict_get "z" (snd (fst (guide (params s) Toy.obs0 (rng s))))
    = Some (Toy.z_site Toy.f_one) /\
  exists sexv xv rows r s' cs,
    dict_get "sex" Toy.obs0 = Some sexv /\
    dict_get "x" Toy.obs0 = Some xv /\
    counterfactual Toy.obs0 (Some Toy.intervention0) 2 s = (Ok r, s') /\
    calls s' = (calls s ++ CallGuide Toy.obs0 :: cs)%list /\
    List.length (filter is_guide_call (CallGuide Toy.obs0 :: cs)) = 1 /\
    List.length cs = 3 * 2 /\
    cf_particles (params s) (s_fn (Toy.z_site Toy.f_one)) Toy.obs0
      Toy.intervention0 sexv xv
      (snd (guide (params s) Toy.obs0 (rng s))) cs rows (rng s').
Proof.
  intros C B s.
  assert (Hvalid : forall k, In k (dict_keys Toy.obs0) <-> In k required_data).
  { apply set_eqb_spec. reflexivity. }
  assert (Hz : dict_get "z" (snd (fst (guide (params s) Toy.obs0 (rng s))))
               = Some (Toy.z_site Toy.f_one)) by reflexivity.
  split; [exact Hvalid|]. split; [exact Hz|].
  exact (@counterfactual_runs_abduction_per_particle C B Toy.obs0
           Toy.intervention0 2 s (Toy.z_site Toy.f_one) Hvalid Hz).
Defined.

Lemma counterfactual_without_particles_witness :
  let C : Carrier := Toy.carrier in
  let B : Backend := Toy.backend Toy.f_two Toy.f_one Toy.f_one in
  let s := Toy.state0 in
  (forall k, In k (dict_keys Toy.obs0) <-> In k required_data) /\
  dict_get "z" (snd (fst (guide (params s) Toy.obs0 (rng s))))
    = Some (Toy.z_site Toy.f_one) /\
  counterfactual Toy.obs0 None 0 s =
    (Ok [], record_call (CallGuide Toy.obs0)
              (set_rng (snd (guide (params s) Toy.obs0 (rng s))) s)).
Proof.
  intros C B s.
  assert (Hvalid : forall k, In k (dict_keys Toy.obs0) <-> In k required_data).
  { apply set_eqb_spec. reflexivity. }
  assert (Hz : dict_get "z" (snd (fst (guide (params s) Toy.obs0 (rng s))))
               = Some (Toy.z_site Toy.f_one)) by reflexivity.
  split; [exact Hvalid|]. split; [exact Hz|].
  exact (@counterfactual_without_particles C B Toy.obs0 None s
           (Toy.z_site Toy.f_one) Hvalid Hz).
Defined.

Lemma zip_star_shape_witness :
  let C : Carrier := Toy.carrier in
  let rows : list (list Tensor) := [[1; 2; 3]; [4; 5]; [6; 7; 8; 9]]%Z in
  rows = [1; 2; 3]%Z :: [[4; 5]; [6; 7; 8; 9]]%Z /\
  List.length (zip_star rows) = 2 /\
  zip_star rows = [[1; 4; 6]; [2; 5; 7]]%Z /\
  Forall (fun col => List.length col = 3) (zip_star rows).
Proof.
  intros C rows.
  destruct (@zip_star_shape C rows) as (_ & Hlen & Hcols).
  split; [reflexivity|]. split; [exact (Hlen _ _ eq_refl)|].
  split; [reflexivity | exact Hcols].
Defined.

Lemma reconstruct_without_particles_witness :
  let C : Carrier := Toy.carrier in
  let B : Backend := Toy.backend Toy.f_two Toy.f_one Toy.f_one in
  let s := Toy.state0 in
  dict_get "z" (snd (fst (guide (params s) Toy.obs0 (rng s))))
    = Some (Toy.z_site Toy.f_one) /\
  reconstruct 10%Z 60%Z 1%Z 20%Z 30%Z 0 s =
    (Raise (RuntimeError "stack expects a non-empty TensorList"),
     record_call (CallGuide Toy.obs0)
       (set_rng (snd (guide (params s) Toy.obs0 (rng s))) s)).
Proof.
  intros C B s.
  assert (Hz : dict_get "z" (snd (fst (guide (params s) Toy.obs0 (rng s))))
               = Some (Toy.z_site Toy.f_one)) by reflexivity.
  split; [exact Hz|].
  exact (@reconstruct_without_particles C B 10%Z 60%Z 1%Z 20%Z 30%Z s
           (Toy.z_site Toy.f_one) Hz).
Defined.

Lemma counterfactual_returns_canonical_means_witness :
  let C : Carrier := Toy.carrier in
  let B : Backend := Toy.backend Toy.f_two Toy.f_one Toy.f_one in
  let s := Toy.state0 in
  (forall k, In k (dict_keys Toy.obs0) <-> In k required_data) /\
  dict_get "z" (snd (fst (guide (params s) Toy.obs0 (rng s))))
    = Some (Toy.z_site Toy.f_one) /\
  (forall data m g,
      List.length (fst (sample_scm_do (params s) data Toy.intervention0 m g)) = 6) /\
  exists sexv xv rows s' cs,
    dict_get "sex" Toy.obs0 = Some sexv /\
    dict_get "x" Toy.obs0 = Some xv /\
    cf_particles (params s) (s_fn (Toy.z_site Toy.f_one)) Toy.obs0
      Toy.intervention0 sexv xv
      (snd (guide (params s) Toy.obs0 (rng s))) cs rows (rng s') /\
    List.length rows = 2 /\
    counterfactual Toy.obs0 (Some Toy.intervention0) 2 s =
      (Ok (map (fun nj => (fst nj, t_stack_mean0 (column (snd nj) rows)))
             counterfactual_positions), s').
Proof.
  intros C B s.
  assert (Hvalid : forall k, In k (dict_keys Toy.obs0) <-> In k required_data).
  { apply set_eqb_spec. reflexivity. }
  assert (Hz : dict_get "z" (snd (fst (guide (params s) Toy.obs0 (rng s))))
               = Some (Toy.z_site Toy.f_one)) by reflexivity.
  assert (Hsix : forall data m g,
             List.length (fst (sample_scm_do (params s) data
                                 Toy.intervention0 m g)) = 6)
    by (intros data m g; reflexivity).
  split; [exact Hvalid|]. split; [exact Hz|]. split; [exact Hsix|].
  exact (@counterfactual_returns_canonical_means C B Toy.obs0 Toy.intervention0
           1 s (Toy.z_site Toy.f_one) Hvalid Hz Hsix).
Defined.

(** The intervention on age reaches the returned mapping: age is 5 in it,
    and sex is the observed 1. *)
Lemma counterfactual_age_intervention_run :
  let C : Carrier := Toy.carrier in
  let B : Backend := Toy.backend Toy.f_two Toy.f_one Toy.f_one in
  let r := fst (counterfactual Toy.obs0 (Some Toy.intervention0) 2 Toy.state0) in
  exists m, r = Ok m /\
            dict_keys m = counterfactual_names /\
            dict_get "age" m = Some 5%Z /\ dict_get "sex" m = Some 1%Z.
Proof.
  intros C B r.
  exists [("x", 65%Z); ("z", 9%Z); ("sex", 1%Z); ("age", 5%Z);
          ("ventricle_volume", 20%Z); ("brain_volume", 30%Z)].
  repeat split; vm_compute; reflexivity.
Qed.

Lemma steps_reject_incomplete_batch_witness :
  let C : Carrier := Toy.carrier in
  let B : Backend := Toy.backend Toy.f_two Toy.f_one Toy.f_one in
  let self := SVIExperiment_init Toy.hparams0 in
  find (fun k => negb (dict_mem k Toy.batch_no_sex)) raw_keys = Some "sex" /\
  training_step self Toy.batch_no_sex 0 Toy.state0
    = (Raise (KeyError "sex"), Toy.state0) /\
  validation_step self Toy.batch_no_sex 0 Toy.state0
    = (Raise (KeyError "sex"), Toy.state0) /\
  test_step self Toy.batch_no_sex 0 Toy.state0
    = (Raise (KeyError "sex"), Toy.state0).
Proof.
  intros C B self.
  assert (H : find (fun k => negb (dict_mem k Toy.batch_no_sex)) raw_keys
              = Some "sex") by reflexivity.
  split; [exact H|].
  exact (@steps_reject_incomplete_batch C B self Toy.batch_no_sex 0 Toy.state0
           "sex" H).
Defined.

Lemma parse_filters_of_written_list_witness :
  Toy.written_filters <> [] /\
  Forall (well_padded 4300) Toy.written_filters /\
  parse_filters 4300 "16, 32,64 , 128 " = Ok [16; 32; 64; 128]%Z.
Proof.
  assert (Hne : Toy.written_filters <> []) by discriminate.
  assert (Hpad : Forall (well_padded 4300) Toy.written_filters).
  { repeat (apply Forall_cons;
              [split; [reflexivity | split; [reflexivity|]];
               right; apply Nat.leb_le; vm_compute; reflexivity |]).
    apply Forall_nil. }
  split; [exact Hne|]. split; [exact Hpad|].
  exact (parse_filters_of_written_list 4300 Toy.written_filters Hne Hpad).
Defined.

Lemma parse_filters_field_count_witness :
  parse_filters 4300 "16,32,64,128" = Ok [16; 32; 64; 128]%Z /\
  List.length [16; 32; 64; 128]%Z = S (count_commas "16,32,64,128") /\
  Exists (fun f => all_chars is_space f = true) (split_comma "128,64, ") /\
  exists msg, parse_filters 4300 "128,64, " = Raise (ValueError msg).
Proof.
  destruct (parse_filters_field_count 4300 "16,32,64,128") as (Hlen & _ & _).
  destruct (parse_filters_field_count 4300 "128,64, ") as (_ & Hblank & _).
  assert (Hrun : parse_filters 4300 "16,32,64,128" = Ok [16; 32; 64; 128]%Z)
    by reflexivity.
  assert (Hex : Exists (fun f => all_chars is_space f = true)
                  (split_comma "128,64, ")).
  { simpl. do 2 apply Exists_cons_tl. apply Exists_cons_hd. reflexivity. }
  split; [exact Hrun|]. split; [exact (Hlen _ Hrun)|].
  split; [exact Hex | exact (Hblank Hex)].
Defined.

Lemma per_param_callable_settings_witness :
  (exists pre post, "age_flow_components.0" = pre ++ "flow_components" ++ post) /\
  dict_get "lr" (per_param_callable Toy.optim0 "age_flow_components.0" "weight")
    = Some (OptFloat Toy.f_two) /\
  ~ (exists pre post, "encoder.conv1" = pre ++ "flow_components" ++ post) /\
  dict_get "lr" (per_param_callable Toy.optim0 "encoder.conv1" "weight")
    = Some (OptFloat Toy.f_one).
Proof.
  assert (Hyes : exists pre post,
             "age_flow_components.0" = pre ++ "flow_components" ++ post)
    by (exists "age_", ".0"; reflexivity).
  assert (Hno : ~ (exists pre post,
                      "encoder.conv1" = pre ++ "flow_components" ++ post)).
  { intros H. apply str_contains_spec in H. discriminate H. }
  destruct (per_param_callable_settings Toy.optim0 "age_flow_components.0"
              "weight") as (Hpgm & _).
  destruct (per_param_callable_settings Toy.optim0 "encoder.conv1" "weight")
    as (_ & Hlr & _).
  split; [exact Hyes|]. split; [exact (Hpgm Hyes)|].
  split; [exact Hno | exact (Hlr Hno)].
Defined.
